(** * Asset-preservation digital twin: a shallow embedding of the control loop

    The development follows the Python sources of the repository:
    - [backend/src/processing/stress_calculator.py]  (module [Stress])
    - [anomaly_detection.py]                          (module [Anomaly])
    - [path_planning.py]                              (module [Planner])
    - [digital_twin_engine.py]                        (module [Engine])
    - [backend/src/ml/feature_engineering.py]         (module [Features])
    The NumPy and pandas operations that these sources call are modelled in
    the modules [Numpy] and [Pandas]; the fitted scikit-learn model is an
    opaque record of functions.

    Python floats are idealised as real numbers ([R]): rounding is not
    modelled, and every comparison, [min] and [max] of the sources is read over
    the reals.  The one float operation of these sources that raises on a
    result too large for a float, the power [**], raises in the model when the
    exact result is above the largest float.  Exceptions are values of
    [result]; a function of the sources that can raise returns [result A],
    written in monadic style.  The definitions come first, the properties
    follow from [Properties] on. *)

From Stdlib Require Import Reals Lra Lia ZArith List String Ascii.
From stdpp Require Import gmap strings list.

Open Scope R_scope.

(** ** Python runtime: exceptions and float division *)

Module Py.

Inductive exn : Type :=
| RuntimeError (msg : string)
| ValueError (msg : string)
| KeyError (key : string)
| TypeError (msg : string)
| NotFittedError
| ZeroDivisionError
| OverflowError.

Inductive result (A : Type) : Type :=
| Ok (a : A)
| Raise (e : exn).
Arguments Ok {A} a.
Arguments Raise {A} e.

#[global] Instance result_ret : MRet result := fun A a => Ok a.
#[global] Instance result_bind : MBind result := fun A B f m =>
  match m with
  | Ok a => f a
  | Raise e => Raise e
  end.
#[global] Instance result_fmap : FMap result := fun A B f m =>
  match m with
  | Ok a => Ok (f a)
  | Raise e => Raise e
  end.

Definition is_ok {A} (m : result A) : Prop := exists a, m = Ok a.

(** Decidable comparisons on floats, as the [if] conditions of the sources. *)
#[global] Instance Rle_decision : RelDecision Rle := Rle_dec.
#[global] Instance Rlt_decision : RelDecision Rlt := Rlt_dec.
#[global] Instance Rge_decision : RelDecision Rge := Rge_dec.
#[global] Instance Rgt_decision : RelDecision Rgt := Rgt_dec.
#[global] Instance Req_decision : EqDecision R := Req_dec_T.

(** [a / b] on Python floats raises when the divisor is zero. *)
Definition truediv (a b : R) : result R :=
  if decide (b = 0) then Raise ZeroDivisionError else Ok (a / b).



(** Values stored in the dictionaries that the components exchange. *)
Inductive pyval : Type :=
| PyNone
| PyBool (b : bool)
| PyInt (z : Z)
| PyFloat (r : R)
| PyStr (s : string).

(** [v == s] for a string literal [s]. *)
Definition eq_str (v : pyval) (s : string) : bool :=
  match v with
  | PyStr t => bool_decide (t = s)
  | _ => false
  end.

(** [d[k]] on a dictionary. *)
Definition getitem (d : gmap string pyval) (k : string) : result pyval :=
  match d !! k with
  | Some v => Ok v
  | None => Raise (KeyError k)
  end.

(** [d.get(k, dflt)]. *)
Definition get (d : gmap string pyval) (k : string) (dflt : pyval) : pyval :=
  default dflt (d !! k).

Definition as_float (v : pyval) : result R :=
  match v with
  | PyFloat r => Ok r
  | PyInt z => Ok (IZR z)
  | PyBool b => Ok (if b then 1 else 0)
  | _ => Raise (TypeError "float expected")
  end.

End Py.
Import Py.

(** ** Structural stress model ([stress_calculator.py], [drone_config.py]) *)

Module Stress.

Inductive FrameType := FrameX | FramePLUS | FrameH | FrameCUSTOM.
Inductive MaterialType := CARBON_FIBER | ALUMINUM | PLASTIC | COMPOSITE.

Record MotorConfig := {
  motor_id : Z;
  max_thrust_n : R;
  max_rpm : Z;
  motor_weight_kg : R;
  expected_lifetime_hours : R;
  critical_temp_celsius : R
}.

Record ArmConfig := {
  arm_id : Z;
  length_m : R;
  cross_section_area_m2 : R;
  material : MaterialType;
  thickness_mm : R;
  max_bending_stress_mpa : R;
  fatigue_limit_mpa : R;
  arm_motor_id : Z
}.

Record BatteryConfig := {
  capacity_mah : Z;
  voltage_nominal : R;
  voltage_max : R;
  voltage_min : R;
  chemistry : string;
  cells : Z;
  battery_weight_kg : R;
  max_discharge_c : R;
  max_charge_c : R;
  expected_cycle_life : Z
}.

Record DroneConfig := {
  drone_id : string;
  model_name : string;
  frame_type : FrameType;
  total_weight_kg : R;
  frame_material : MaterialType;
  wheelbase_m : R;
  motors : list MotorConfig;
  arms : list ArmConfig;
  battery : option BatteryConfig;
  drag_coefficient : R;
  frontal_area_m2 : R;
  max_speed_ms : R;
  max_climb_rate_ms : R;
  max_bank_angle_deg : R;
  max_yaw_rate_degs : R;
  max_wind_speed_ms : R
}.

(** [DroneConfig] properties. *)
Definition num_motors (c : DroneConfig) : nat := length (motors c).

Definition total_max_thrust_n (c : DroneConfig) : R :=
  fold_left (fun acc m => acc + max_thrust_n m) (motors c) 0.

Definition hover_throttle_percent (c : DroneConfig) : R :=
  if decide (total_max_thrust_n c = 0) then 0
  else
    let weight_n := total_weight_kg c * 9.81 in
    (weight_n / total_max_thrust_n c) * 100.

(** The dictionary returned by [calculate_flight_stress]. *)
Record Components := {
  comp_motors : R;
  comp_arms : R;
  comp_battery : R
}.

Record StressAssessment := {
  overall_stress : R;
  g_stress : R;
  wind_stress : R;
  temperature_stress : R;
  altitude_stress : R;
  motor_stress : R;
  arm_stress : R;
  battery_stress : R;
  components : Components
}.

Section StressCalculator.
Variable config : DroneConfig.

Definition _calculate_g_stress (g_force : R) : R :=
  if decide (g_force <= 1) then 0
  else
    let normalized := (g_force - 1) / 4 in
    let stress := 100 * (1 - exp (- 3 * normalized)) in
    Rmin 100 stress.

Definition _calculate_wind_stress (wind_speed : R) : result R :=
  if decide (wind_speed <= 0) then Ok 0
  else
    wind_ratio ← truediv wind_speed (max_wind_speed_ms config);
    if decide (wind_ratio < 0.5) then Ok (wind_ratio * 40)
    else if decide (wind_ratio < 0.8) then Ok (20 + (wind_ratio - 0.5) * 100)
    else Ok (50 + (wind_ratio - 0.8) * 250).

Definition _calculate_temperature_stress (temperature : R) : R :=
  if decide (15 <= temperature /\ temperature <= 35) then 0
  else
    let stress :=
      if decide (temperature < 15) then (15 - temperature) * 3
      else (temperature - 35) * 4 in
    Rmin 100 (Rmax 0 stress).

Definition _calculate_altitude_stress (altitude : R) : R :=
  if decide (altitude < 1000) then 0
  else
    let altitude_km := altitude / 1000 in
    let stress := altitude_km * 5 in
    Rmin 50 stress.

Definition _calculate_motor_stress (g_force temperature : R) : R :=
  let base_load := hover_throttle_percent config / 100 in
  let g_load := g_force * base_load in
  let throttle := Rmin 100 (g_load * 100) in
  let temp_factor :=
    if decide (temperature > 30) then 1 + (temperature - 30) * 0.02
    else if decide (temperature < 10) then 1 + (10 - temperature) * 0.01
    else 1 in
  let motor_stress := throttle * temp_factor * 0.8 in
  Rmin 100 motor_stress.

Definition _calculate_arm_stress (g_force : R) : result R :=
  match arms config with
  | [] => Ok 0
  | arm :: _ =>
      let weight_force := total_weight_kg config * 9.81 * g_force in
      force_per_arm ← truediv weight_force (INR (num_motors config));
      bending_stress ←
        truediv (force_per_arm * length_m arm)
                (cross_section_area_m2 arm * 1e6);
      ratio ← truediv bending_stress (max_bending_stress_mpa arm);
      let stress_percentage := ratio * 100 in
      Ok (Rmin 100 (Rmax 0 stress_percentage))
  end.

Definition _calculate_battery_stress (temperature : R) : R :=
  if decide (20 <= temperature /\ temperature <= 30) then 0
  else
    let stress :=
      if decide (temperature < 20) then (20 - temperature) * 2
      else (temperature - 30) * 3 in
    Rmin 100 (Rmax 0 stress).

Definition calculate_flight_stress
    (g_force wind_speed air_temperature altitude : R) : result StressAssessment :=
  let g_stress := _calculate_g_stress g_force in
  wind_stress ← _calculate_wind_stress wind_speed;
  let temp_stress := _calculate_temperature_stress air_temperature in
  let altitude_stress := _calculate_altitude_stress altitude in
  let motor_stress := _calculate_motor_stress g_force air_temperature in
  arm_stress ← _calculate_arm_stress g_force;
  let battery_stress := _calculate_battery_stress air_temperature in
  let overall_stress :=
    g_stress * 0.4 + wind_stress * 0.2 + temp_stress * 0.15
    + motor_stress * 0.15 + arm_stress * 0.1 in
  Ok {| overall_stress := Rmin 100 (Rmax 0 overall_stress);
        g_stress := g_stress;
        wind_stress := wind_stress;
        temperature_stress := temp_stress;
        altitude_stress := altitude_stress;
        motor_stress := motor_stress;
        arm_stress := arm_stress;
        battery_stress := battery_stress;
        components := {| comp_motors := motor_stress;
                         comp_arms := arm_stress;
                         comp_battery := battery_stress |} |}.
End StressCalculator.

(** The standard 450 mm quadcopter of [scripts/create_drone_configs.py]. *)
Definition standard_quadcopter : DroneConfig :=
  let motor i :=
    {| motor_id := i; max_thrust_n := 20; max_rpm := 8000;
       motor_weight_kg := 0.055; expected_lifetime_hours := 200;
       critical_temp_celsius := 85 |} in
  let arm i :=
    {| arm_id := i; length_m := 0.225; cross_section_area_m2 := 0.0001;
       material := CARBON_FIBER; thickness_mm := 2;
       max_bending_stress_mpa := 600; fatigue_limit_mpa := 300;
       arm_motor_id := i |} in
  {| drone_id := "QUAD_450_01";
     model_name := "Standard 450mm Quadcopter";
     frame_type := FrameX;
     total_weight_kg := 1.5;
     frame_material := CARBON_FIBER;
     wheelbase_m := 0.450;
     motors := [motor 1%Z; motor 2%Z; motor 3%Z; motor 4%Z];
     arms := [arm 1%Z; arm 2%Z; arm 3%Z; arm 4%Z];
     battery := None;
     drag_coefficient := 0.6;
     frontal_area_m2 := 0.09;
     max_speed_ms := 15;
     max_climb_rate_ms := 5;
     max_bank_angle_deg := 45;
     max_yaw_rate_degs := 180;
     max_wind_speed_ms := 8 |}.

(** A specification is physical when its weight and motor thrusts are not
    negative. *)
Definition physical (c : DroneConfig) : Prop :=
  0 <= total_weight_kg c /\ Forall (fun m => 0 <= max_thrust_n m) (motors c).

End Stress.

(** ** NumPy primitives used by the planner *)

Module Numpy.

(** [np.linspace(start, stop, num)] with the default [endpoint=True]: the
    samples are [i * step + start] and the last one is overwritten by [stop]. *)
Definition linspace (start stop : R) (num : nat) : list R :=
  let div := (num - 1)%nat in
  let step := (stop - start) / INR div in
  let y := map (fun i => INR i * step + start) (seq 0 num) in
  if decide (1 < num)%nat then <[div := stop]> y else y.

Definition point : Type := R * R * R.

(** [np.column_stack([x, y, z])]: one row per index. *)
Definition column_stack (x y z : list R) : list point :=
  zip_with (fun xy c => (xy.1, xy.2, c)) (zip x y) z.

Definition px (p : point) : R := p.1.1.
Definition py (p : point) : R := p.1.2.
Definition pz (p : point) : R := p.2.

(** [np.diff] along the rows. *)
Fixpoint diff (l : list R) : list R :=
  match l with
  | a :: (b :: _) as tl => (b - a) :: diff tl
  | _ => []
  end.

Fixpoint diff_rows (l : list point) : list point :=
  match l with
  | a :: (b :: _) as tl => (px b - px a, py b - py a, pz b - pz a) :: diff_rows tl
  | _ => []
  end.

Definition norm (v : point) : R := sqrt (px v * px v + py v * py v + pz v * pz v).
Definition dot (u v : point) : R := px u * px v + py u * py v + pz u * pz v.
Definition clip (x lo hi : R) : R := Rmin hi (Rmax lo x).
Definition sum (l : list R) : R := fold_left Rplus l 0.
Definition mean (l : list R) : R := sum l / INR (length l).
Definition var (l : list R) : R :=
  let m := mean l in mean (map (fun x => (x - m) * (x - m)) l).

End Numpy.

(** ** Risk scorer ([anomaly_detection.py]) *)

Module Anomaly.

(** The fitted scaler and isolation forest are an opaque model: only the
    operations the detector calls on them are visible. *)
Record Fitted := {
  scaler_transform : list R -> result (list R);
  forest_predict : list R -> Z;
  forest_score_samples : list R -> R
}.

(** A two-dimensional array of training data, with its [shape[1]]. *)
Record ndarray2 := {
  shape1 : nat;
  rows : list (list R)
}.

Record AnomalyDetector := {
  fitted : option Fitted;
  is_trained : bool;
  feature_names : list string
}.

Definition new : AnomalyDetector :=
  {| fitted := None;
     is_trained := false;
     feature_names := ["battery_level"; "temperature"; "vibration";
                       "altitude"; "speed"; "motor_current"]%string |}.

Section Detector.
(** [scaler.fit_transform] followed by [model.fit]. *)
Variable sklearn_fit : ndarray2 -> result Fitted.

Definition train (self : AnomalyDetector) (telemetry_data : ndarray2)
  : result AnomalyDetector :=
  if decide (shape1 telemetry_data ≠ length (feature_names self)) then
    Raise (ValueError "Expected features")
  else
    f ← sklearn_fit telemetry_data;
    Ok {| fitted := Some f;
          is_trained := true;
          feature_names := feature_names self |}.

(** What a fit that raises leaves of the scaler and the forest it worked on:
    the scaler is reset before its data is checked, so the objects fitted
    before are not kept as they were. *)
Variable sklearn_left : option Fitted -> ndarray2 -> option Fitted.

(** The detector after a call of [train] that raised.  The column check
    raises before anything is touched; a fit that raises has changed the
    scaler and the forest in place, while [is_trained] stays as it was. *)
Definition after_failed_train (self : AnomalyDetector) (telemetry_data : ndarray2)
  : AnomalyDetector :=
  if decide (shape1 telemetry_data ≠ length (feature_names self)) then self
  else {| fitted := sklearn_left (fitted self) telemetry_data;
          is_trained := is_trained self;
          feature_names := feature_names self |}.
End Detector.

Definition predict (self : AnomalyDetector) (telemetry_sample : list R)
  : result (Z * R) :=
  if negb (is_trained self) then
    Raise (RuntimeError "Model must be trained before prediction")
  else
    match fitted self with
    | None => Raise NotFittedError
    | Some f =>
        scaled_sample ← scaler_transform f telemetry_sample;
        let prediction := forest_predict f scaled_sample in
        let anomaly_score := - forest_score_samples f scaled_sample in
        let anomaly_score := 1 / (1 + exp (- anomaly_score)) in
        Ok (prediction, anomaly_score)
    end.

(** The [if]/[elif] chain of [detect_failure_risk]. *)
Definition risk_level_of (anomaly_score : R) : string :=
  if decide (anomaly_score < 0.3) then "LOW"
  else if decide (anomaly_score < 0.6) then "MEDIUM"
  else if decide (anomaly_score < 0.8) then "HIGH"
  else "CRITICAL".

Definition _get_recommendation (risk_level : string) (telemetry_sample : list R)
  : string :=
  if bool_decide (risk_level = "CRITICAL") then
    "IMMEDIATE ACTION: Land drone immediately and perform maintenance"
  else if bool_decide (risk_level = "HIGH") then
    "Return to base for inspection"
  else if bool_decide (risk_level = "MEDIUM") then
    "Monitor closely and reduce flight intensity"
  else "Continue normal operations".

Definition detect_failure_risk (self : AnomalyDetector) (telemetry_sample : list R)
  : result (gmap string pyval) :=
  '(prediction, anomaly_score) ← predict self telemetry_sample;
  let risk_level := risk_level_of anomaly_score in
  Ok (<["is_anomaly" := PyBool (bool_decide (prediction = (-1)%Z))]>
      (<["anomaly_score" := PyFloat anomaly_score]>
      (<["risk_level" := PyStr risk_level]>
      (<["recommendation" :=
           PyStr (_get_recommendation risk_level telemetry_sample)]> ∅)))).

(** A fitted model that scores every sample 0 and flags none. *)
Definition constant_model : Fitted :=
  {| scaler_transform := fun sample => Ok sample;
     forest_predict := fun _ => 1%Z;
     forest_score_samples := fun _ => 0 |}.

Definition fit_constant (telemetry_data : ndarray2) : result Fitted :=
  Ok constant_model.

(** A failed fit that leaves the scaler reset, hence nothing fitted. *)
Definition left_unfitted (before : option Fitted) (telemetry_data : ndarray2)
  : option Fitted := None.

Definition trained_detector : AnomalyDetector :=
  {| fitted := Some constant_model;
     is_trained := true;
     feature_names := feature_names new |}.

End Anomaly.

(** ** Trajectory planner ([path_planning.py]) *)

Module Planner.
Import Numpy.

Record AdaptivePathPlanner := {
  safety_margin : R;
  current_path : option (list point);
  waypoints : list point
}.

Definition new (safety_margin : R) : AdaptivePathPlanner :=
  {| safety_margin := safety_margin; current_path := None; waypoints := [] |}.

(** [plan_initial_path] stores the path in the planner and returns it. *)
Definition plan_initial_path (self : AdaptivePathPlanner) (start stop : point)
  : AdaptivePathPlanner * list point :=
  let num_points := 20%nat in
  let x := linspace (px start) (px stop) num_points in
  let y := linspace (py start) (py stop) num_points in
  let z := linspace (pz start) (pz stop) num_points in
  let path := column_stack x y z in
  ({| safety_margin := safety_margin self;
      current_path := Some path;
      waypoints := path |}, path).

Definition _emergency_landing_path (current_position : point) : list point :=
  let '(x, y, z) := current_position in
  let num_points := 10%nat in
  let landing_x := x + 5 in
  let landing_y := y + 5 in
  let x_path := linspace x landing_x num_points in
  let y_path := linspace y landing_y num_points in
  let z_path := linspace z 0 num_points in
  column_stack x_path y_path z_path.

Definition _conservative_path (current_position destination : point) : list point :=
  let '(x_curr, y_curr, z_curr) := current_position in
  let '(x_dest, y_dest, z_dest) := destination in
  let safe_altitude := Rmin (z_curr * 0.7) z_dest in
  let num_points := 25%nat in
  let x_path := linspace x_curr x_dest num_points in
  let y_path := linspace y_curr y_dest num_points in
  (* z_path = np.ones(num_points) * safe_altitude *)
  let z_path := replicate num_points (1 * safe_altitude) in
  (* z_path[0] = z_curr; z_path[-1] = z_dest *)
  let z_path := <[0%nat := z_curr]> z_path in
  let z_path := <[(length z_path - 1)%nat := z_dest]> z_path in
  (* z_path[:5] = np.linspace(z_curr, safe_altitude, 5) *)
  let z_path := linspace z_curr safe_altitude 5 ++ drop 5 z_path in
  (* z_path[-5:] = np.linspace(safe_altitude, z_dest, 5) *)
  let z_path := take (length z_path - 5) z_path ++ linspace safe_altitude z_dest 5 in
  column_stack x_path y_path z_path.

Definition _cautious_path (current_position destination : point) : list point :=
  let num_points := 30%nat in
  let x := linspace (px current_position) (px destination) num_points in
  let y := linspace (py current_position) (py destination) num_points in
  let z := linspace (pz current_position) (pz destination) num_points in
  column_stack x y z.

Definition _optimal_path (current_position destination : point) : list point :=
  let num_points := 20%nat in
  let x := linspace (px current_position) (px destination) num_points in
  let y := linspace (py current_position) (py destination) num_points in
  let z := linspace (pz current_position) (pz destination) num_points in
  column_stack x y z.

Definition optimize_trajectory (current_position : point)
    (risk_assessment : gmap string pyval) (destination : point) : list point :=
  let risk_level := get risk_assessment "risk_level" (PyStr "LOW") in
  if eq_str risk_level "CRITICAL" then
    _emergency_landing_path current_position
  else if eq_str risk_level "HIGH" then
    _conservative_path current_position destination
  else if eq_str risk_level "MEDIUM" then
    _cautious_path current_position destination
  else
    _optimal_path current_position destination.

Record PathMetrics := {
  total_distance : R;
  total_altitude_change : R;
  smoothness : R;
  num_waypoints : nat
}.

(** The angles between consecutive direction vectors. *)
Fixpoint turn_angles (vectors : list point) : list R :=
  match vectors with
  | u :: (v :: _) as tl =>
      let cos_angle := dot u v / (norm u * norm v + 1e-10) in
      acos (clip cos_angle (-1) 1) :: turn_angles tl
  | _ => []
  end.

Definition calculate_path_metrics (path : list point) : PathMetrics :=
  let distances := map norm (diff_rows path) in
  let total_distance := sum distances in
  let altitude_changes := map Rabs (diff (map pz path)) in
  let total_altitude_change := sum altitude_changes in
  let smoothness :=
    if decide (2 < length path)%nat then
      let vectors := diff_rows path in
      let angles := turn_angles vectors in
      1 / (1 + var angles)
    else 1 in
  {| total_distance := total_distance;
     total_altitude_change := total_altitude_change;
     smoothness := smoothness;
     num_waypoints := length path |}.

End Planner.

(** ** Digital twin orchestrator ([digital_twin_engine.py])

    The engine is a mutable object: every method takes the engine and returns
    its outcome together with the engine as the call leaves it, so that a
    raised exception keeps the mutations made before it. *)

Module Engine.
Import Numpy.

Record CurrentState := {
  position : point;
  velocity : point;
  telemetry : option (list R);
  risk_assessment : option (gmap string pyval);
  current_path : option (list point)
}.

Record History := {
  h_telemetry : list (list R);
  h_risk_assessments : list (gmap string pyval);
  h_positions : list point;
  h_timestamps : list R
}.

Record DigitalTwinEngine := {
  anomaly_detector : Anomaly.AnomalyDetector;
  path_planner : Planner.AdaptivePathPlanner;
  current_state : CurrentState;
  history : History;
  is_initialized : bool;
  mission_active : bool
}.

Definition new (safety_margin : R) : DigitalTwinEngine :=
  {| anomaly_detector := Anomaly.new;
     path_planner := Planner.new safety_margin;
     current_state := {| position := (0, 0, 0);
                         velocity := (0, 0, 0);
                         telemetry := None;
                         risk_assessment := None;
                         current_path := None |};
     history := {| h_telemetry := [];
                   h_risk_assessments := [];
                   h_positions := [];
                   h_timestamps := [] |};
     is_initialized := false;
     mission_active := false |}.

Record MissionInfo := {
  mi_status : string;
  mi_start_position : point;
  mi_end_position : point;
  mi_initial_path : list point;
  mi_path_metrics : Planner.PathMetrics
}.

Record Response := {
  r_timestamp : R;
  r_position : point;
  r_risk_assessment : gmap string pyval;
  path_update_required : bool;
  new_path : option (list point)
}.

Record Replan := {
  rp_new_path : list point;
  rp_path_metrics : Planner.PathMetrics;
  rp_risk_level : pyval
}.

Record RiskSummary := {
  low_count : nat;
  medium_count : nat;
  high_count : nat;
  critical_count : nat;
  avg_anomaly_score : R;
  max_anomaly_score : R
}.

Record Status := {
  st_initialized : bool;
  st_mission_active : bool;
  st_current_position : point;
  st_current_risk : option (gmap string pyval);
  st_total_updates : nat;
  st_risk_summary : option RiskSummary
}.

Record Summary := {
  total_telemetry_updates : nat;
  final_position : point;
  final_risk : option (gmap string pyval);
  sm_risk_summary : option RiskSummary
}.

Section Orchestrator.
Variable sklearn_fit : Anomaly.ndarray2 -> result Anomaly.Fitted.
Variable sklearn_left : option Anomaly.Fitted -> Anomaly.ndarray2 -> option Anomaly.Fitted.

(** [initialize] catches every exception of the training and reports it as
    [False]; the detector keeps what the failed training did to it, and the
    engine stays initialised if it was. *)
Definition initialize (self : DigitalTwinEngine) (training_data : Anomaly.ndarray2)
  : bool * DigitalTwinEngine :=
  match Anomaly.train sklearn_fit (anomaly_detector self) training_data with
  | Ok detector =>
      (true,
       {| anomaly_detector := detector;
          path_planner := path_planner self;
          current_state := current_state self;
          history := history self;
          is_initialized := true;
          mission_active := mission_active self |})
  | Raise _ =>
      (false,
       {| anomaly_detector :=
            Anomaly.after_failed_train sklearn_left (anomaly_detector self)
              training_data;
          path_planner := path_planner self;
          current_state := current_state self;
          history := history self;
          is_initialized := is_initialized self;
          mission_active := mission_active self |})
  end.
End Orchestrator.

Definition start_mission (self : DigitalTwinEngine) (start_position end_position : point)
  : result MissionInfo * DigitalTwinEngine :=
  if negb (is_initialized self) then
    (Raise (RuntimeError "Engine must be initialized before starting mission"), self)
  else
    let '(planner, initial_path) :=
      Planner.plan_initial_path (path_planner self) start_position end_position in
    let state := current_state self in
    let self :=
      {| anomaly_detector := anomaly_detector self;
         path_planner := planner;
         current_state := {| position := start_position;
                             velocity := velocity state;
                             telemetry := telemetry state;
                             risk_assessment := risk_assessment state;
                             current_path := Some initial_path |};
         history := history self;
         is_initialized := is_initialized self;
         mission_active := true |} in
    let path_metrics := Planner.calculate_path_metrics initial_path in
    (Ok {| mi_status := "ACTIVE";
           mi_start_position := start_position;
           mi_end_position := end_position;
           mi_initial_path := initial_path;
           mi_path_metrics := path_metrics |}, self).

(** [now] is the reading of [datetime.now()] taken by the call. *)
Definition update_telemetry (self : DigitalTwinEngine) (sample : list R)
    (current_position : point) (now : R) : result Response * DigitalTwinEngine :=
  if negb (is_initialized self) then
    (Raise (RuntimeError "Engine must be initialized"), self)
  else
    let timestamp := now in
    match Anomaly.detect_failure_risk (anomaly_detector self) sample with
    | Raise e => (Raise e, self)
    | Ok assessment =>
        let state := current_state self in
        let hist := history self in
        let self :=
          {| anomaly_detector := anomaly_detector self;
             path_planner := path_planner self;
             current_state := {| position := current_position;
                                 velocity := velocity state;
                                 telemetry := Some sample;
                                 risk_assessment := Some assessment;
                                 current_path := current_path state |};
             history := {| h_telemetry := h_telemetry hist ++ [sample];
                           h_risk_assessments := h_risk_assessments hist ++ [assessment];
                           h_positions := h_positions hist ++ [current_position];
                           h_timestamps := h_timestamps hist ++ [timestamp] |};
             is_initialized := is_initialized self;
             mission_active := mission_active self |} in
        match getitem assessment "risk_level" with
        | Raise e => (Raise e, self)
        | Ok risk_level =>
            let required :=
              eq_str risk_level "MEDIUM" || eq_str risk_level "HIGH"
              || eq_str risk_level "CRITICAL" in
            (Ok {| r_timestamp := timestamp;
                   r_position := current_position;
                   r_risk_assessment := assessment;
                   path_update_required := required;
                   new_path := None |}, self)
        end
    end.

(** Truth value of [self.current_state['risk_assessment']]. *)
Definition truthy (d : option (gmap string pyval)) : bool :=
  match d with
  | None => false
  | Some m => negb (bool_decide (dom m = ∅))
  end.

Definition replan_trajectory (self : DigitalTwinEngine) (current_position destination : point)
  : result Replan * DigitalTwinEngine :=
  if negb (truthy (risk_assessment (current_state self))) then
    (Raise (RuntimeError "No risk assessment available"), self)
  else
    match risk_assessment (current_state self) with
    | None => (Raise (RuntimeError "No risk assessment available"), self)
    | Some assessment =>
        let path := Planner.optimize_trajectory current_position assessment destination in
        let state := current_state self in
        let self :=
          {| anomaly_detector := anomaly_detector self;
             path_planner := path_planner self;
             current_state := {| position := position state;
                                 velocity := velocity state;
                                 telemetry := telemetry state;
                                 risk_assessment := risk_assessment state;
                                 current_path := Some path |};
             history := history self;
             is_initialized := is_initialized self;
             mission_active := mission_active self |} in
        let path_metrics := Planner.calculate_path_metrics path in
        match getitem assessment "risk_level" with
        | Raise e => (Raise e, self)
        | Ok risk_level =>
            (Ok {| rp_new_path := path;
                   rp_path_metrics := path_metrics;
                   rp_risk_level := risk_level |}, self)
        end
    end.

Definition count_level (levels : list pyval) (s : string) : nat :=
  length (filter (fun v => eq_str v s = true) levels).

(** [np.max] of a list of floats. *)
Definition maximum (l : list R) : R :=
  match l with
  | [] => 0
  | x :: tl => fold_left Rmax tl x
  end.

Definition get_system_status (self : DigitalTwinEngine) : result Status :=
  let assessments := h_risk_assessments (history self) in
  risk_summary ←
    (if decide (0 < length assessments)%nat then
       risk_levels ← mapM (fun r => getitem r "risk_level") assessments;
       anomaly_scores ←
         mapM (fun r => getitem r "anomaly_score" ≫= as_float) assessments;
       Ok (Some {| low_count := count_level risk_levels "LOW";
                   medium_count := count_level risk_levels "MEDIUM";
                   high_count := count_level risk_levels "HIGH";
                   critical_count := count_level risk_levels "CRITICAL";
                   avg_anomaly_score := mean anomaly_scores;
                   max_anomaly_score := maximum anomaly_scores |})
     else Ok None);
  Ok {| st_initialized := is_initialized self;
        st_mission_active := mission_active self;
        st_current_position := position (current_state self);
        st_current_risk := risk_assessment (current_state self);
        st_total_updates := length (h_timestamps (history self));
        st_risk_summary := risk_summary |}.

Definition stop_mission (self : DigitalTwinEngine) : result Summary * DigitalTwinEngine :=
  let self :=
    {| anomaly_detector := anomaly_detector self;
       path_planner := path_planner self;
       current_state := current_state self;
       history := history self;
       is_initialized := is_initialized self;
       mission_active := false |} in
  let summary risk :=
    {| total_telemetry_updates := length (h_timestamps (history self));
       final_position := position (current_state self);
       final_risk := risk_assessment (current_state self);
       sm_risk_summary := risk |} in
  if decide (0 < length (h_risk_assessments (history self)))%nat then
    match get_system_status self with
    | Ok status => (Ok (summary (st_risk_summary status)), self)
    | Raise e => (Raise e, self)
    end
  else (Ok (summary None), self).

(** The engines that the public operations produce from a fresh engine. *)
Inductive reachable (sklearn_fit : Anomaly.ndarray2 -> result Anomaly.Fitted)
    (sklearn_left : option Anomaly.Fitted -> Anomaly.ndarray2 -> option Anomaly.Fitted)
  : DigitalTwinEngine -> Prop :=
| reach_new margin : reachable sklearn_fit sklearn_left (new margin)
| reach_initialize self data :
    reachable sklearn_fit sklearn_left self ->
    reachable sklearn_fit sklearn_left (initialize sklearn_fit sklearn_left self data).2
| reach_start_mission self start_position end_position :
    reachable sklearn_fit sklearn_left self ->
    reachable sklearn_fit sklearn_left (start_mission self start_position end_position).2
| reach_update_telemetry self sample current_position now :
    reachable sklearn_fit sklearn_left self ->
    reachable sklearn_fit sklearn_left
      (update_telemetry self sample current_position now).2
| reach_replan_trajectory self current_position destination :
    reachable sklearn_fit sklearn_left self ->
    reachable sklearn_fit sklearn_left
      (replan_trajectory self current_position destination).2
| reach_stop_mission self :
    reachable sklearn_fit sklearn_left self ->
    reachable sklearn_fit sklearn_left (stop_mission self).2.

(** What every reachable engine satisfies: an initialised engine has a
    detector marked as trained, a mission is active on an initialised engine
    only, and the four history lists have the same length.  The fitted model
    itself may be gone after a training that failed. *)
Definition consistent (self : DigitalTwinEngine) : Prop :=
  (is_initialized self = true ->
   Anomaly.is_trained (anomaly_detector self) = true) /\
  (mission_active self = true -> is_initialized self = true) /\
  length (h_telemetry (history self)) = length (h_timestamps (history self)) /\
  length (h_risk_assessments (history self)) = length (h_timestamps (history self)) /\
  length (h_positions (history self)) = length (h_timestamps (history self)).

(** One row of normal telemetry, as training data and as a sample. *)
Definition normal_sample : list R := [90; 25; 1; 50; 10; 5].

Definition training_data : Anomaly.ndarray2 :=
  {| Anomaly.shape1 := 6; Anomaly.rows := [normal_sample] |}.

(** An engine initialised with a fitted model; no mission was started. *)
Definition initialized_engine : DigitalTwinEngine :=
  (initialize Anomaly.fit_constant Anomaly.left_unfitted (new 10) training_data).2.


End Engine.

(** ** Pandas primitives used by the feature pipeline

    A column holds floats that may be missing or infinite.  A [Series] is the
    list of its cells in index order; every frame of the pipeline is indexed
    by [0 .. n-1].  A missing field is the cell [NaN], also in a column of
    dtype [object] that holds [None]; the dtype of a column is tracked where
    the sources depend on it: [objects] in a feature frame,
    [Features.is_object] for a column of the telemetry frame. *)

Module Pandas.

Inductive cell : Type :=
| Num (r : R)
| NaN
| Inf (positive : bool).

Definition Series : Type := list cell.

Definition of_option (o : option R) : cell :=
  match o with
  | Some r => Num r
  | None => NaN
  end.

(** *** Float arithmetic with [nan] and [inf] *)

Definition neg (a : cell) : cell :=
  match a with
  | Num r => Num (- r)
  | NaN => NaN
  | Inf p => Inf (negb p)
  end.

Definition add (a b : cell) : cell :=
  match a, b with
  | NaN, _ | _, NaN => NaN
  | Num x, Num y => Num (x + y)
  | Inf p, Num _ | Num _, Inf p => Inf p
  | Inf p, Inf q => if bool_decide (p = q) then Inf p else NaN
  end.

Definition sub (a b : cell) : cell := add a (neg b).

(** Sign of a product or quotient with an infinite operand. *)
Definition sign_of (r : R) : bool := bool_decide (0 <= r).

Definition mul (a b : cell) : cell :=
  match a, b with
  | NaN, _ | _, NaN => NaN
  | Num x, Num y => Num (x * y)
  | Inf p, Num r | Num r, Inf p =>
      if decide (r = 0) then NaN else Inf (bool_decide (p = sign_of r))
  | Inf p, Inf q => Inf (bool_decide (p = q))
  end.

Definition div (a b : cell) : cell :=
  match a, b with
  | NaN, _ | _, NaN => NaN
  | Num x, Num y =>
      if decide (y = 0) then
        (if decide (x = 0) then NaN else Inf (sign_of x))
      else Num (x / y)
  | Num _, Inf _ => Num 0
  | Inf p, Num r => Inf (bool_decide (p = sign_of r))
  | Inf _, Inf _ => NaN
  end.

Definition square (a : cell) : cell := mul a a.

Definition csqrt (a : cell) : cell :=
  match a with
  | Num r => if decide (r < 0) then NaN else Num (sqrt r)
  | NaN => NaN
  | Inf true => Inf true
  | Inf false => NaN
  end.

(** [max] of two cells that are not [NaN]. *)
Definition cmax (a b : cell) : cell :=
  match a, b with
  | NaN, c | c, NaN => c
  | Inf true, _ | _, Inf true => Inf true
  | Inf false, c | c, Inf false => c
  | Num x, Num y => Num (Rmax x y)
  end.

Definition notna (a : cell) : bool :=
  match a with
  | NaN => false
  | _ => true
  end.

(** *** Series operations *)

Definition binop (f : cell -> cell -> cell) (a b : Series) : Series := zip_with f a b.

Definition fillna (v : R) (s : Series) : Series :=
  map (fun c => if notna c then c else Num v) s.

(** [s.replace(0, np.nan)]. *)
Definition replace_zero_nan (s : Series) : Series :=
  map (fun c => match c with
                | Num r => if decide (r = 0) then NaN else c
                | _ => c
                end) s.

(** [s.replace([np.inf, -np.inf], 0)]. *)
Definition replace_inf (s : Series) : Series :=
  map (fun c => match c with
                | Inf _ => Num 0
                | _ => c
                end) s.

(** [s.diff()]: the first cell is missing. *)
Fixpoint diff_from (prev : cell) (s : Series) : Series :=
  match s with
  | [] => []
  | c :: tl => sub c prev :: diff_from c tl
  end.

Definition diff (s : Series) : Series :=
  match s with
  | [] => []
  | c :: tl => NaN :: diff_from c tl
  end.

(** [s.fillna(method='ffill')]. *)
Fixpoint ffill_from (last : cell) (s : Series) : Series :=
  match s with
  | [] => []
  | c :: tl => if notna c then c :: ffill_from c tl else last :: ffill_from last tl
  end.

Definition ffill (s : Series) : Series := ffill_from NaN s.

(** [s.fillna(method='bfill')]. *)
Definition bfill (s : Series) : Series := rev (ffill (rev s)).

(** [s.cumsum()]: missing cells stay missing and are skipped by the sum. *)
Fixpoint cumsum_from (acc : cell) (s : Series) : Series :=
  match s with
  | [] => []
  | c :: tl =>
      if notna c then let acc := add acc c in acc :: cumsum_from acc tl
      else NaN :: cumsum_from acc tl
  end.

Definition cumsum (s : Series) : Series := cumsum_from (Num 0) s.

Definition count_notna (s : Series) : nat := length (filter (fun c => notna c = true) s).

Definition any_notna (s : Series) : bool := bool_decide (0 < count_notna s)%nat.

(** *** Rolling windows *)

Record Rolling := {
  r_series : Series;
  r_window : nat;
  r_min_periods : nat
}.

(** [s.rolling(window=window, min_periods=min_periods)]; the arguments are
    validated when the window object is built. *)
Definition rolling (s : Series) (window min_periods : Z) : result Rolling :=
  if decide (min_periods < 0)%Z then Raise (ValueError "min_periods must be >= 0")
  else if decide (min_periods > window)%Z then
    Raise (ValueError "min_periods must be <= window")
  else if decide (window < 0)%Z then
    Raise (ValueError "window must be an integer 0 or greater")
  else Ok {| r_series := s;
             r_window := Z.to_nat window;
             r_min_periods := Z.to_nat min_periods |}.

(** The window functions read the series as floats in which an infinite
    value counts as missing. *)
Definition prep_values (s : Series) : Series :=
  map (fun c => match c with
                | Inf _ => NaN
                | _ => c
                end) s.

(** The valid observations of the window that ends at index [i]. *)
Definition window_at (r : Rolling) (i : nat) : Series :=
  let lo := (S i - r_window r)%nat in
  filter (fun c => notna c = true)
         (drop lo (take (S i) (prep_values (r_series r)))).

Definition aggregate (r : Rolling) (min_obs : nat) (f : Series -> cell) : Series :=
  map (fun i =>
         let w := window_at r i in
         if decide (Nat.max (r_min_periods r) min_obs <= length w)%nat
         then f w else NaN)
      (seq 0 (length (r_series r))).

Definition csum (w : Series) : cell := fold_left add w (Num 0).

Definition cmean (w : Series) : cell := div (csum w) (Num (INR (length w))).

(** Sample standard deviation ([ddof=1]). *)
Definition cstd (w : Series) : cell :=
  let m := cmean w in
  let dev := map (fun c => square (sub c m)) w in
  csqrt (div (csum dev) (Num (INR (length w - 1)))).

Definition cmaximum (w : Series) : cell := fold_left cmax w NaN.

Definition r_mean (r : Rolling) : Series := aggregate r 1 cmean.
Definition r_std (r : Rolling) : Series := aggregate r 2 cstd.
Definition r_max (r : Rolling) : Series := aggregate r 1 cmaximum.

(** *** Linear interpolation, [limit_direction='both'] *)

(** The next valid cell at or after the head of [s], with its distance. *)
Fixpoint next_valid (s : Series) : option (nat * cell) :=
  match s with
  | [] => None
  | c :: tl =>
      if notna c then Some (0%nat, c)
      else match next_valid tl with
           | Some (k, v) => Some (S k, v)
           | None => None
           end
  end.

(** [last] is the previous valid cell and [gap] the distance to it. *)
Fixpoint interpolate_from (last : option cell) (gap : nat) (s : Series) : Series :=
  match s with
  | [] => []
  | c :: tl =>
      if notna c then c :: interpolate_from (Some c) 1 tl
      else
        let filled :=
          match last, next_valid tl with
          | Some a, Some (k, b) =>
              add a (mul (Num (INR gap / INR (gap + S k))) (sub b a))
          | Some a, None => a
          | None, Some (_, b) => b
          | None, None => NaN
          end in
        filled :: interpolate_from last (S gap) tl
  end.

Definition interpolate (s : Series) : Series := interpolate_from None 0 s.

(** *** Frames *)

(** A frame has its columns in order; [objects] names the columns whose
    dtype is [object], every other column being numeric. *)
Record DataFrame := {
  index : nat;
  columns : list (string * Series);
  objects : list string
}.

(** [pd.DataFrame()] and [pd.DataFrame(index=...)]. *)
Definition empty_frame (n : nat) : DataFrame :=
  {| index := n; columns := []; objects := [] |}.

Definition has_column (f : DataFrame) (name : string) : bool :=
  bool_decide (name ∈ (columns f).*1).

(** [f[name] = s]: replaces the column when it exists, appends it otherwise. *)
Fixpoint assign (cols : list (string * Series)) (name : string) (s : Series)
  : list (string * Series) :=
  match cols with
  | [] => [(name, s)]
  | (k, v) :: tl =>
      if bool_decide (k = name) then (k, s) :: tl else (k, v) :: assign tl name s
  end.

(** [f[name] = s] for a numeric series [s]. *)
Definition setitem (f : DataFrame) (name : string) (s : Series) : DataFrame :=
  {| index := index f;
     columns := assign (columns f) name s;
     objects := filter (fun k => k ≠ name) (objects f) |}.

(** [f[name] = s] for a series [s] of object dtype. *)
Definition setitem_object (f : DataFrame) (name : string) (s : Series) : DataFrame :=
  {| index := index f;
     columns := assign (columns f) name s;
     objects := name :: filter (fun k => k ≠ name) (objects f) |}.

Definition setitem_as (object : bool) (f : DataFrame) (name : string) (s : Series)
  : DataFrame :=
  if object then setitem_object f name s else setitem f name s.

(** [f[name]] for a column that exists. *)
Definition getcol (f : DataFrame) (name : string) : result Series :=
  match list_find (fun kv => kv.1 = name) (columns f) with
  | Some (_, kv) => Ok kv.2
  | None => Raise (KeyError name)
  end.

Definition pad (n : nat) (s : Series) : Series := s ++ replicate (n - length s) NaN.

(** [pd.concat([a, b], axis=1)] on frames indexed from 0: the index is the
    union of the two and shorter columns are completed with [NaN]. *)
Definition concat (a b : DataFrame) : DataFrame :=
  let n := Nat.max (index a) (index b) in
  {| index := n;
     columns := map (fun kv => (kv.1, pad n kv.2)) (columns a ++ columns b);
     objects := objects a ++ objects b |}.

Definition map_columns (f : Series -> Series) (d : DataFrame) : DataFrame :=
  {| index := index d;
     columns := map (fun kv => (kv.1, f kv.2)) (columns d);
     objects := objects d |}.

(** An operation that leaves the columns of object dtype as they are. *)
Definition map_numeric (f : Series -> Series) (d : DataFrame) : DataFrame :=
  {| index := index d;
     columns := map (fun kv => if bool_decide (kv.1 ∈ objects d) then kv
                               else (kv.1, f kv.2)) (columns d);
     objects := objects d |}.

(** After a [fillna], a column of object dtype has the numeric dtype of its
    values. *)
Definition infer_objects (d : DataFrame) : DataFrame :=
  {| index := index d; columns := columns d; objects := [] |}.

(** [f.select_dtypes(include=[np.number]).columns]. *)
Definition numeric_cols (f : DataFrame) : list string :=
  filter (fun col => col ∉ objects f) (columns f).*1.

(** A frame is well formed for [n] rows when its index and each of its
    columns have [n] rows. *)
Definition well_formed (n : nat) (f : DataFrame) : Prop :=
  index f = n /\ Forall (fun kv => length kv.2 = n) (columns f).

End Pandas.

(** ** Feature pipeline ([feature_engineering.py]) *)

Module Features.
Import Pandas.

Record FeatureConfig := {
  window_size_seconds : R;
  rolling_window_size : Z;
  include_statistical : bool;
  include_frequency : bool;
  include_derivative : bool;
  include_flight_dynamics : bool;
  include_energy_metrics : bool;
  include_stress_indicators : bool;
  fill_method : string
}.

Definition default_config : FeatureConfig :=
  {| window_size_seconds := 1;
     rolling_window_size := 10;
     include_statistical := true;
     include_frequency := true;
     include_derivative := true;
     include_flight_dynamics := true;
     include_energy_metrics := true;
     include_stress_indicators := true;
     fill_method := "interpolate" |}.

(** The fields of [TelemetryRecord] that the extractor reads; the timestamp
    is in seconds. *)
Record TelemetryRecord := {
  timestamp : R;
  latitude : option R;
  longitude : option R;
  altitude : option R;
  ground_speed : option R;
  vertical_speed : option R;
  pitch : option R;
  roll : option R;
  yaw : option R;
  accel_x : option R;
  accel_y : option R;
  accel_z : option R;
  gyro_x : option R;
  gyro_y : option R;
  gyro_z : option R;
  battery_voltage : option R;
  battery_current : option R;
  battery_remaining : option R;
  air_temperature : option R;
  wind_speed : option R
}.

(** The frame built by [_records_to_dataframe]: one column per field read,
    and [time_delta]. *)
Record TelemetryFrame := {
  len : nat;
  df_timestamp : list R;
  df_accel_x : Series;
  df_accel_y : Series;
  df_accel_z : Series;
  df_gyro_x : Series;
  df_gyro_y : Series;
  df_gyro_z : Series;
  df_latitude : Series;
  df_longitude : Series;
  df_altitude : Series;
  df_ground_speed : Series;
  df_vertical_speed : Series;
  df_roll : Series;
  df_pitch : Series;
  df_yaw : Series;
  df_battery_voltage : Series;
  df_battery_current : Series;
  df_battery_remaining : Series;
  df_wind_speed : Series;
  df_air_temperature : Series;
  df_time_delta : Series
}.

(** Every column of a telemetry frame has [len] rows. *)
Definition frame_ok (df : TelemetryFrame) : Prop :=
  length (df_timestamp df) = len df /\
  Forall (fun s : Series => length s = len df)
    [df_accel_x df; df_accel_y df; df_accel_z df;
     df_gyro_x df; df_gyro_y df; df_gyro_z df;
     df_latitude df; df_longitude df; df_altitude df;
     df_ground_speed df; df_vertical_speed df;
     df_roll df; df_pitch df; df_yaw df;
     df_battery_voltage df; df_battery_current df; df_battery_remaining df;
     df_wind_speed df; df_air_temperature df; df_time_delta df].

Record UniversalFeatureExtractor := {
  config : FeatureConfig;
  available_sensors : gset string;
  feature_names : list string
}.

Definition new (cfg : option FeatureConfig) : UniversalFeatureExtractor :=
  {| config := default default_config cfg;
     available_sensors := ∅;
     feature_names := [] |}.

(** The column of a field: a reading is a float, [None] is a missing cell. *)
Definition column (field : TelemetryRecord -> option R) (records : list TelemetryRecord)
  : Series :=
  map (fun r => of_option (field r)) records.

(** pandas gives a field that is [None] in every record the dtype [object],
    and a field with at least one reading the dtype [float64]: the object
    columns of the telemetry frame are those without a valid cell. *)
Definition is_object (s : Series) : bool := bool_decide (count_notna s = 0%nat).

(** [s.diff()] on a column of the telemetry frame.  On a column of object
    dtype the successive cells are subtracted as Python objects, and
    [None - None] raises; with a single row nothing is subtracted and the
    result is one missing cell, of object dtype. *)
Definition rate_fails (s : Series) : bool :=
  is_object s && bool_decide (2 <= length s)%nat.

Definition diff_raw (s : Series) : result Series :=
  if rate_fails s then
    Raise (TypeError "unsupported operand type(s) for -: 'NoneType' and 'NoneType'")
  else Ok (diff s).

(** [features[name] = s.diff() / df['time_delta']] for a column [s] of the
    telemetry frame: the quotient has the dtype [object] when [s] has. *)
Definition set_rate (features : DataFrame) (name : string) (s time_delta : Series)
  : result DataFrame :=
  d ← diff_raw s;
  Ok (setitem_as (is_object s) features name (binop div d time_delta)).

(** An empty list of records gives a frame without columns, and reading its
    [timestamp] column raises. *)
Definition _records_to_dataframe (records : list TelemetryRecord) : result TelemetryFrame :=
  match records with
  | [] => Raise (KeyError "timestamp")
  | _ =>
      Ok {| len := length records;
            df_timestamp := map timestamp records;
            df_accel_x := column accel_x records;
            df_accel_y := column accel_y records;
            df_accel_z := column accel_z records;
            df_gyro_x := column gyro_x records;
            df_gyro_y := column gyro_y records;
            df_gyro_z := column gyro_z records;
            df_latitude := column latitude records;
            df_longitude := column longitude records;
            df_altitude := column altitude records;
            df_ground_speed := column ground_speed records;
            df_vertical_speed := column vertical_speed records;
            df_roll := column roll records;
            df_pitch := column pitch records;
            df_yaw := column yaw records;
            df_battery_voltage := column battery_voltage records;
            df_battery_current := column battery_current records;
            df_battery_remaining := column battery_remaining records;
            df_wind_speed := column wind_speed records;
            df_air_temperature := column air_temperature records;
            df_time_delta := diff (map (fun r => Num (timestamp r)) records) |}
  end.

(** [count > len(df) * 0.1]. *)
Definition above_threshold (count : nat) (df : TelemetryFrame) : bool :=
  bool_decide (INR count > INR (len df) * 0.1).

Definition _detect_available_sensors (df : TelemetryFrame) : gset string :=
  let sensors : gset string := ∅ in
  let sensors :=
    if above_threshold (count_notna (df_accel_x df) + count_notna (df_accel_y df)
                        + count_notna (df_accel_z df)) df
    then sensors ∪ {["imu"]} else sensors in
  let sensors :=
    if above_threshold (count_notna (df_latitude df) + count_notna (df_longitude df)) df
    then sensors ∪ {["gps"]} else sensors in
  let sensors :=
    if above_threshold (count_notna (df_roll df) + count_notna (df_pitch df)
                        + count_notna (df_yaw df)) df
    then sensors ∪ {["attitude"]} else sensors in
  let sensors :=
    if above_threshold (count_notna (df_battery_voltage df)) df
    then sensors ∪ {["battery"]} else sensors in
  let sensors :=
    if above_threshold (count_notna (df_altitude df)) df
    then sensors ∪ {["altitude"]} else sensors in
  sensors.

Definition scale (k : R) (s : Series) : Series := map (fun c => div c (Num k)) s.

(** [sqrt(a**2 + b**2 + c**2)] on columns filled with 0. *)
Definition magnitude3 (a b c : Series) : Series :=
  map csqrt
    (binop add (binop add (map square (fillna 0 a)) (map square (fillna 0 b)))
               (map square (fillna 0 c))).

Definition magnitude2 (a b : Series) : Series :=
  map csqrt (binop add (map square a) (map square b)).

Definition _extract_time_features (df : TelemetryFrame) : DataFrame :=
  let features := empty_frame (len df) in
  let features :=
    setitem features "sample_rate_hz"
      (map (div (Num 1)) (replace_zero_nan (df_time_delta df))) in
  (* if len(df) > 0: start_time = df['timestamp'].iloc[0] *)
  let features :=
    match df_timestamp df with
    | start_time :: _ =>
        setitem features "time_since_start"
          (map (fun t => Num (t - start_time)) (df_timestamp df))
    | [] => features
    end in
  setitem features "sequence_index" (map (fun i => Num (INR i)) (seq 0 (len df))).

Definition _extract_imu_features (cfg : FeatureConfig) (df : TelemetryFrame)
  : result DataFrame :=
  let features := empty_frame (len df) in
  let accel_mag := magnitude3 (df_accel_x df) (df_accel_y df) (df_accel_z df) in
  let features := setitem features "g_force" (scale 9.81 accel_mag) in
  let features := setitem features "g_force_x" (scale 9.81 (fillna 0 (df_accel_x df))) in
  let features := setitem features "g_force_y" (scale 9.81 (fillna 0 (df_accel_y df))) in
  let features := setitem features "g_force_z" (scale 9.81 (fillna 0 (df_accel_z df))) in
  let features :=
    if any_notna (df_gyro_x df) || any_notna (df_gyro_y df) || any_notna (df_gyro_z df)
    then
      let gyro_mag := magnitude3 (df_gyro_x df) (df_gyro_y df) (df_gyro_z df) in
      let features := setitem features "rotation_rate" gyro_mag in
      let features := setitem features "gyro_x_rate" (fillna 0 (df_gyro_x df)) in
      let features := setitem features "gyro_y_rate" (fillna 0 (df_gyro_y df)) in
      setitem features "gyro_z_rate" (fillna 0 (df_gyro_z df))
    else features in
  features ←
    (if include_derivative cfg then
       features ← set_rate features "jerk_x" (df_accel_x df) (df_time_delta df);
       features ← set_rate features "jerk_y" (df_accel_y df) (df_time_delta df);
       features ← set_rate features "jerk_z" (df_accel_z df) (df_time_delta df);
       jerk_x ← getcol features "jerk_x";
       jerk_y ← getcol features "jerk_y";
       jerk_z ← getcol features "jerk_z";
       Ok (setitem features "jerk_magnitude" (magnitude3 jerk_x jerk_y jerk_z))
     else Ok features);
  if decide (10 < len df)%nat then
    rx ← rolling (df_accel_x df) 10 1;
    let features := setitem features "vibration_x" (r_std rx) in
    ry ← rolling (df_accel_y df) 10 1;
    let features := setitem features "vibration_y" (r_std ry) in
    rz ← rolling (df_accel_z df) 10 1;
    Ok (setitem features "vibration_z" (r_std rz))
  else Ok features.

(** Some row has both its latitude and its longitude. *)
Definition any_position (lat lon : Series) : bool :=
  existsb (fun ab => notna ab.1 && notna ab.2) (zip lat lon).

(** Each rate of change below is taken under a guard that the field has a
    reading, hence over a float column. *)
Definition _extract_gps_features (df : TelemetryFrame) : DataFrame :=
  let features := empty_frame (len df) in
  let features :=
    if any_notna (df_ground_speed df) then
      let features := setitem features "ground_speed" (fillna 0 (df_ground_speed df)) in
      setitem features "speed_change_rate"
        (binop div (diff (df_ground_speed df)) (df_time_delta df))
    else features in
  let features :=
    if any_notna (df_altitude df) then
      let features := setitem features "altitude" (fillna 0 (df_altitude df)) in
      setitem features "altitude_rate"
        (binop div (diff (df_altitude df)) (df_time_delta df))
    else features in
  let features :=
    match getcol features "altitude_rate", getcol features "ground_speed" with
    | Ok altitude_rate, Ok speed =>
        setitem features "speed_3d" (magnitude2 speed altitude_rate)
    | _, _ => features
    end in
  if any_position (df_latitude df) (df_longitude df) then
    let lat_diff := fillna 0 (diff (df_latitude df)) in
    let lon_diff := fillna 0 (diff (df_longitude df)) in
    let distance_delta :=
      map (fun c => mul c (Num 111000)) (magnitude2 lat_diff lon_diff) in
    let features := setitem features "distance_delta" distance_delta in
    setitem features "distance_traveled" (cumsum distance_delta)
  else features.

Definition _extract_attitude_features (cfg : FeatureConfig) (df : TelemetryFrame)
  : result DataFrame :=
  let features := empty_frame (len df) in
  let features := setitem features "roll" (fillna 0 (df_roll df)) in
  let features := setitem features "pitch" (fillna 0 (df_pitch df)) in
  let features := setitem features "yaw" (fillna 0 (df_yaw df)) in
  features ←
    (if include_derivative cfg then
       features ← set_rate features "roll_rate" (df_roll df) (df_time_delta df);
       features ← set_rate features "pitch_rate" (df_pitch df) (df_time_delta df);
       set_rate features "yaw_rate" (df_yaw df) (df_time_delta df)
     else Ok features);
  Ok (setitem features "tilt_angle"
        (magnitude2 (fillna 0 (df_roll df)) (fillna 0 (df_pitch df)))).

(** The voltage drop rate is taken under the guard that the voltage has a
    reading. *)
Definition _extract_battery_features (df : TelemetryFrame) : DataFrame :=
  let features := empty_frame (len df) in
  let features :=
    if any_notna (df_battery_voltage df) then
      let features := setitem features "battery_voltage" (ffill (df_battery_voltage df)) in
      setitem features "voltage_drop_rate"
        (binop div (diff (df_battery_voltage df)) (df_time_delta df))
    else features in
  let features :=
    if any_notna (df_battery_current df) then
      let features := setitem features "battery_current" (fillna 0 (df_battery_current df)) in
      match getcol features "battery_voltage", getcol features "battery_current" with
      | Ok voltage, Ok current => setitem features "power_watts" (binop mul voltage current)
      | _, _ => features
      end
    else features in
  if any_notna (df_battery_remaining df) then
    setitem features "battery_remaining_pct" (ffill (df_battery_remaining df))
  else features.

Definition _extract_motion_features (sensors : gset string) (df : TelemetryFrame)
  : DataFrame :=
  let features := empty_frame (len df) in
  let features :=
    if any_notna (df_ground_speed df) then
      setitem features "kinetic_energy_indicator"
        (map square (fillna 0 (df_ground_speed df)))
    else features in
  if decide ("imu" ∈ sensors) then
    let g_force :=
      scale 9.81 (magnitude3 (df_accel_x df) (df_accel_y df) (df_accel_z df)) in
    if any_notna (df_gyro_x df) || any_notna (df_gyro_y df) || any_notna (df_gyro_z df)
    then
      let rotation := magnitude3 (df_gyro_x df) (df_gyro_y df) (df_gyro_z df) in
      setitem features "maneuver_intensity" (binop mul g_force rotation)
    else setitem features "maneuver_intensity" g_force
  else features.

(** *** Rolling statistics *)

Definition lower_ascii (a : ascii) : ascii :=
  let n := nat_of_ascii a in
  if (65 <=? n)%nat && (n <=? 90)%nat then ascii_of_nat (n + 32) else a.

Fixpoint lower (s : string) : string :=
  match s with
  | EmptyString => EmptyString
  | String a tl => String (lower_ascii a) (lower tl)
  end.

(** [keyword in s]. *)
Definition contains (keyword s : string) : bool :=
  match String.index 0 keyword s with
  | Some _ => true
  | None => false
  end.

Definition keywords : list string :=
  ["g_force"; "rotation"; "speed"; "altitude"; "vibration"; "jerk"]%string.

(** The numeric columns whose name contains a keyword. *)
Definition key_cols (features : DataFrame) : list string :=
  filter (fun col => existsb (fun keyword => contains keyword (lower col)) keywords = true)
         (numeric_cols features).

Fixpoint rolling_columns (window : Z) (features : DataFrame) (cols : list string)
    (stat_features : DataFrame) : result DataFrame :=
  match cols with
  | [] => Ok stat_features
  | col :: rest =>
      if has_column features col then
        s ← getcol features col;
        r ← rolling s window 1;
        let stat_features := setitem stat_features (col +:+ "_rolling_mean") (r_mean r) in
        r ← rolling s window 1;
        let stat_features := setitem stat_features (col +:+ "_rolling_std") (r_std r) in
        r ← rolling s window 1;
        let stat_features := setitem stat_features (col +:+ "_rolling_max") (r_max r) in
        rolling_columns window features rest stat_features
      else rolling_columns window features rest stat_features
  end.

Definition _extract_statistical_features (cfg : FeatureConfig) (features : DataFrame)
  : result DataFrame :=
  let stat_features := empty_frame (index features) in
  let window := rolling_window_size cfg in
  rolling_columns window features (take 10 (key_cols features)) stat_features.

Definition _handle_missing_values (cfg : FeatureConfig) (features : DataFrame)
  : DataFrame :=
  let features :=
    if bool_decide (fill_method cfg = "interpolate") then
      map_numeric interpolate features
    else if bool_decide (fill_method cfg = "forward") then
      infer_objects (map_columns bfill (infer_objects (map_columns ffill features)))
    else if bool_decide (fill_method cfg = "zero") then
      infer_objects (map_columns (fillna 0) features)
    else features in
  let features := infer_objects (map_columns (fillna 0) features) in
  map_columns replace_inf features.

(** The frame assembled before the rolling statistics. *)
Definition sensor_features (cfg : FeatureConfig) (sensors : gset string)
    (df : TelemetryFrame) : result DataFrame :=
  let features := empty_frame 0 in
  let features := concat features (_extract_time_features df) in
  features ←
    (if decide ("imu" ∈ sensors) then
       imu ← _extract_imu_features cfg df; Ok (concat features imu)
     else Ok features);
  let features :=
    if decide ("gps" ∈ sensors) then concat features (_extract_gps_features df)
    else features in
  features ←
    (if decide ("attitude" ∈ sensors) then
       attitude ← _extract_attitude_features cfg df; Ok (concat features attitude)
     else Ok features);
  let features :=
    if decide ("battery" ∈ sensors) then concat features (_extract_battery_features df)
    else features in
  Ok (concat features (_extract_motion_features sensors df)).

(** The rates of change that the extraction takes over a field without any
    reading, in a batch of two records or more: those of a detected
    accelerometer or attitude sensor, when derivatives are configured. *)
Definition rates_fail (cfg : FeatureConfig) (sensors : gset string)
    (df : TelemetryFrame) : bool :=
  include_derivative cfg &&
  ((bool_decide ("imu" ∈ sensors) &&
    (rate_fails (df_accel_x df) || rate_fails (df_accel_y df)
     || rate_fails (df_accel_z df)))
   || (bool_decide ("attitude" ∈ sensors) &&
       (rate_fails (df_roll df) || rate_fails (df_pitch df)
        || rate_fails (df_yaw df)))).

(** The columns that are assigned a rate of change of a field of the
    telemetry frame that is read without a guard: the only columns of a
    feature frame that can have the object dtype. *)
Definition rate_columns : list string :=
  ["jerk_x"; "jerk_y"; "jerk_z"; "roll_rate"; "pitch_rate"; "yaw_rate"]%string.

Definition untyped_rates (cfg : FeatureConfig) (records : list TelemetryRecord)
  : bool :=
  match _records_to_dataframe records with
  | Ok df => rates_fail cfg (_detect_available_sensors df) df
  | Raise _ => false
  end.

Definition extract_features (self : UniversalFeatureExtractor)
    (records : list TelemetryRecord) : result DataFrame * UniversalFeatureExtractor :=
  match _records_to_dataframe records with
  | Raise e => (Raise e, self)
  | Ok df =>
      let sensors := _detect_available_sensors df in
      let self :=
        {| config := config self;
           available_sensors := sensors;
           feature_names := feature_names self |} in
      let outcome :=
        features ← sensor_features (config self) sensors df;
        features ←
          (if include_statistical (config self) then
             stat ← _extract_statistical_features (config self) features;
             Ok (concat features stat)
           else Ok features);
        Ok (_handle_missing_values (config self) features) in
      match outcome with
      | Raise e => (Raise e, self)
      | Ok features =>
          (Ok features,
           {| config := config self;
              available_sensors := available_sensors self;
              feature_names := (columns features).*1 |})
      end
  end.


(** A record of a hovering flight: accelerometer, position and battery. *)
Definition hover_record (t : R) : TelemetryRecord :=
  {| timestamp := t;
     latitude := Some 48.1; longitude := Some 11.5; altitude := Some 50;
     ground_speed := Some 0; vertical_speed := Some 0;
     pitch := None; roll := None; yaw := None;
     accel_x := Some 0; accel_y := Some 0; accel_z := Some 9.81;
     gyro_x := None; gyro_y := None; gyro_z := None;
     battery_voltage := Some 15.2; battery_current := Some 12;
     battery_remaining := Some 80;
     air_temperature := None; wind_speed := None |}.

(** A record that carries a heading and nothing else. *)
Definition heading_record (t heading : R) : TelemetryRecord :=
  {| timestamp := t;
     latitude := None; longitude := None; altitude := None;
     ground_speed := None; vertical_speed := None;
     pitch := None; roll := None; yaw := Some heading;
     accel_x := None; accel_y := None; accel_z := None;
     gyro_x := None; gyro_y := None; gyro_z := None;
     battery_voltage := None; battery_current := None;
     battery_remaining := None;
     air_temperature := None; wind_speed := None |}.

(** A record of an accelerometer that reports its vertical axis only. *)
Definition vertical_record (t a : R) : TelemetryRecord :=
  {| timestamp := t;
     latitude := None; longitude := None; altitude := None;
     ground_speed := None; vertical_speed := None;
     pitch := None; roll := None; yaw := None;
     accel_x := None; accel_y := None; accel_z := Some a;
     gyro_x := None; gyro_y := None; gyro_z := None;
     battery_voltage := None; battery_current := None;
     battery_remaining := None;
     air_temperature := None; wind_speed := None |}.

(** The default configuration with a rolling window of [window] samples. *)
Definition config_with_window (window : Z) : FeatureConfig :=
  {| window_size_seconds := window_size_seconds default_config;
     rolling_window_size := window;
     include_statistical := include_statistical default_config;
     include_frequency := include_frequency default_config;
     include_derivative := include_derivative default_config;
     include_flight_dynamics := include_flight_dynamics default_config;
     include_energy_metrics := include_energy_metrics default_config;
     include_stress_indicators := include_stress_indicators default_config;
     fill_method := fill_method default_config |}.

End Features.

(** ** Drone specification: derived quantities and parsing ([drone_config.py]) *)

Module DroneModel.
Import Stress.

(** The values of the enumerations. *)
Definition frame_value (f : FrameType) : string :=
  match f with
  | FrameX => "X"
  | FramePLUS => "Plus"
  | FrameH => "H"
  | FrameCUSTOM => "Custom"
  end.

Definition material_value (m : MaterialType) : string :=
  match m with
  | CARBON_FIBER => "Carbon Fiber"
  | ALUMINUM => "Aluminum"
  | PLASTIC => "Plastic"
  | COMPOSITE => "Composite"
  end.

Definition frame_map : list (string * FrameType) :=
  [("x", FrameX); ("X", FrameX);
   ("plus", FramePLUS); ("Plus", FramePLUS); ("PLUS", FramePLUS);
   ("h", FrameH); ("H", FrameH);
   ("custom", FrameCUSTOM); ("Custom", FrameCUSTOM); ("CUSTOM", FrameCUSTOM)]%string.

Definition material_map : list (string * MaterialType) :=
  [("carbon_fiber", CARBON_FIBER); ("Carbon Fiber", CARBON_FIBER);
   ("CARBON_FIBER", CARBON_FIBER);
   ("aluminum", ALUMINUM); ("Aluminum", ALUMINUM); ("ALUMINUM", ALUMINUM);
   ("plastic", PLASTIC); ("Plastic", PLASTIC); ("PLASTIC", PLASTIC);
   ("composite", COMPOSITE); ("Composite", COMPOSITE); ("COMPOSITE", COMPOSITE)]%string.

(** [frame_map.get(frame_str, FrameType.X)]. *)
Definition _parse_frame_type (frame_str : string) : FrameType :=
  default FrameX ((list_to_map frame_map : gmap string FrameType) !! frame_str).

(** [material_map.get(material_str, MaterialType.CARBON_FIBER)]. *)
Definition _parse_material (material_str : string) : MaterialType :=
  default CARBON_FIBER
    ((list_to_map material_map : gmap string MaterialType) !! material_str).

Definition thrust_to_weight_ratio (c : DroneConfig) : R :=
  let weight_n := total_weight_kg c * 9.81 in
  if decide (weight_n > 0) then total_max_thrust_n c / weight_n else 0.

Definition hover_thrust_per_motor_n (c : DroneConfig) : R :=
  if decide (num_motors c = 0%nat) then 0
  else
    let weight_n := total_weight_kg c * 9.81 in
    weight_n / INR (num_motors c).

End DroneModel.

(** ** Component health ([stress_calculator.py], [calculate_component_health]) *)

Module Health.
Import Stress.











End Health.


(** ** What the engine records ([digital_twin_engine.py]) *)

Module Mission.
Import Engine.

(** An assessment as the risk scorer writes it: a score strictly between 0
    and 1 together with the tier of that score. *)
Definition assessed (ra : gmap string pyval) : Prop :=
  exists s, 0 < s < 1 /\
            ra !! "anomaly_score" = Some (PyFloat s) /\
            ra !! "risk_level" = Some (PyStr (Anomaly.risk_level_of s)).

(** Every assessment of the history was written by the risk scorer, and the
    assessment of the current state is the latest of them. *)
Definition recorded (self : DigitalTwinEngine) : Prop :=
  Forall assessed (h_risk_assessments (history self)) /\
  risk_assessment (current_state self) = last (h_risk_assessments (history self)).

End Mission.

(** * Properties *)

(** ** Tactics for the conditions of the sources *)

Lemma truediv_ok (a b : R) : b <> 0 -> truediv a b = Ok (a / b).
Proof. intros Hb. unfold truediv. case_decide; [contradiction | reflexivity]. Qed.

Lemma truediv_zero (a : R) : truediv a 0 = Raise ZeroDivisionError.
Proof. unfold truediv. case_decide; [reflexivity | contradiction]. Qed.

(** Settles a comparison between constants. *)
Ltac arith := first [ lra | split; lra | intros [? ?]; lra | intros ?; lra ].

(** Evaluates [if decide ...], [min] and [max] whose outcome [lra] decides. *)
Ltac branch :=
  repeat first
    [ match goal with
      | |- context [decide ?P] =>
          first [ rewrite (decide_True (P := P)) by arith
                | rewrite (decide_False (P := P)) by arith ]
      | |- context [Rmin ?a ?b] =>
          first [ rewrite (Rmin_left a b) by lra | rewrite (Rmin_right a b) by lra ]
      | |- context [Rmax ?a ?b] =>
          first [ rewrite (Rmax_left a b) by lra | rewrite (Rmax_right a b) by lra ]
      | |- context [truediv ?a ?b] => rewrite (truediv_ok a b) by lra
      end
    | progress cbn [mbind result_bind mret result_ret] ].

Lemma Rmin_mono (a b c d : R) : a <= c -> b <= d -> Rmin a b <= Rmin c d.
Proof.
  intros Hac Hbd. apply Rmin_glb.
  - pose proof (Rmin_l a b). lra.
  - pose proof (Rmin_r a b). lra.
Qed.

Lemma Rmax_mono (a b c d : R) : a <= c -> b <= d -> Rmax a b <= Rmax c d.
Proof.
  intros Hac Hbd. apply Rmax_lub.
  - pose proof (Rmax_l c d). lra.
  - pose proof (Rmax_r c d). lra.
Qed.

Lemma clamp_mono (x y : R) : x <= y -> Rmin 100 (Rmax 0 x) <= Rmin 100 (Rmax 0 y).
Proof. intros Hxy. apply Rmin_mono; [lra |]. apply Rmax_mono; lra. Qed.

(** ** Stress model *)

Module StressTheory.
Import Stress.

Lemma g_stress_idle : _calculate_g_stress 1 = 0.
Proof. unfold _calculate_g_stress. branch. reflexivity. Qed.

Lemma wind_stress_calm (c : DroneConfig) : _calculate_wind_stress c 0 = Ok 0.
Proof. unfold _calculate_wind_stress. branch. reflexivity. Qed.

Lemma temperature_stress_optimal : _calculate_temperature_stress 25 = 0.
Proof. unfold _calculate_temperature_stress. branch. reflexivity. Qed.

Lemma altitude_stress_ground : _calculate_altitude_stress 0 = 0.
Proof. unfold _calculate_altitude_stress. branch. reflexivity. Qed.

Lemma battery_stress_optimal : _calculate_battery_stress 25 = 0.
Proof. unfold _calculate_battery_stress. branch. reflexivity. Qed.

Lemma motor_stress_idle (c : DroneConfig) :
  _calculate_motor_stress c 1 25 = 0.8 * Rmin 100 (hover_throttle_percent c).
Proof.
  unfold _calculate_motor_stress. branch.
  replace (1 * (hover_throttle_percent c / 100) * 100)
    with (hover_throttle_percent c) by lra.
  pose proof (Rmin_l 100 (hover_throttle_percent c)).
  rewrite Rmin_right by lra. lra.
Qed.

(** Reads the fields of a concrete specification. *)
Ltac fields :=
  cbn [standard_quadcopter motors arms total_weight_kg max_thrust_n length_m
       cross_section_area_m2 max_bending_stress_mpa max_wind_speed_ms
       fold_left length INR].

Lemma quadcopter_hover_throttle :
  hover_throttle_percent standard_quadcopter = 18.39375.
Proof.
  unfold hover_throttle_percent, total_max_thrust_n. fields. branch. lra.
Qed.

Lemma quadcopter_arm_stress_idle :
  _calculate_arm_stress standard_quadcopter 1 = Ok 0.00137953125.
Proof.
  unfold _calculate_arm_stress, num_motors. fields. branch. f_equal. lra.
Qed.


(** C1, as stated, fails: at the idle baseline the standard quadcopter has an
    overall stress of 2.207387953125, because its motors hover at 18.4 % of
    their thrust and its arms carry the weight. *)
Lemma idle_baseline_stress_not_zero :
  exists a, calculate_flight_stress standard_quadcopter 1 0 25 0 = Ok a /\
            overall_stress a = 2.207387953125 /\ overall_stress a <> 0.
Proof.
  unfold calculate_flight_stress.
  rewrite g_stress_idle, wind_stress_calm, temperature_stress_optimal,
    altitude_stress_ground, battery_stress_optimal, motor_stress_idle,
    quadcopter_hover_throttle, quadcopter_arm_stress_idle.
  cbn [mbind result_bind]. eexists. split; [reflexivity |].
  cbn [overall_stress]. branch. split; lra.
Qed.

(** C1 (amended): at the idle baseline (g = 1, no wind, 25 degrees, ground
    level) the G-force, wind, temperature, altitude and battery scores are 0;
    the motor score is 0.8 times the hover throttle percentage capped at 100,
    the arm score is the bending percentage at 1 g, and the overall stress is
    0.15 motor + 0.1 arm clamped to [0,100].  It is 0 exactly when that sum is
    not positive.  The call raises exactly when the arm computation does. *)
Theorem idle_baseline_stress (c : DroneConfig) :
  match _calculate_arm_stress c 1 with
  | Raise e => calculate_flight_stress c 1 0 25 0 = Raise e
  | Ok arm =>
      exists a, calculate_flight_stress c 1 0 25 0 = Ok a /\
        g_stress a = 0 /\ wind_stress a = 0 /\ temperature_stress a = 0 /\
        altitude_stress a = 0 /\ battery_stress a = 0 /\
        motor_stress a = 0.8 * Rmin 100 (hover_throttle_percent c) /\
        arm_stress a = arm /\
        overall_stress a
          = Rmin 100 (Rmax 0 (0.15 * motor_stress a + 0.1 * arm_stress a)) /\
        (overall_stress a = 0 <-> 0.15 * motor_stress a + 0.1 * arm_stress a <= 0)
  end.
Proof.
  unfold calculate_flight_stress.
  rewrite g_stress_idle, wind_stress_calm, temperature_stress_optimal,
    altitude_stress_ground, battery_stress_optimal, motor_stress_idle.
  cbn [mbind result_bind].
  destruct (_calculate_arm_stress c 1) as [arm | e]; [| reflexivity].
  eexists. split; [reflexivity |].
  cbn [g_stress wind_stress temperature_stress altitude_stress battery_stress
       motor_stress arm_stress overall_stress].
  repeat (split; [reflexivity |]).
  set (m := 0.8 * Rmin 100 (hover_throttle_percent c)).
  replace (0 * 0.4 + 0 * 0.2 + 0 * 0.15 + m * 0.15 + arm * 0.1)
    with (0.15 * m + 0.1 * arm) by lra.
  split; [reflexivity |].
  assert (Hm : m <= 80).
  { unfold m. pose proof (Rmin_l 100 (hover_throttle_percent c)). lra. }
  split.
  - intros H0. destruct (Rle_dec (0.15 * m + 0.1 * arm) 0) as [Hle | Hgt]; [exact Hle |].
    exfalso. rewrite Rmax_right in H0 by lra.
    unfold Rmin in H0. destruct (Rle_dec _ _); lra.
  - intros Hle. rewrite Rmax_left by lra. rewrite Rmin_right by lra. reflexivity.
Qed.

(** C9, as stated, fails: ten degrees below the band the battery stress is 20,
    ten degrees above it is 30, so the cold slope (2 per degree) is two thirds
    of the heat slope (3 per degree), not half of it. *)
Lemma battery_cold_slope_not_half :
  _calculate_battery_stress 10 = 20 /\ _calculate_battery_stress 40 = 30 /\
  _calculate_battery_stress 10 <> _calculate_battery_stress 40 / 2.
Proof.
  assert (H10 : _calculate_battery_stress 10 = 20).
  { unfold _calculate_battery_stress. branch. lra. }
  assert (H40 : _calculate_battery_stress 40 = 30).
  { unfold _calculate_battery_stress. branch. lra. }
  rewrite H10, H40. repeat split; lra.
Qed.

(** C9 (amended): the battery stress is 0 for every temperature of the
    20-30 degree band; [d] degrees below the band it is [2 d] and [d] degrees
    above the band it is [3 d], each capped at 100. *)
Theorem battery_stress_profile (t d : R) :
  20 <= t <= 30 -> 0 <= d ->
  _calculate_battery_stress t = 0 /\
  _calculate_battery_stress (20 - d) = Rmin 100 (2 * d) /\
  _calculate_battery_stress (30 + d) = Rmin 100 (3 * d).
Proof.
  intros Ht Hd. unfold _calculate_battery_stress. split; [| split].
  - branch. reflexivity.
  - destruct Hd as [Hd | <-]; branch; [f_equal |]; lra.
  - destruct Hd as [Hd | <-]; branch; [f_equal |]; lra.
Qed.

Lemma battery_stress_profile_witness :
  _calculate_battery_stress 25 = 0 /\
  _calculate_battery_stress (20 - 10) = Rmin 100 (2 * 10) /\
  _calculate_battery_stress (30 + 10) = Rmin 100 (3 * 10).
Proof. apply battery_stress_profile; lra. Defined.


(** *** Monotonicity in the G-force *)

Lemma exp_le (x y : R) : x <= y -> exp x <= exp y.
Proof.
  intros [Hlt | ->]; [| lra]. left. apply exp_increasing. exact Hlt.
Qed.

Lemma g_stress_mono (g1 g2 : R) :
  g1 <= g2 -> _calculate_g_stress g1 <= _calculate_g_stress g2.
Proof.
  intros Hg. unfold _calculate_g_stress.
  destruct (decide (g1 <= 1)) as [H1 | H1], (decide (g2 <= 1)) as [H2 | H2];
    try lra.
  - apply Rmin_glb; [lra |].
    pose proof (exp_le (- 3 * ((g2 - 1) / 4)) 0 ltac:(lra)) as He.
    rewrite exp_0 in He. lra.
  - apply Rmin_mono; [lra |].
    pose proof (exp_le (- 3 * ((g2 - 1) / 4)) (- 3 * ((g1 - 1) / 4)) ltac:(lra)).
    lra.
Qed.

Lemma total_thrust_nonneg (ms : list MotorConfig) (acc : R) :
  0 <= acc -> Forall (fun m => 0 <= max_thrust_n m) ms ->
  0 <= fold_left (fun acc m => acc + max_thrust_n m) ms acc.
Proof.
  intros Hacc Hms. revert acc Hacc.
  induction Hms as [| m ms Hm _ IH]; intros acc Hacc; cbn [fold_left].
  - exact Hacc.
  - apply IH. lra.
Qed.

Lemma hover_throttle_nonneg (c : DroneConfig) :
  physical c -> 0 <= hover_throttle_percent c.
Proof.
  intros [Hw Hms]. unfold hover_throttle_percent.
  pose proof (total_thrust_nonneg (motors c) 0 ltac:(lra) Hms) as Ht.
  fold (total_max_thrust_n c) in Ht.
  case_decide as H0; [lra |].
  assert (0 < total_max_thrust_n c) as Hpos by lra.
  apply Rmult_le_pos; [| lra].
  apply Rmult_le_pos; [nra |]. left. apply Rinv_0_lt_compat. exact Hpos.
Qed.

Lemma motor_stress_mono (c : DroneConfig) (t g1 g2 : R) :
  0 <= hover_throttle_percent c -> g1 <= g2 ->
  _calculate_motor_stress c g1 t <= _calculate_motor_stress c g2 t.
Proof.
  intros Hh Hg. unfold _calculate_motor_stress.
  set (b := hover_throttle_percent c / 100).
  assert (Hb : 0 <= b) by (unfold b; lra).
  set (f := if decide (t > 30) then 1 + (t - 30) * 0.02
            else if decide (t < 10) then 1 + (10 - t) * 0.01 else 1).
  assert (Hf : 1 <= f) by (unfold f; repeat case_decide; lra).
  assert (Hthr : Rmin 100 (g1 * b * 100) <= Rmin 100 (g2 * b * 100)).
  { apply Rmin_mono; [lra | nra]. }
  apply Rmin_mono; [lra | nra].
Qed.

(** The arm score is a clamped multiple of the G-force; whether the
    computation raises depends on the specification only. *)
Lemma arm_stress_mono (c : DroneConfig) (g1 g2 : R) :
  0 <= g1 -> g1 <= g2 ->
  match _calculate_arm_stress c g1, _calculate_arm_stress c g2 with
  | Ok a1, Ok a2 => a1 <= a2
  | Raise e1, Raise e2 => e1 = e2
  | _, _ => False
  end.
Proof.
  intros H0 Hg. unfold _calculate_arm_stress.
  destruct (arms c) as [| arm _]; [lra |].
  unfold truediv.
  destruct (decide (INR (num_motors c) = 0)) as [| Hn]; [reflexivity |].
  cbn [mbind result_bind].
  destruct (decide (cross_section_area_m2 arm * 1e6 = 0)) as [| Ha]; [reflexivity |].
  cbn [mbind result_bind].
  destruct (decide (max_bending_stress_mpa arm = 0)) as [| Hm]; [reflexivity |].
  cbn [mbind result_bind].
  assert (Ha' : cross_section_area_m2 arm <> 0).
  { intros E. apply Ha. rewrite E. lra. }
  set (k := total_weight_kg c * 9.81 / INR (num_motors c) * length_m arm
            / (cross_section_area_m2 arm * 1e6) / max_bending_stress_mpa arm * 100).
  replace (total_weight_kg c * 9.81 * g1 / INR (num_motors c) * length_m arm
           / (cross_section_area_m2 arm * 1e6) / max_bending_stress_mpa arm * 100)
    with (k * g1) by (unfold k; field; repeat split; assumption).
  replace (total_weight_kg c * 9.81 * g2 / INR (num_motors c) * length_m arm
           / (cross_section_area_m2 arm * 1e6) / max_bending_stress_mpa arm * 100)
    with (k * g2) by (unfold k; field; repeat split; assumption).
  destruct (Rle_dec 0 k) as [Hk | Hk].
  - apply clamp_mono. nra.
  - rewrite (Rmax_left 0 (k * g1)) by nra.
    rewrite (Rmax_left 0 (k * g2)) by nra. lra.
Qed.

(** C8: for a physical specification (weight and motor thrusts not negative)
    and fixed wind, temperature and altitude, the overall stress does not
    decrease when the G-force grows from [g1 >= 1] to [g2 >= g1].  Whether the
    computation raises does not depend on the G-force. *)
Theorem stress_monotone_in_g_force (c : DroneConfig) (wind temp alt g1 g2 : R) :
  physical c -> 1 <= g1 -> g1 <= g2 ->
  match calculate_flight_stress c g1 wind temp alt,
        calculate_flight_stress c g2 wind temp alt with
  | Ok a1, Ok a2 => overall_stress a1 <= overall_stress a2
  | Raise e1, Raise e2 => e1 = e2
  | _, _ => False
  end.
Proof.
  intros Hc H1 Hg. unfold calculate_flight_stress.
  destruct (_calculate_wind_stress c wind) as [w | e]; [| reflexivity].
  cbn [mbind result_bind].
  pose proof (arm_stress_mono c g1 g2 ltac:(lra) Hg) as Harm.
  destruct (_calculate_arm_stress c g1) as [a1 | e1],
           (_calculate_arm_stress c g2) as [a2 | e2];
    cbn [mbind result_bind overall_stress]; try exact Harm.
  pose proof (g_stress_mono g1 g2 Hg).
  pose proof (motor_stress_mono c temp g1 g2 (hover_throttle_nonneg c Hc) Hg).
  apply clamp_mono. lra.
Qed.

Lemma stress_monotone_in_g_force_witness :
  match calculate_flight_stress standard_quadcopter 1 4 25 100,
        calculate_flight_stress standard_quadcopter 2 4 25 100 with
  | Ok a1, Ok a2 => overall_stress a1 <= overall_stress a2
  | Raise e1, Raise e2 => e1 = e2
  | _, _ => False
  end.
Proof.
  apply stress_monotone_in_g_force; [| lra | lra].
  split; [cbn; lra |]. repeat constructor; cbn; lra.
Defined.


(** The hypothesis on the specification cannot be dropped: with a negative
    weight the motor score falls as the G-force grows. *)
Remark unphysical_weight_not_monotone :
  let c := {| drone_id := drone_id standard_quadcopter;
              model_name := model_name standard_quadcopter;
              frame_type := FrameX;
              total_weight_kg := - 1.5;
              frame_material := CARBON_FIBER;
              wheelbase_m := 0.450;
              motors := motors standard_quadcopter;
              arms := [];
              battery := None;
              drag_coefficient := 0.6;
              frontal_area_m2 := 0.09;
              max_speed_ms := 15;
              max_climb_rate_ms := 5;
              max_bank_angle_deg := 45;
              max_yaw_rate_degs := 180;
              max_wind_speed_ms := 8 |} in
  exists a1 a2,
    calculate_flight_stress c 1 8 25 0 = Ok a1 /\
    calculate_flight_stress c 20 8 25 0 = Ok a2 /\
    overall_stress a2 < overall_stress a1.
Proof.
  intros c.
  assert (Hh : hover_throttle_percent c = - 18.39375).
  { unfold hover_throttle_percent, total_max_thrust_n, c. fields. branch. lra. }
  assert (Hw : _calculate_wind_stress c 8 = Ok 100).
  { unfold _calculate_wind_stress, c. fields. branch. f_equal. lra. }
  unfold calculate_flight_stress. rewrite Hw. cbn [mbind result_bind].
  unfold _calculate_arm_stress. cbn [c arms mbind result_bind].
  do 2 eexists. split; [reflexivity |]. split; [reflexivity |].
  cbn [overall_stress].
  rewrite g_stress_idle, temperature_stress_optimal.
  unfold _calculate_motor_stress. rewrite Hh.
  assert (Hg : _calculate_g_stress 20 <= 100).
  { unfold _calculate_g_stress. branch. apply Rmin_l. }
  branch. eapply Rle_lt_trans; [apply Rmin_r |]. apply Rmax_lub_lt; lra.
Qed.

End StressTheory.

(** ** Risk scorer *)

Module AnomalyTheory.
Import Anomaly.

(** The logistic squashing keeps the score strictly between 0 and 1. *)
Lemma predict_score_range (self : AnomalyDetector) (sample : list R)
    (prediction : Z) (s : R) :
  predict self sample = Ok (prediction, s) -> 0 < s < 1.
Proof.
  unfold predict. destruct (is_trained self); cbn [negb]; [| discriminate].
  destruct (fitted self) as [f |]; [| discriminate].
  destruct (scaler_transform f sample) as [scaled | e]; cbn [mbind result_bind];
    [| discriminate].
  intros [= _ <-].
  set (e := exp _). assert (0 < e) by apply exp_pos.
  split.
  - apply Rdiv_lt_0_compat; lra.
  - apply (Rmult_lt_reg_r (1 + e)); [lra |]. field_simplify; lra.
Qed.

Lemma detect_failure_risk_level (self : AnomalyDetector) (sample : list R)
    (prediction : Z) (s : R) :
  predict self sample = Ok (prediction, s) ->
  exists ra, detect_failure_risk self sample = Ok ra /\
             ra !! "risk_level" = Some (PyStr (risk_level_of s)) /\
             ra !! "anomaly_score" = Some (PyFloat s).
Proof.
  intros Hp. unfold detect_failure_risk. rewrite Hp. cbn [mbind result_bind].
  eexists. split; [reflexivity |]. split; by simplify_map_eq.
Qed.

(** C4: the risk tier is a step function of the anomaly score with the fixed
    boundaries 0.3, 0.6 and 0.8, and [detect_failure_risk] reports exactly the
    tier of the score that [predict] returns. *)
Theorem risk_tier_step_function (self : AnomalyDetector) (sample : list R)
    (prediction : Z) (s : R) :
  predict self sample = Ok (prediction, s) -> 0 <= s <= 1 ->
  (exists ra, detect_failure_risk self sample = Ok ra /\
              ra !! "risk_level" = Some (PyStr (risk_level_of s))) /\
  (s < 0.3 -> risk_level_of s = "LOW") /\
  (0.3 <= s < 0.6 -> risk_level_of s = "MEDIUM") /\
  (0.6 <= s < 0.8 -> risk_level_of s = "HIGH") /\
  (0.8 <= s -> risk_level_of s = "CRITICAL") /\
  map risk_level_of [0; 0.29; 0.3; 0.59; 0.6; 0.79; 0.8; 1]
    = ["LOW"; "LOW"; "MEDIUM"; "MEDIUM"; "HIGH"; "HIGH"; "CRITICAL"; "CRITICAL"]%string.
Proof.
  intros Hp Hs. split.
  { destruct (detect_failure_risk_level self sample prediction s Hp)
      as (ra & Hra & Hl & _). eauto. }
  unfold risk_level_of.
  repeat split; try (intros ?; branch; reflexivity).
  cbn [map]. branch. reflexivity.
Qed.

Lemma risk_tier_step_function_witness :
  (exists ra, detect_failure_risk trained_detector [90; 25; 1; 50; 10; 5] = Ok ra /\
              ra !! "risk_level" = Some (PyStr (risk_level_of (1 / (1 + exp (- - 0)))))) /\
  (1 / (1 + exp (- - 0)) < 0.3 -> risk_level_of (1 / (1 + exp (- - 0))) = "LOW") /\
  (0.3 <= 1 / (1 + exp (- - 0)) < 0.6 -> risk_level_of (1 / (1 + exp (- - 0))) = "MEDIUM") /\
  (0.6 <= 1 / (1 + exp (- - 0)) < 0.8 -> risk_level_of (1 / (1 + exp (- - 0))) = "HIGH") /\
  (0.8 <= 1 / (1 + exp (- - 0)) -> risk_level_of (1 / (1 + exp (- - 0))) = "CRITICAL") /\
  map risk_level_of [0; 0.29; 0.3; 0.59; 0.6; 0.79; 0.8; 1]
    = ["LOW"; "LOW"; "MEDIUM"; "MEDIUM"; "HIGH"; "HIGH"; "CRITICAL"; "CRITICAL"]%string.
Proof.
  apply (risk_tier_step_function trained_detector [90; 25; 1; 50; 10; 5] 1).
  - reflexivity.
  - rewrite Ropp_involutive, exp_0. lra.
Defined.

End AnomalyTheory.

(** ** Trajectory planner *)

Module PlannerTheory.
Import Numpy Planner.

Lemma linspace_length (start stop : R) (num : nat) :
  length (linspace start stop num) = num.
Proof.
  unfold linspace. case_decide; rewrite ?length_insert, length_map, length_seq;
    reflexivity.
Qed.

Lemma column_stack_length (x y z : list R) (n : nat) :
  length x = n -> length y = n -> length z = n ->
  length (column_stack x y z) = n.
Proof.
  intros Hx Hy Hz. unfold column_stack.
  rewrite length_zip_with, length_zip. lia.
Qed.

Lemma eq_str_false (v : pyval) (s : string) : v <> PyStr s -> eq_str v s = false.
Proof.
  destruct v as [| | | | t]; cbn; try reflexivity.
  intros Hne. apply bool_decide_eq_false. congruence.
Qed.

Lemma eq_str_true (s : string) : eq_str (PyStr s) s = true.
Proof. cbn. apply bool_decide_eq_true. reflexivity. Qed.

(** Unfolds a path constructor into the explicit list of its waypoints. *)
Ltac waypoints :=
  unfold _emergency_landing_path, _conservative_path, _cautious_path,
    _optimal_path, column_stack, linspace, px, py, pz;
  rewrite ?decide_True by lia;
  cbn [replicate length Nat.sub seq map list_insert insert drop take app zip
       zip_with fst snd].

Lemma waypoint_eq (a b c a' b' c' : R) :
  a = a' -> b = b' -> c = c' -> Some (a, b, c) = Some (a', b', c').
Proof. intros -> -> ->. reflexivity. Qed.

Lemma altitude_eq (c c' : R) : c = c' -> Some c = Some c'.
Proof. intros ->. reflexivity. Qed.

(** Closes an equation between waypoints or coordinates. *)
Ltac coordinates :=
  cbn [fmap option_fmap option_map lookup list_lookup fst snd];
  rewrite ?INR_IZR_INZ; cbv [Z.of_nat Pos.of_succ_nat Pos.succ];
  first [ apply waypoint_eq; lra | apply altitude_eq; lra | lra ].

Lemma dispatch_critical (pos dest : point) (ra : gmap string pyval) :
  ra !! "risk_level" = Some (PyStr "CRITICAL") ->
  optimize_trajectory pos ra dest = _emergency_landing_path pos.
Proof.
  intros Hl. unfold optimize_trajectory, get. rewrite Hl. reflexivity.
Qed.

Lemma dispatch_high (pos dest : point) (ra : gmap string pyval) :
  ra !! "risk_level" = Some (PyStr "HIGH") ->
  optimize_trajectory pos ra dest = _conservative_path pos dest.
Proof.
  intros Hl. unfold optimize_trajectory, get. rewrite Hl. reflexivity.
Qed.

Lemma dispatch_default (pos dest : point) (ra : gmap string pyval) :
  ra !! "risk_level" <> Some (PyStr "CRITICAL") ->
  ra !! "risk_level" <> Some (PyStr "HIGH") ->
  ra !! "risk_level" <> Some (PyStr "MEDIUM") ->
  optimize_trajectory pos ra dest = _optimal_path pos dest.
Proof.
  intros Hc Hh Hm. unfold optimize_trajectory, get.
  destruct (ra !! "risk_level") as [v |]; cbn [from_option Datatypes.id]; [| reflexivity].
  rewrite (eq_str_false v "CRITICAL") by (intros ->; apply Hc; reflexivity).
  rewrite (eq_str_false v "HIGH") by (intros ->; apply Hh; reflexivity).
  rewrite (eq_str_false v "MEDIUM") by (intros ->; apply Hm; reflexivity).
  reflexivity.
Qed.

(** C7: for a CRITICAL assessment the optimized trajectory has 10 waypoints,
    starts at the current position, moves 5/9 of a unit forward and sideways
    per waypoint while the altitude falls by a ninth of the initial altitude
    per waypoint, ends at (x+5, y+5, 0), and is the same for every
    destination. *)
Theorem critical_emergency_landing (x y z : R) (destination : point)
    (ra : gmap string pyval) :
  ra !! "risk_level" = Some (PyStr "CRITICAL") ->
  let path := optimize_trajectory (x, y, z) ra destination in
  length path = 10%nat /\
  path !! 0%nat = Some (x, y, z) /\
  path !! 9%nat = Some (x + 5, y + 5, 0) /\
  (forall i, (i < 10)%nat ->
     path !! i = Some (x + INR i * (5 / 9), y + INR i * (5 / 9), z - INR i * (z / 9))) /\
  (forall other, optimize_trajectory (x, y, z) ra other = path).
Proof.
  intros Hl path. unfold path. rewrite dispatch_critical by exact Hl.
  split; [| split; [| split; [| split]]].
  - waypoints. reflexivity.
  - waypoints. coordinates.
  - waypoints. coordinates.
  - intros i Hi. waypoints.
    do 10 (destruct i as [| i]; [coordinates |]). lia.
  - intros other. apply dispatch_critical. exact Hl.
Qed.

Lemma critical_emergency_landing_witness :
  let ra : gmap string pyval := {[ "risk_level" := PyStr "CRITICAL" ]} in
  let path := optimize_trajectory (50, 50, 50) ra (100, 100, 50) in
  length path = 10%nat /\
  path !! 0%nat = Some (50, 50, 50) /\
  path !! 9%nat = Some (50 + 5, 50 + 5, 0) /\
  (forall i, (i < 10)%nat ->
     path !! i
     = Some (50 + INR i * (5 / 9), 50 + INR i * (5 / 9), 50 - INR i * (50 / 9))) /\
  (forall other, optimize_trajectory (50, 50, 50) ra other = path).
Proof.
  intros ra. apply (critical_emergency_landing 50 50 50 (100, 100, 50) ra).
  reflexivity.
Defined.


(** C10: when the risk level of the assessment is none of CRITICAL, HIGH and
    MEDIUM (another string, another value, or no ["risk_level"] key at all),
    the optimized trajectory is the direct path of the LOW tier: 20 waypoints
    evenly spaced on the straight line from the current position to the
    destination, both included. *)
Theorem unrecognised_tier_takes_direct_path (x y z xd yd zd : R)
    (ra : gmap string pyval) :
  ra !! "risk_level" <> Some (PyStr "CRITICAL") ->
  ra !! "risk_level" <> Some (PyStr "HIGH") ->
  ra !! "risk_level" <> Some (PyStr "MEDIUM") ->
  let path := optimize_trajectory (x, y, z) ra (xd, yd, zd) in
  path = _optimal_path (x, y, z) (xd, yd, zd) /\
  path = optimize_trajectory (x, y, z) {[ "risk_level" := PyStr "LOW" ]} (xd, yd, zd) /\
  length path = 20%nat /\
  path !! 0%nat = Some (x, y, z) /\
  path !! 19%nat = Some (xd, yd, zd) /\
  (forall i, (i < 20)%nat ->
     path !! i = Some (x + INR i * ((xd - x) / 19),
                       y + INR i * ((yd - y) / 19),
                       z + INR i * ((zd - z) / 19))).
Proof.
  intros Hc Hh Hm path. unfold path.
  rewrite dispatch_default by assumption.
  split; [reflexivity |]. split; [reflexivity |].
  split; [| split; [| split]].
  - waypoints. reflexivity.
  - waypoints. coordinates.
  - waypoints. coordinates.
  - intros i Hi. waypoints.
    do 20 (destruct i as [| i]; [coordinates |]). lia.
Qed.

Lemma unrecognised_tier_takes_direct_path_witness :
  let ra : gmap string pyval := {[ "risk_level" := PyStr "SEVERE" ]} in
  let path := optimize_trajectory (0, 0, 50) ra (100, 80, 50) in
  path = _optimal_path (0, 0, 50) (100, 80, 50) /\
  path = optimize_trajectory (0, 0, 50) {[ "risk_level" := PyStr "LOW" ]} (100, 80, 50) /\
  length path = 20%nat /\
  path !! 0%nat = Some (0, 0, 50) /\
  path !! 19%nat = Some (100, 80, 50) /\
  (forall i, (i < 20)%nat ->
     path !! i = Some (0 + INR i * ((100 - 0) / 19),
                       0 + INR i * ((80 - 0) / 19),
                       50 + INR i * ((50 - 50) / 19))).
Proof.
  intros ra.
  apply (unrecognised_tier_takes_direct_path 0 0 50 100 80 50 ra); discriminate.
Defined.

(** The same holds for an empty assessment. *)
Lemma missing_risk_level_takes_direct_path (pos dest : point) :
  optimize_trajectory pos ∅ dest = _optimal_path pos dest.
Proof. apply dispatch_default; rewrite lookup_empty; discriminate. Qed.

(** C3, as stated, fails: flying at 50 towards a destination at altitude 50,
    the HIGH-tier path cruises at 35 in its middle section, below the
    destination altitude. *)
Lemma conservative_path_below_destination :
  let ra : gmap string pyval := {[ "risk_level" := PyStr "HIGH" ]} in
  exists p, optimize_trajectory (0, 0, 50) ra (100, 80, 50) !! 12%nat = Some p /\
            pz p = 35 /\ pz p < 50.
Proof.
  intros ra. rewrite dispatch_high by reflexivity. waypoints.
  eexists. split; [reflexivity |]. cbn [snd].
  rewrite Rmin_left by lra. split; lra.
Qed.

(** C3 (amended): the HIGH-tier trajectory has 25 waypoints from the current
    position to the destination; its safe altitude is the smaller of 70 % of
    the current altitude and the destination altitude, so it is never above
    the destination altitude; waypoints 4 to 20 fly at the safe altitude, the
    first five ramp linearly from the current altitude to it and the last five
    ramp linearly from it to the destination altitude. *)
Theorem high_tier_conservative_profile (x y z xd yd zd : R)
    (ra : gmap string pyval) :
  ra !! "risk_level" = Some (PyStr "HIGH") ->
  let safe_altitude := Rmin (z * 0.7) zd in
  let path := optimize_trajectory (x, y, z) ra (xd, yd, zd) in
  length path = 25%nat /\
  safe_altitude <= z * 0.7 /\ safe_altitude <= zd /\
  path !! 0%nat = Some (x, y, z) /\
  path !! 24%nat = Some (xd, yd, zd) /\
  (forall i, (4 <= i <= 20)%nat -> pz <$> path !! i = Some safe_altitude) /\
  (forall i, (i <= 4)%nat ->
     pz <$> path !! i = Some (z + INR i * ((safe_altitude - z) / 4))) /\
  (forall i, (i <= 4)%nat ->
     pz <$> path !! (20 + i)%nat
     = Some (safe_altitude + INR i * ((zd - safe_altitude) / 4))).
Proof.
  intros Hl safe path. unfold path. rewrite dispatch_high by exact Hl.
  fold safe.
  split; [| split; [| split; [| split; [| split; [| split; [| split]]]]]].
  - waypoints. reflexivity.
  - apply Rmin_l.
  - apply Rmin_r.
  - waypoints. coordinates.
  - waypoints. coordinates.
  - intros i Hi. waypoints. fold safe.
    do 4 (destruct i as [| i]; [lia |]).
    do 17 (destruct i as [| i]; [coordinates |]). lia.
  - intros i Hi. waypoints. fold safe.
    do 5 (destruct i as [| i]; [coordinates |]). lia.
  - intros i Hi. waypoints. fold safe.
    do 5 (destruct i as [| i]; [cbn [Nat.add]; coordinates |]). lia.
Qed.

Lemma high_tier_conservative_profile_witness :
  let ra : gmap string pyval := {[ "risk_level" := PyStr "HIGH" ]} in
  let safe_altitude := Rmin (50 * 0.7) 50 in
  let path := optimize_trajectory (0, 0, 50) ra (100, 80, 50) in
  length path = 25%nat /\
  safe_altitude <= 50 * 0.7 /\ safe_altitude <= 50 /\
  path !! 0%nat = Some (0, 0, 50) /\
  path !! 24%nat = Some (100, 80, 50) /\
  (forall i, (4 <= i <= 20)%nat -> pz <$> path !! i = Some safe_altitude) /\
  (forall i, (i <= 4)%nat ->
     pz <$> path !! i = Some (50 + INR i * ((safe_altitude - 50) / 4))) /\
  (forall i, (i <= 4)%nat ->
     pz <$> path !! (20 + i)%nat
     = Some (safe_altitude + INR i * ((50 - safe_altitude) / 4))).
Proof.
  intros ra.
  apply (high_tier_conservative_profile 0 0 50 100 80 50 ra). reflexivity.
Defined.

End PlannerTheory.

(** ** Orchestrator *)

Module EngineTheory.
Import Numpy Engine.

Lemma detect_failure_risk_has_level (d : Anomaly.AnomalyDetector) (sample : list R)
    (ra : gmap string pyval) :
  Anomaly.detect_failure_risk d sample = Ok ra ->
  exists s, getitem ra "risk_level" = Ok (PyStr (Anomaly.risk_level_of s)).
Proof.
  unfold Anomaly.detect_failure_risk.
  destruct (Anomaly.predict d sample) as [[p s] | e]; cbn [mbind result_bind];
    [| discriminate].
  intros [= <-]. exists s. unfold getitem. by simplify_map_eq.
Qed.

Lemma stop_mission_state (self : DigitalTwinEngine) :
  let self' := (stop_mission self).2 in
  mission_active self' = false /\
  is_initialized self' = is_initialized self /\
  anomaly_detector self' = anomaly_detector self /\
  history self' = history self /\
  current_state self' = current_state self.
Proof.
  unfold stop_mission. cbn [history h_risk_assessments].
  case_decide; [destruct (get_system_status _) |]; cbn; auto.
Qed.

Lemma initialized_engine_ready :
  is_initialized initialized_engine = true /\
  mission_active initialized_engine = false /\
  anomaly_detector initialized_engine = Anomaly.trained_detector.
Proof. repeat split; reflexivity. Qed.




(** *** The engines reachable through the public operations *)

Lemma reachable_consistent (sklearn_fit : Anomaly.ndarray2 -> result Anomaly.Fitted)
    (sklearn_left : option Anomaly.Fitted -> Anomaly.ndarray2 -> option Anomaly.Fitted)
    (self : DigitalTwinEngine) :
  reachable sklearn_fit sklearn_left self -> consistent self.
Proof.
  induction 1 as [margin | self data _ IH | self s e _ IH | self sample pos now _ IH
                 | self pos dest _ IH | self _ IH].
  - repeat split; cbn; try discriminate; reflexivity.
  - destruct IH as (Ht & Hm & Hl).
    unfold initialize, Anomaly.train, Anomaly.after_failed_train.
    case_decide; [repeat split; cbn; tauto |].
    destruct (sklearn_fit data) as [f | err]; cbn [mbind result_bind snd];
      repeat split; cbn; tauto.
  - unfold start_mission.
    destruct (is_initialized self) eqn:Hi; cbn [negb snd]; [| exact IH].
    destruct IH as (Ht & Hm & Hl).
    repeat split; cbn; try tauto; apply Ht; exact Hi.
  - unfold update_telemetry.
    destruct (is_initialized self) eqn:Hi; cbn [negb snd]; [| exact IH].
    destruct (Anomaly.detect_failure_risk _ _) as [ra | err] eqn:Hra;
      cbn [snd]; [| exact IH].
    destruct (detect_failure_risk_has_level _ _ _ Hra) as [s ->].
    destruct IH as (Ht & Hm & H1 & H2 & H3).
    repeat split; cbn; rewrite ?length_app; cbn; try tauto; try lia;
      apply Ht; exact Hi.
  - unfold replan_trajectory.
    destruct (truthy _); cbn [negb snd]; [| exact IH].
    destruct (risk_assessment (current_state self)) as [ra |]; cbn [snd];
      [| exact IH].
    destruct IH as (Ht & Hm & Hl).
    destruct (getitem ra "risk_level"); cbn; repeat split; tauto.
  - destruct IH as (Ht & Hm & Hl).
    destruct (stop_mission_state self) as (Ha & Hi & Hd & Hh & _).
    unfold consistent. rewrite Ha, Hi, Hd, Hh. repeat split; try tauto. discriminate.
Qed.

(** On a reachable engine that is initialised the detector is marked as
    trained, so a telemetry update goes to the fitted model: it raises
    [NotFittedError] when a failed training left nothing fitted, it raises
    what the scaler raises, and it succeeds in every other case. *)
Lemma reachable_update_outcome
    (sklearn_fit : Anomaly.ndarray2 -> result Anomaly.Fitted)
    (sklearn_left : option Anomaly.Fitted -> Anomaly.ndarray2 -> option Anomaly.Fitted)
    (self : DigitalTwinEngine) (sample : list R) (pos : point) (now : R) :
  reachable sklearn_fit sklearn_left self -> is_initialized self = true ->
  match Anomaly.fitted (anomaly_detector self) with
  | None => (update_telemetry self sample pos now).1 = Raise NotFittedError
  | Some f =>
      match Anomaly.scaler_transform f sample with
      | Ok _ => is_ok (update_telemetry self sample pos now).1
      | Raise e => (update_telemetry self sample pos now).1 = Raise e
      end
  end.
Proof.
  intros Hr Hi. destruct (reachable_consistent _ _ _ Hr) as (Ht & _).
  pose proof (Ht Hi) as Htrained.
  destruct (Anomaly.fitted (anomaly_detector self)) as [f |] eqn:Hf.
  - destruct (Anomaly.scaler_transform f sample) as [scaled | e] eqn:Hs.
    + assert (exists ra, Anomaly.detect_failure_risk (anomaly_detector self) sample
                         = Ok ra) as [ra Hra].
      { unfold Anomaly.detect_failure_risk, Anomaly.predict.
        rewrite Htrained, Hf. cbn [negb]. rewrite Hs. cbn [mbind result_bind].
        eexists. reflexivity. }
      destruct (detect_failure_risk_has_level _ _ _ Hra) as [s Hl].
      unfold update_telemetry. rewrite Hi, Hra, Hl. cbn [negb fst].
      eexists. reflexivity.
    + assert (Anomaly.detect_failure_risk (anomaly_detector self) sample = Raise e)
        as Hra.
      { unfold Anomaly.detect_failure_risk, Anomaly.predict.
        rewrite Htrained, Hf. cbn [negb]. rewrite Hs. reflexivity. }
      unfold update_telemetry. rewrite Hi, Hra. reflexivity.
  - assert (Anomaly.detect_failure_risk (anomaly_detector self) sample
            = Raise NotFittedError) as Hra.
    { unfold Anomaly.detect_failure_risk, Anomaly.predict.
      rewrite Htrained, Hf. reflexivity. }
    unfold update_telemetry. rewrite Hi, Hra. reflexivity.
Qed.

End EngineTheory.

(** ** Feature pipeline *)

Module FeaturesTheory.
Import Pandas Features.

(** *** Every series operation keeps the number of rows *)

Lemma length_fillna (v : R) (s : Series) : length (fillna v s) = length s.
Proof. apply length_map. Qed.

Lemma length_replace_zero_nan (s : Series) : length (replace_zero_nan s) = length s.
Proof. apply length_map. Qed.

Lemma length_replace_inf (s : Series) : length (replace_inf s) = length s.
Proof. apply length_map. Qed.

Lemma length_diff_from (prev : cell) (s : Series) :
  length (diff_from prev s) = length s.
Proof.
  revert prev. induction s as [| c s IH]; intros prev; cbn; [reflexivity |].
  by rewrite IH.
Qed.

Lemma length_diff (s : Series) : length (diff s) = length s.
Proof. destruct s as [| c s]; cbn; [reflexivity |]. by rewrite length_diff_from. Qed.

Lemma length_ffill_from (last : cell) (s : Series) :
  length (ffill_from last s) = length s.
Proof.
  revert last. induction s as [| c s IH]; intros last; cbn; [reflexivity |].
  destruct (notna c); cbn; by rewrite IH.
Qed.

Lemma length_ffill (s : Series) : length (ffill s) = length s.
Proof. apply length_ffill_from. Qed.

Lemma length_bfill (s : Series) : length (bfill s) = length s.
Proof. unfold bfill. by rewrite length_rev, length_ffill, length_rev. Qed.

Lemma length_cumsum_from (acc : cell) (s : Series) :
  length (cumsum_from acc s) = length s.
Proof.
  revert acc. induction s as [| c s IH]; intros acc; cbn; [reflexivity |].
  destruct (notna c); cbn; by rewrite IH.
Qed.

Lemma length_cumsum (s : Series) : length (cumsum s) = length s.
Proof. apply length_cumsum_from. Qed.

Lemma length_binop (f : cell -> cell -> cell) (a b : Series) :
  length (binop f a b) = Nat.min (length a) (length b).
Proof. apply length_zip_with. Qed.

Lemma length_aggregate (r : Rolling) (min_obs : nat) (f : Series -> cell) :
  length (aggregate r min_obs f) = length (r_series r).
Proof. unfold aggregate. by rewrite length_map, length_seq. Qed.

Lemma length_r_mean (r : Rolling) : length (r_mean r) = length (r_series r).
Proof. apply length_aggregate. Qed.

Lemma length_r_std (r : Rolling) : length (r_std r) = length (r_series r).
Proof. apply length_aggregate. Qed.

Lemma length_r_max (r : Rolling) : length (r_max r) = length (r_series r).
Proof. apply length_aggregate. Qed.

Lemma length_interpolate_from (last : option cell) (gap : nat) (s : Series) :
  length (interpolate_from last gap s) = length s.
Proof.
  revert last gap. induction s as [| c s IH]; intros last gap; cbn; [reflexivity |].
  destruct (notna c); cbn; by rewrite IH.
Qed.

Lemma length_interpolate (s : Series) : length (interpolate s) = length s.
Proof. apply length_interpolate_from. Qed.

Lemma length_scale (k : R) (s : Series) : length (scale k s) = length s.
Proof. apply length_map. Qed.

Lemma length_magnitude3 (a b c : Series) :
  length (magnitude3 a b c)
  = Nat.min (Nat.min (length a) (length b)) (length c).
Proof.
  unfold magnitude3.
  by rewrite length_map, !length_binop, !length_map, !length_fillna.
Qed.

Lemma length_magnitude2 (a b : Series) :
  length (magnitude2 a b) = Nat.min (length a) (length b).
Proof. unfold magnitude2. by rewrite length_map, length_binop, !length_map. Qed.

Lemma length_column (field : TelemetryRecord -> option R) (records : list TelemetryRecord) :
  length (column field records) = length records.
Proof. apply length_map. Qed.

Lemma length_pad (n : nat) (s : Series) : length (pad n s) = Nat.max n (length s).
Proof. unfold pad. rewrite length_app, length_replicate. lia. Qed.

Create Rewrite HintDb rows.
#[local] Hint Rewrite length_fillna length_replace_zero_nan length_replace_inf
  length_diff length_ffill length_bfill length_cumsum length_binop
  length_aggregate length_r_mean length_r_std length_r_max length_interpolate length_scale length_magnitude3
  length_magnitude2 length_column length_pad @length_map length_seq : rows.

(** *** Frames whose columns all have [n] rows *)

Lemma well_formed_empty (n : nat) : well_formed n (empty_frame n).
Proof. split; [reflexivity | constructor]. Qed.

Lemma well_formed_setitem (n : nat) (f : DataFrame) (name : string) (s : Series) :
  well_formed n f -> length s = n -> well_formed n (setitem f name s).
Proof.
  intros [Hi Hc] Hs. split; [exact Hi |]. cbn [setitem columns].
  induction Hc as [| [k v] cols Hv Hc IH]; cbn [assign].
  - repeat constructor. exact Hs.
  - case_bool_decide; constructor; auto.
Qed.

Lemma well_formed_setitem_object (n : nat) (f : DataFrame) (name : string)
    (s : Series) :
  well_formed n f -> length s = n -> well_formed n (setitem_object f name s).
Proof. intros Hf Hs. exact (well_formed_setitem n f name s Hf Hs). Qed.

Lemma well_formed_setitem_as (n : nat) (object : bool) (f : DataFrame)
    (name : string) (s : Series) :
  well_formed n f -> length s = n -> well_formed n (setitem_as object f name s).
Proof.
  intros Hf Hs. destruct object;
    [by apply well_formed_setitem_object | by apply well_formed_setitem].
Qed.

Lemma well_formed_concat (n : nat) (a b : DataFrame) :
  well_formed n b -> (index a = 0%nat \/ index a = n) ->
  Forall (fun kv => length kv.2 = n) (columns a) ->
  well_formed n (concat a b).
Proof.
  intros [Hib Hcb] Hia Hca. split.
  - cbn [concat index]. lia.
  - cbn [concat columns]. apply Forall_map, Forall_app. 
    assert (Hmax : Nat.max (index a) (index b) = n) by lia. rewrite Hmax.
    split; eapply Forall_impl; eauto; intros [k v] Hv; cbn [fst snd] in *;
      rewrite length_pad; lia.
Qed.

Lemma well_formed_concat_same (n : nat) (a b : DataFrame) :
  well_formed n a -> well_formed n b -> well_formed n (concat a b).
Proof. intros [Hia Hca] Hb. apply well_formed_concat; auto. Qed.

Lemma well_formed_map_columns (n : nat) (g : Series -> Series) (f : DataFrame) :
  (forall s, length (g s) = length s) ->
  well_formed n f -> well_formed n (map_columns g f).
Proof.
  intros Hg [Hi Hc]. split; [exact Hi |]. cbn [map_columns columns].
  apply Forall_map. eapply Forall_impl; eauto. intros [k v] Hv. cbn in *.
  by rewrite Hg.
Qed.

Lemma well_formed_map_numeric (n : nat) (g : Series -> Series) (f : DataFrame) :
  (forall s, length (g s) = length s) ->
  well_formed n f -> well_formed n (map_numeric g f).
Proof.
  intros Hg [Hi Hc]. split; [exact Hi |]. cbn [map_numeric columns].
  apply Forall_map. eapply Forall_impl; eauto. intros [k v] Hv. cbn in *.
  case_bool_decide; cbn [snd]; [exact Hv | by rewrite Hg].
Qed.

Lemma well_formed_infer_objects (n : nat) (f : DataFrame) :
  well_formed n f -> well_formed n (infer_objects f).
Proof. intros Hf. exact Hf. Qed.

Lemma getcol_length (n : nat) (f : DataFrame) (name : string) (s : Series) :
  well_formed n f -> getcol f name = Ok s -> length s = n.
Proof.
  intros [_ Hc] Hg. unfold getcol in Hg.
  destruct (list_find _ _) as [[i kv] |] eqn:Hf; [| discriminate].
  injection Hg as <-. apply list_find_Some in Hf as (Hl & _ & _).
  rewrite Forall_lookup in Hc. exact (Hc i kv Hl).
Qed.

Lemma getcol_has_column (f : DataFrame) (name : string) :
  has_column f name = true -> exists s, getcol f name = Ok s.
Proof.
  unfold has_column, getcol. intros Hin%bool_decide_eq_true.
  apply list_elem_of_fmap in Hin as ([k v] & -> & Hin).
  destruct (list_find (fun kv => kv.1 = (k, v).1) (columns f)) as [[i kv] |] eqn:Hf.
  - eauto.
  - apply list_find_None in Hf. rewrite Forall_forall in Hf.
    exfalso. exact (Hf _ Hin eq_refl).
Qed.

Lemma columns_setitem_as (object : bool) (f : DataFrame) (name : string)
    (s : Series) :
  columns (setitem_as object f name s) = assign (columns f) name s.
Proof. by destruct object. Qed.

Lemma getcol_assigned (object : bool) (f : DataFrame) (name : string) (s : Series) :
  getcol (setitem_as object f name s) name = Ok s.
Proof.
  unfold getcol. rewrite columns_setitem_as.
  induction (columns f) as [| [k v] cols IH]; cbn [assign list_find].
  - rewrite decide_True by reflexivity. reflexivity.
  - case_bool_decide as Hk; cbn [list_find fst].
    + rewrite decide_True by exact Hk. reflexivity.
    + rewrite decide_False by exact Hk.
      destruct (list_find _ (assign cols name s)) as [[i kv] |]; [| discriminate].
      exact IH.
Qed.

Lemma getcol_other (object : bool) (f : DataFrame) (name other : string)
    (s : Series) :
  other <> name -> getcol (setitem_as object f name s) other = getcol f other.
Proof.
  intros Hne. unfold getcol. rewrite columns_setitem_as.
  induction (columns f) as [| [k v] cols IH]; cbn [assign list_find].
  - rewrite decide_False by (cbn; congruence). reflexivity.
  - case_bool_decide as Hk; cbn [list_find fst].
    + rewrite !decide_False by (cbn; congruence). reflexivity.
    + destruct (decide (k = other)); [reflexivity |].
      destruct (list_find _ (assign cols name s)) as [[i kv] |];
        destruct (list_find _ cols) as [[j kv'] |]; cbn in *; congruence.
Qed.

Lemma rolling_valid (s : Series) (window : Z) :
  (1 <= window)%Z ->
  rolling s window 1
  = Ok {| r_series := s; r_window := Z.to_nat window; r_min_periods := 1 |}.
Proof.
  intros Hw. unfold rolling. rewrite !decide_False by lia. reflexivity.
Qed.

Lemma rolling_invalid (s : Series) (window : Z) :
  (window < 1)%Z ->
  rolling s window 1 = Raise (ValueError "min_periods must be <= window").
Proof.
  intros Hw. unfold rolling. rewrite decide_False by lia.
  rewrite decide_True by lia. reflexivity.
Qed.


(** *** The telemetry frame *)

Lemma records_to_dataframe_ok (records : list TelemetryRecord) :
  records <> [] ->
  exists df, _records_to_dataframe records = Ok df /\
             len df = length records /\ frame_ok df.
Proof.
  intros Hne. destruct records as [| r records]; [contradiction |].
  eexists. split; [reflexivity |]. split; [reflexivity |].
  split; cbn [df_timestamp len]; [apply length_map |].
  repeat (apply Forall_cons_2;
          [cbn -[column diff map length]; autorewrite with rows; reflexivity |]).
  apply Forall_nil_2.
Qed.

Lemma records_to_dataframe_empty :
  _records_to_dataframe [] = Raise (KeyError "timestamp").
Proof. reflexivity. Qed.

(** Reads the row counts of the columns of a telemetry frame. *)
Ltac columns_of H :=
  let Ht := fresh "Ht" in
  let Hc := fresh "Hc" in
  destruct H as [Ht Hc];
  repeat match type of Hc with
         | Forall _ (_ :: _) =>
             let Hx := fresh "Hx" in
             apply Forall_cons in Hc as [Hx Hc]
         end;
  clear Hc.

(** Proves that a frame built by assignments has [n] rows in every column. *)
Ltac rows :=
  repeat first
    [ apply well_formed_empty
    | apply well_formed_setitem
    | apply well_formed_setitem_as
    | match goal with
      | |- well_formed _ (if ?b then _ else _) => destruct b
      | |- well_formed _ (match ?x with _ => _ end) => destruct x eqn:?
      | |- well_formed _ (let _ := _ in _) => cbv zeta
      end ];
  try (autorewrite with rows; cbn [r_series]; lia).

Lemma time_features_rows (df : TelemetryFrame) :
  frame_ok df -> well_formed (len df) (_extract_time_features df).
Proof. intros H. columns_of H. unfold _extract_time_features. rows. Qed.

(** A rate of change over a column of the telemetry frame. *)
Lemma set_rate_fails (f : DataFrame) (name : string) (s time_delta : Series) :
  rate_fails s = true ->
  set_rate f name s time_delta
  = Raise (TypeError "unsupported operand type(s) for -: 'NoneType' and 'NoneType'").
Proof. intros H. unfold set_rate, diff_raw. rewrite H. reflexivity. Qed.

Lemma set_rate_ok (f : DataFrame) (name : string) (s time_delta : Series) :
  rate_fails s = false ->
  set_rate f name s time_delta
  = Ok (setitem_as (is_object s) f name (binop div (diff s) time_delta)).
Proof. intros H. unfold set_rate, diff_raw. rewrite H. reflexivity. Qed.

(** The accelerometer features fail exactly when a jerk is taken over an axis
    without any reading in a batch of two records or more. *)
Lemma imu_features_outcome (cfg : FeatureConfig) (df : TelemetryFrame) :
  frame_ok df ->
  if include_derivative cfg
     && (rate_fails (df_accel_x df) || rate_fails (df_accel_y df)
         || rate_fails (df_accel_z df))
  then _extract_imu_features cfg df
       = Raise (TypeError "unsupported operand type(s) for -: 'NoneType' and 'NoneType'")
  else exists f, _extract_imu_features cfg df = Ok f /\ well_formed (len df) f.
Proof.
  intros H. columns_of H. unfold _extract_imu_features.
  rewrite !rolling_valid by lia.
  destruct (include_derivative cfg); cbn [andb].
  - destruct (rate_fails (df_accel_x df)) eqn:Rx; cbn [orb];
      [by rewrite set_rate_fails | rewrite set_rate_ok by exact Rx].
    cbn [mbind result_bind].
    destruct (rate_fails (df_accel_y df)) eqn:Ry; cbn [orb];
      [by rewrite set_rate_fails | rewrite set_rate_ok by exact Ry].
    cbn [mbind result_bind].
    destruct (rate_fails (df_accel_z df)) eqn:Rz; cbn [orb];
      [by rewrite set_rate_fails | rewrite set_rate_ok by exact Rz].
    cbn [mbind result_bind].
    rewrite !(getcol_other _ _ "jerk_z" "jerk_x") by discriminate.
    rewrite !(getcol_other _ _ "jerk_y" "jerk_x") by discriminate.
    rewrite !(getcol_other _ _ "jerk_z" "jerk_y") by discriminate.
    rewrite !getcol_assigned. cbn [mbind result_bind].
    case_decide; cbn [mbind result_bind];
      eexists; (split; [reflexivity |]); rows.
  - cbn [mbind result_bind].
    case_decide; cbn [mbind result_bind];
      eexists; (split; [reflexivity |]); rows.
Qed.

Lemma gps_features_rows (df : TelemetryFrame) :
  frame_ok df -> well_formed (len df) (_extract_gps_features df).
Proof.
  intros H. columns_of H. unfold _extract_gps_features.
  assert (Hsub : forall f, well_formed (len df) f ->
            well_formed (len df)
              match getcol f "altitude_rate", getcol f "ground_speed" with
              | Ok altitude_rate, Ok speed =>
                  setitem f "speed_3d" (magnitude2 speed altitude_rate)
              | _, _ => f
              end).
  { intros f Hf.
    destruct (getcol f "altitude_rate") as [a |] eqn:Ha; [| exact Hf].
    destruct (getcol f "ground_speed") as [g |] eqn:Hg; [| exact Hf].
    apply well_formed_setitem; [exact Hf |].
    rewrite length_magnitude2, (getcol_length _ _ _ _ Hf Ha),
      (getcol_length _ _ _ _ Hf Hg). lia. }
  cbv zeta.
  destruct (any_position _ _).
  - apply well_formed_setitem; [apply well_formed_setitem |];
      [apply Hsub; rows | autorewrite with rows; lia ..].
  - apply Hsub; rows.
Qed.

(** The attitude features fail exactly when an angular rate is taken over an
    angle without any reading in a batch of two records or more. *)
Lemma attitude_features_outcome (cfg : FeatureConfig) (df : TelemetryFrame) :
  frame_ok df ->
  if include_derivative cfg
     && (rate_fails (df_roll df) || rate_fails (df_pitch df)
         || rate_fails (df_yaw df))
  then _extract_attitude_features cfg df
       = Raise (TypeError "unsupported operand type(s) for -: 'NoneType' and 'NoneType'")
  else exists f, _extract_attitude_features cfg df = Ok f /\ well_formed (len df) f.
Proof.
  intros H. columns_of H. unfold _extract_attitude_features.
  destruct (include_derivative cfg); cbn [andb].
  - destruct (rate_fails (df_roll df)) eqn:Rx; cbn [orb];
      [by rewrite set_rate_fails | rewrite set_rate_ok by exact Rx].
    cbn [mbind result_bind].
    destruct (rate_fails (df_pitch df)) eqn:Ry; cbn [orb];
      [by rewrite set_rate_fails | rewrite set_rate_ok by exact Ry].
    cbn [mbind result_bind].
    destruct (rate_fails (df_yaw df)) eqn:Rz; cbn [orb];
      [by rewrite set_rate_fails | rewrite set_rate_ok by exact Rz].
    cbn [mbind result_bind].
    eexists; (split; [reflexivity |]); rows.
  - cbn [mbind result_bind]. eexists; (split; [reflexivity |]); rows.
Qed.

Lemma battery_features_rows (df : TelemetryFrame) :
  frame_ok df -> well_formed (len df) (_extract_battery_features df).
Proof.
  intros H. columns_of H. unfold _extract_battery_features.
  assert (Hsub : forall f, well_formed (len df) f ->
            well_formed (len df)
              match getcol f "battery_voltage", getcol f "battery_current" with
              | Ok voltage, Ok current =>
                  setitem f "power_watts" (binop mul voltage current)
              | _, _ => f
              end).
  { intros f Hf.
    destruct (getcol f "battery_voltage") as [a |] eqn:Ha; [| exact Hf].
    destruct (getcol f "battery_current") as [g |] eqn:Hg; [| exact Hf].
    apply well_formed_setitem; [exact Hf |].
    rewrite length_binop, (getcol_length _ _ _ _ Hf Ha),
      (getcol_length _ _ _ _ Hf Hg). lia. }
  cbv zeta.
  destruct (any_notna (df_battery_remaining df));
    [apply well_formed_setitem; [| autorewrite with rows; lia] |];
    (destruct (any_notna (df_battery_current df)); [apply Hsub |]); rows.
Qed.

Lemma motion_features_rows (sensors : gset string) (df : TelemetryFrame) :
  frame_ok df -> well_formed (len df) (_extract_motion_features sensors df).
Proof.
  intros H. columns_of H. unfold _extract_motion_features. cbv zeta.
  case_decide; rows.
Qed.

(** The frame assembled from the detected sensors: the assembly fails exactly
    when a rate of change is taken over a field without any reading, and the
    frame has one row per record otherwise, whatever the set of detected
    sensors. *)
Lemma sensor_features_outcome (cfg : FeatureConfig) (sensors : gset string)
    (df : TelemetryFrame) :
  frame_ok df ->
  if rates_fail cfg sensors df
  then sensor_features cfg sensors df
       = Raise (TypeError "unsupported operand type(s) for -: 'NoneType' and 'NoneType'")
  else exists f, sensor_features cfg sensors df = Ok f /\ well_formed (len df) f.
Proof.
  intros H. unfold sensor_features, rates_fail.
  assert (H0 : well_formed (len df)
                 (concat (empty_frame 0) (_extract_time_features df))).
  { apply well_formed_concat; [by apply time_features_rows | by left | constructor]. }
  pose proof (imu_features_outcome cfg df H) as Himu.
  pose proof (attitude_features_outcome cfg df H) as Hatt.
  destruct (include_derivative cfg); cbn [andb] in *.
  - destruct (decide ("imu" ∈ sensors)) as [Hi | Hi];
      [rewrite (bool_decide_eq_true_2 _ Hi) | rewrite (bool_decide_eq_false_2 _ Hi)];
      cbn [andb orb].
    + destruct (rate_fails (df_accel_x df) || rate_fails (df_accel_y df)
                || rate_fails (df_accel_z df)); cbn [orb];
        [by rewrite Himu |].
      destruct Himu as (imu & -> & Himu). cbn [mbind result_bind].
      destruct (decide ("attitude" ∈ sensors)) as [Ha | Ha];
        [rewrite (bool_decide_eq_true_2 _ Ha) | rewrite (bool_decide_eq_false_2 _ Ha)];
        cbn [andb].
      * destruct (rate_fails (df_roll df) || rate_fails (df_pitch df)
                  || rate_fails (df_yaw df));
          [by rewrite Hatt |].
        destruct Hatt as (att & -> & Hatt). cbn [mbind result_bind].
        eexists. split; [reflexivity |].
        repeat case_decide;
          repeat first
            [ exact H0 | exact Himu | exact Hatt
            | apply well_formed_concat_same
            | by apply gps_features_rows
            | by apply battery_features_rows
            | by apply motion_features_rows ].
      * cbn [mbind result_bind]. eexists. split; [reflexivity |].
        repeat case_decide;
          repeat first
            [ exact H0 | exact Himu
            | apply well_formed_concat_same
            | by apply gps_features_rows
            | by apply battery_features_rows
            | by apply motion_features_rows ].
    + cbn [mbind result_bind].
      destruct (decide ("attitude" ∈ sensors)) as [Ha | Ha];
        [rewrite (bool_decide_eq_true_2 _ Ha) | rewrite (bool_decide_eq_false_2 _ Ha)];
        cbn [andb].
      * destruct (rate_fails (df_roll df) || rate_fails (df_pitch df)
                  || rate_fails (df_yaw df));
          [by rewrite Hatt |].
        destruct Hatt as (att & -> & Hatt). cbn [mbind result_bind].
        eexists. split; [reflexivity |].
        repeat case_decide;
          repeat first
            [ exact H0 | exact Hatt
            | apply well_formed_concat_same
            | by apply gps_features_rows
            | by apply battery_features_rows
            | by apply motion_features_rows ].
      * cbn [mbind result_bind]. eexists. split; [reflexivity |].
        repeat case_decide;
          repeat first
            [ exact H0
            | apply well_formed_concat_same
            | by apply gps_features_rows
            | by apply battery_features_rows
            | by apply motion_features_rows ].
  - destruct Himu as (imu & Himu & Hwi). destruct Hatt as (att & Hatt & Hwa).
    rewrite Himu, Hatt.
    destruct (decide ("imu" ∈ sensors)); cbn [mbind result_bind];
      destruct (decide ("attitude" ∈ sensors)); cbn [mbind result_bind];
      (eexists; split; [reflexivity |]);
      repeat case_decide;
        repeat first
          [ exact H0 | exact Hwi | exact Hwa
          | apply well_formed_concat_same
          | by apply gps_features_rows
          | by apply battery_features_rows
          | by apply motion_features_rows ].
Qed.

(** A frame that is assembled has one row per record. *)
Lemma sensor_features_rows (cfg : FeatureConfig) (sensors : gset string)
    (df : TelemetryFrame) (f : DataFrame) :
  frame_ok df -> sensor_features cfg sensors df = Ok f -> well_formed (len df) f.
Proof.
  intros H Hf. pose proof (sensor_features_outcome cfg sensors df H) as Ho.
  destruct (rates_fail cfg sensors df); [congruence |].
  destruct Ho as (f' & Hf' & Hw). congruence.
Qed.

(** *** Rolling statistics and the extraction *)

Lemma key_cols_have_column (f : DataFrame) :
  Forall (fun col => has_column f col = true) (key_cols f).
Proof.
  apply Forall_forall. intros col Hin. unfold key_cols, numeric_cols in Hin.
  apply list_elem_of_filter in Hin as [_ Hin].
  apply list_elem_of_filter in Hin as [_ Hin].
  unfold has_column. by apply bool_decide_eq_true.
Qed.

Lemma rolling_columns_rows (n : nat) (window : Z) (features : DataFrame)
    (cols : list string) (stat : DataFrame) :
  (1 <= window)%Z -> well_formed n features -> well_formed n stat ->
  exists out, rolling_columns window features cols stat = Ok out /\
              well_formed n out.
Proof.
  intros Hw Hf. revert stat.
  induction cols as [| col cols IH]; intros stat Hs; cbn [rolling_columns].
  - eauto.
  - destruct (has_column features col) eqn:Hcol; [| by apply IH].
    destruct (getcol_has_column _ _ Hcol) as [s Hg]. rewrite Hg.
    pose proof (getcol_length _ _ _ _ Hf Hg) as Hlen.
    cbn [mbind result_bind]. rewrite rolling_valid by exact Hw.
    cbn [mbind result_bind]. apply IH.
    repeat apply well_formed_setitem; try exact Hs;
      autorewrite with rows; cbn [r_series]; exact Hlen.
Qed.

Lemma rolling_columns_invalid (window : Z) (features : DataFrame)
    (cols : list string) (stat : DataFrame) :
  (window < 1)%Z -> cols <> [] ->
  Forall (fun col => has_column features col = true) cols ->
  rolling_columns window features cols stat
  = Raise (ValueError "min_periods must be <= window").
Proof.
  intros Hw Hne Hcols. destruct cols as [| col cols]; [contradiction |].
  apply Forall_cons in Hcols as [Hcol _]. cbn [rolling_columns]. rewrite Hcol.
  destruct (getcol_has_column _ _ Hcol) as [s ->].
  cbn [mbind result_bind]. rewrite rolling_invalid by exact Hw. reflexivity.
Qed.

Lemma statistical_features_rows (n : nat) (cfg : FeatureConfig) (features : DataFrame) :
  (1 <= rolling_window_size cfg)%Z -> well_formed n features ->
  exists stat, _extract_statistical_features cfg features = Ok stat /\
               well_formed n stat.
Proof.
  intros Hw Hf. unfold _extract_statistical_features.
  apply rolling_columns_rows; [exact Hw | exact Hf |].
  destruct Hf as [-> _]. apply well_formed_empty.
Qed.

Lemma statistical_features_invalid (cfg : FeatureConfig) (features : DataFrame) :
  (rolling_window_size cfg < 1)%Z -> key_cols features <> [] ->
  _extract_statistical_features cfg features
  = Raise (ValueError "min_periods must be <= window").
Proof.
  intros Hw Hne. unfold _extract_statistical_features.
  apply rolling_columns_invalid; [exact Hw | |].
  - destruct (key_cols features); [contradiction | discriminate].
  - apply Forall_take, key_cols_have_column.
Qed.

Lemma statistical_features_no_keys (cfg : FeatureConfig) (features : DataFrame) :
  key_cols features = [] ->
  _extract_statistical_features cfg features = Ok (empty_frame (index features)).
Proof. intros Hk. unfold _extract_statistical_features. rewrite Hk. reflexivity. Qed.

Lemma handle_missing_values_rows (n : nat) (cfg : FeatureConfig) (features : DataFrame) :
  well_formed n features -> well_formed n (_handle_missing_values cfg features).
Proof.
  intros Hf. unfold _handle_missing_values.
  apply well_formed_map_columns; [apply length_replace_inf |].
  apply well_formed_infer_objects.
  apply well_formed_map_columns; [apply length_fillna |].
  repeat case_bool_decide;
    repeat first
      [ exact Hf
      | apply well_formed_infer_objects
      | apply well_formed_map_numeric; [apply length_interpolate |]
      | apply well_formed_map_columns;
          [first [apply length_bfill | apply length_ffill | apply length_fillna] |] ].
Qed.

(** The outcome of the extraction once the telemetry frame and the sensor
    features are known. *)
Lemma extract_features_outcome (self : UniversalFeatureExtractor)
    (records : list TelemetryRecord) (df : TelemetryFrame) (f : DataFrame) :
  _records_to_dataframe records = Ok df ->
  sensor_features (config self) (_detect_available_sensors df) df = Ok f ->
  (extract_features self records).1
  = (features ←
       (if include_statistical (config self) then
          stat ← _extract_statistical_features (config self) f;
          Ok (concat f stat)
        else Ok f);
     Ok (_handle_missing_values (config self) features)).
Proof.
  intros Hdf Hf. unfold extract_features. rewrite Hdf. cbn [config].
  rewrite Hf. cbn [mbind result_bind].
  destruct (include_statistical (config self)); [| reflexivity].
  destruct (_extract_statistical_features (config self) f); reflexivity.
Qed.

(** The extraction fails with what the assembly of the sensor features
    raises. *)
Lemma extract_features_untyped (self : UniversalFeatureExtractor)
    (records : list TelemetryRecord) (df : TelemetryFrame) (e : exn) :
  _records_to_dataframe records = Ok df ->
  sensor_features (config self) (_detect_available_sensors df) df = Raise e ->
  (extract_features self records).1 = Raise e.
Proof.
  intros Hdf Hf. unfold extract_features. rewrite Hdf. cbn [config].
  rewrite Hf. reflexivity.
Qed.

Lemma untyped_rates_frame (cfg : FeatureConfig) (records : list TelemetryRecord)
    (df : TelemetryFrame) :
  _records_to_dataframe records = Ok df ->
  untyped_rates cfg records = rates_fail cfg (_detect_available_sensors df) df.
Proof. intros Hdf. unfold untyped_rates. rewrite Hdf. reflexivity. Qed.

(** A table is returned for every non-empty batch whose rates of change are
    taken over fields with a reading, when the rolling window is valid. *)
Lemma extraction_returns (self : UniversalFeatureExtractor)
    (records : list TelemetryRecord) :
  records <> [] -> (1 <= rolling_window_size (config self))%Z ->
  untyped_rates (config self) records = false ->
  exists df unfilled,
    _records_to_dataframe records = Ok df /\
    well_formed (length records) unfilled /\
    extract_features self records
    = (Ok (_handle_missing_values (config self) unfilled),
       {| config := config self;
          available_sensors := _detect_available_sensors df;
          feature_names :=
            (columns (_handle_missing_values (config self) unfilled)).*1 |}).
Proof.
  intros Hne Hw Hty.
  destruct (records_to_dataframe_ok records Hne) as (df & Hdf & Hlen & Hok).
  rewrite (untyped_rates_frame _ _ df Hdf) in Hty.
  pose proof (sensor_features_outcome (config self) (_detect_available_sensors df)
                df Hok) as Ho.
  rewrite Hty in Ho. destruct Ho as (f & Hf & Hrows). rewrite Hlen in Hrows.
  exists df. unfold extract_features. rewrite Hdf. cbn [config available_sensors].
  rewrite Hf. cbn [mbind result_bind].
  destruct (include_statistical (config self)).
  - destruct (statistical_features_rows _ (config self) f Hw Hrows)
      as (stat & -> & Hstat).
    cbn [mbind result_bind]. exists (concat f stat). split; [reflexivity |].
    split; [by apply well_formed_concat_same | reflexivity].
  - cbn [mbind result_bind]. exists f. split; [reflexivity |].
    split; [exact Hrows | reflexivity].
Qed.

(** A table that is returned always has one row per record, also when the
    configured window is not valid. *)
Lemma returned_features_rows (self : UniversalFeatureExtractor)
    (records : list TelemetryRecord) (features : DataFrame) :
  (extract_features self records).1 = Ok features ->
  well_formed (length records) features.
Proof.
  intros Hret. destruct records as [| r records]; [discriminate |].
  destruct (records_to_dataframe_ok (r :: records) ltac:(discriminate))
    as (df & Hdf & Hlen & Hok).
  destruct (sensor_features (config self) (_detect_available_sensors df) df)
    as [f | e] eqn:Hf;
    [| rewrite (extract_features_untyped self _ df e Hdf Hf) in Hret; discriminate].
  pose proof (sensor_features_rows _ _ _ _ Hok Hf) as Hrows.
  rewrite (extract_features_outcome self _ df f Hdf Hf) in Hret.
  rewrite Hlen in Hrows.
  destruct (include_statistical (config self)).
  - destruct (_extract_statistical_features (config self) f) as [stat |] eqn:Hstat;
      [| discriminate].
    cbn [mbind result_bind] in Hret. injection Hret as <-.
    apply handle_missing_values_rows, well_formed_concat_same; [exact Hrows |].
    unfold _extract_statistical_features in Hstat.
    destruct (decide (1 <= rolling_window_size (config self))%Z) as [Hw | Hw].
    + destruct (rolling_columns_rows (length (r :: records)) _ f
                  (take 10 (key_cols f)) (empty_frame (index f)) Hw Hrows)
        as (out & Hout & Hwf).
      { destruct Hrows as [-> _]. apply well_formed_empty. }
      congruence.
    + destruct (key_cols f) as [| k ks] eqn:Hk.
      * cbn in Hstat. injection Hstat as <-.
        destruct Hrows as [-> _]. apply well_formed_empty.
      * rewrite rolling_columns_invalid in Hstat; [discriminate | lia | discriminate |].
        rewrite <- Hk. apply Forall_take, key_cols_have_column.
  - cbn [mbind result_bind] in Hret. injection Hret as <-.
    by apply handle_missing_values_rows.
Qed.

(** *** Detection of a sensor *)

Lemma above_threshold_zero (df : TelemetryFrame) : above_threshold 0 df = false.
Proof.
  unfold above_threshold. apply bool_decide_eq_false_2.
  pose proof (pos_INR (len df)). cbn [INR]. lra.
Qed.

Lemma imu_detected (df : TelemetryFrame) :
  above_threshold (count_notna (df_accel_x df) + count_notna (df_accel_y df)
                   + count_notna (df_accel_z df)) df = true ->
  "imu" ∈ _detect_available_sensors df.
Proof.
  intros H. unfold _detect_available_sensors. rewrite H.
  repeat match goal with
         | |- context [above_threshold ?c ?d] => destruct (above_threshold c d)
         end;
    rewrite ?elem_of_union, elem_of_singleton; tauto.
Qed.

Lemma attitude_detected (df : TelemetryFrame) :
  above_threshold (count_notna (df_roll df) + count_notna (df_pitch df)
                   + count_notna (df_yaw df)) df = true ->
  "attitude" ∈ _detect_available_sensors df.
Proof.
  intros H. unfold _detect_available_sensors. rewrite H.
  repeat match goal with
         | |- context [above_threshold ?c ?d] => destruct (above_threshold c d)
         end;
    rewrite ?elem_of_union, ?elem_of_singleton; tauto.
Qed.


(** Without a detected sensor no rate of change is taken without a guard. *)
Lemma no_sensor_no_rate (cfg : FeatureConfig) (df : TelemetryFrame) :
  rates_fail cfg ∅ df = false.
Proof.
  unfold rates_fail.
  rewrite !bool_decide_eq_false_2 by set_solver.
  cbn [andb orb]. apply andb_false_r.
Qed.

(** *** The heading-only batch *)

(** Extraction does not return a table for every non-empty batch, even with
    a valid rolling window.  Two records that carry a heading and nothing
    else make the attitude sensor detected, and the roll rate is then taken
    over a roll column that no record fills, which raises [TypeError]. *)
Lemma heading_only_batch_raises :
  exists msg,
    (extract_features (new None) [heading_record 0 90; heading_record 1 91]).1
    = Raise (TypeError msg).
Proof.
  set (records := [heading_record 0 90; heading_record 1 91]).
  destruct (records_to_dataframe_ok records ltac:(discriminate))
    as (df & Hdf & Hlen & Hok).
  assert (Hdf' := Hdf). cbn in Hdf'. injection Hdf' as Hdf'.
  assert (Hs : "attitude" ∈ _detect_available_sensors df).
  { apply attitude_detected. subst df.
    apply bool_decide_eq_true_2. cbn [len length INR df_roll df_pitch df_yaw].
    change (count_notna _ + count_notna _ + count_notna _)%nat with 2%nat.
    cbn [INR]. lra. }
  pose proof (sensor_features_outcome (config (new None))
                (_detect_available_sensors df) df Hok) as Ho.
  assert (Hfail : rates_fail (config (new None)) (_detect_available_sensors df) df
                  = true).
  { unfold rates_fail. rewrite (bool_decide_eq_true_2 _ Hs).
    assert (Hroll : rate_fails (df_roll df) = true) by (subst df; reflexivity).
    rewrite Hroll. cbn [new config from_option Datatypes.id default_config
                        include_derivative andb orb].
    apply orb_true_r. }
  rewrite Hfail in Ho. eexists.
  exact (extract_features_untyped (new None) records df _ Hdf Ho).
Qed.

(** C6: for every non-empty batch of records, the feature table that the
    extraction returns has exactly one row per record, in its index and in
    each of its columns, whatever sensors are detected and whatever the
    configuration; and a table is returned whenever the rolling window is at
    least 1 and no rate of change is taken over a field without any
    reading. *)
Theorem feature_rows_match_records (self : UniversalFeatureExtractor)
    (records : list TelemetryRecord) :
  records <> [] ->
  (forall features,
     (extract_features self records).1 = Ok features ->
     index features = length records /\
     Forall (fun kv => length kv.2 = length records) (columns features)) /\
  ((1 <= rolling_window_size (config self))%Z ->
   untyped_rates (config self) records = false ->
   is_ok (extract_features self records).1).
Proof.
  intros Hne. split.
  - intros features Hret. exact (returned_features_rows self records features Hret).
  - intros Hw Hty.
    destruct (extraction_returns self records Hne Hw Hty) as (df & u & _ & _ & ->).
    eexists. reflexivity.
Qed.

Lemma feature_rows_match_records_witness :
  (forall features,
     (extract_features (new None)
        [hover_record 0; hover_record 0.1; hover_record 0.2]).1 = Ok features ->
     index features = length [hover_record 0; hover_record 0.1; hover_record 0.2] /\
     Forall (fun kv => length kv.2
                       = length [hover_record 0; hover_record 0.1; hover_record 0.2])
       (columns features)) /\
  ((1 <= rolling_window_size (config (new None)))%Z ->
   untyped_rates (config (new None))
     [hover_record 0; hover_record 0.1; hover_record 0.2] = false ->
   is_ok (extract_features (new None)
            [hover_record 0; hover_record 0.1; hover_record 0.2]).1).
Proof.
  apply (feature_rows_match_records (new None)
           [hover_record 0; hover_record 0.1; hover_record 0.2]).
  discriminate.
Defined.

(** *** A batch without sensor readings *)

Lemma names_concat (a b : DataFrame) :
  (columns (concat a b)).*1 = (columns a).*1 ++ (columns b).*1.
Proof.
  cbn [concat columns]. rewrite <- fmap_app.
  change (map ?f ?l) with (f <$> l). rewrite <- list_fmap_compose.
  reflexivity.
Qed.








(** *** A batch with accelerometer readings *)

(** Only the columns of [rate_columns] can have the object dtype. *)
#[local] Abbreviation typed f := (Forall (fun k => k ∈ rate_columns) (objects f)).

Lemma typed_empty (n : nat) : typed (empty_frame n).
Proof. apply Forall_nil_2. Qed.

Lemma typed_setitem (f : DataFrame) (name : string) (s : Series) :
  typed f -> typed (setitem f name s).
Proof.
  intros Hf. cbn [setitem objects]. apply Forall_forall. intros k Hk.
  apply list_elem_of_filter in Hk as [_ Hk].
  by apply (proj1 (Forall_forall _ _) Hf).
Qed.

Lemma typed_setitem_as (object : bool) (f : DataFrame) (name : string)
    (s : Series) :
  name ∈ rate_columns -> typed f -> typed (setitem_as object f name s).
Proof.
  intros Hname Hf. destruct object; cbn [setitem_as]; [| by apply typed_setitem].
  cbn [setitem_object objects]. apply Forall_cons_2; [exact Hname |].
  apply Forall_forall. intros k Hk.
  apply list_elem_of_filter in Hk as [_ Hk].
  by apply (proj1 (Forall_forall _ _) Hf).
Qed.

Lemma typed_concat (a b : DataFrame) : typed a -> typed b -> typed (concat a b).
Proof. intros Ha Hb. cbn [concat objects]. by apply Forall_app_2. Qed.

Lemma names_setitem_new (f : DataFrame) (name : string) (s : Series) :
  name ∈ (columns (setitem f name s)).*1.
Proof.
  cbn [setitem columns]. induction (columns f) as [| [k v] cols IH]; cbn [assign].
  - apply list_elem_of_here.
  - case_bool_decide as Hk; cbn [fmap list_fmap fst].
    + rewrite Hk. apply list_elem_of_here.
    + apply list_elem_of_further, IH.
Qed.

Lemma names_setitem_old (f : DataFrame) (name k : string) (s : Series) :
  k ∈ (columns f).*1 -> k ∈ (columns (setitem f name s)).*1.
Proof.
  cbn [setitem columns]. induction (columns f) as [| [k' v] cols IH]; cbn [assign].
  - intros Hin. inversion Hin.
  - case_bool_decide as Hk; cbn [fmap list_fmap fst]; [auto |].
    intros Hin. apply elem_of_cons in Hin as [-> | Hin].
    + apply list_elem_of_here.
    + apply list_elem_of_further, IH, Hin.
Qed.

Ltac rate_name :=
  unfold rate_columns;
  repeat first [apply list_elem_of_here | apply list_elem_of_further].

Ltac dtypes :=
  repeat first
    [ apply typed_empty
    | apply typed_setitem
    | apply typed_setitem_as; [rate_name |]
    | apply typed_concat
    | match goal with
      | |- Forall _ (objects (if ?b then _ else _)) => destruct b
      | |- Forall _ (objects (match ?x with _ => _ end)) => destruct x
      | |- Forall _ (objects (let _ := _ in _)) => cbv zeta
      end ].

Lemma time_features_typed (df : TelemetryFrame) : typed (_extract_time_features df).
Proof. unfold _extract_time_features. dtypes. Qed.

Lemma gps_features_typed (df : TelemetryFrame) : typed (_extract_gps_features df).
Proof. unfold _extract_gps_features. dtypes. Qed.

Lemma battery_features_typed (df : TelemetryFrame) :
  typed (_extract_battery_features df).
Proof. unfold _extract_battery_features. dtypes. Qed.

Lemma motion_features_typed (sensors : gset string) (df : TelemetryFrame) :
  typed (_extract_motion_features sensors df).
Proof. unfold _extract_motion_features. dtypes. Qed.

Lemma set_rate_returns (f f' : DataFrame) (name : string) (s time_delta : Series) :
  set_rate f name s time_delta = Ok f' ->
  f' = setitem_as (is_object s) f name (binop div (diff s) time_delta).
Proof.
  unfold set_rate, diff_raw. destruct (rate_fails s); [discriminate |].
  cbn [mbind result_bind]. by intros [= <-].
Qed.

Ltac rates H :=
  repeat match type of H with
         | context [set_rate ?f ?name ?s ?d] =>
             let Hr := fresh "Hr" in
             destruct (set_rate f name s d) eqn:Hr;
             [apply set_rate_returns in Hr; subst | discriminate H];
             cbn [mbind result_bind] in H
         end.

Lemma imu_features_returned (cfg : FeatureConfig) (df : TelemetryFrame)
    (f : DataFrame) :
  _extract_imu_features cfg df = Ok f ->
  typed f /\ "g_force" ∈ (columns f).*1.
Proof.
  unfold _extract_imu_features. rewrite !rolling_valid by lia.
  intros Hf. destruct (include_derivative cfg).
  - rates Hf.
    rewrite !(getcol_other _ _ "jerk_z" "jerk_x") in Hf by discriminate.
    rewrite !(getcol_other _ _ "jerk_y" "jerk_x") in Hf by discriminate.
    rewrite !(getcol_other _ _ "jerk_z" "jerk_y") in Hf by discriminate.
    rewrite !getcol_assigned in Hf. cbn [mbind result_bind] in Hf.
    case_decide; cbn [mbind result_bind] in Hf; injection Hf as <-;
      (split; [dtypes |]);
      repeat first
        [ apply names_setitem_new
        | apply names_setitem_old
        | rewrite columns_setitem_as
        | match goal with
          | |- _ ∈ (columns (if ?b then _ else _)).*1 => destruct b
          end ].
  - cbn [mbind result_bind] in Hf.
    case_decide; cbn [mbind result_bind] in Hf; injection Hf as <-;
      (split; [dtypes |]);
      repeat first
        [ apply names_setitem_new
        | apply names_setitem_old
        | match goal with
          | |- _ ∈ (columns (if ?b then _ else _)).*1 => destruct b
          end ].
Qed.

Lemma attitude_features_typed (cfg : FeatureConfig) (df : TelemetryFrame)
    (f : DataFrame) :
  _extract_attitude_features cfg df = Ok f -> typed f.
Proof.
  unfold _extract_attitude_features. intros Hf.
  destruct (include_derivative cfg).
  - rates Hf. injection Hf as <-. dtypes.
  - cbn [mbind result_bind] in Hf. injection Hf as <-. dtypes.
Qed.

(** In a frame that is assembled only a rate of change can have the object
    dtype. *)
Lemma sensor_features_typed (cfg : FeatureConfig) (sensors : gset string)
    (df : TelemetryFrame) (f : DataFrame) :
  sensor_features cfg sensors df = Ok f -> typed f.
Proof.
  unfold sensor_features. intros Hf.
  pose proof (time_features_typed df). pose proof (gps_features_typed df).
  pose proof (battery_features_typed df).
  pose proof (motion_features_typed sensors df).
  destruct (decide ("imu" ∈ sensors));
    [destruct (_extract_imu_features cfg df) as [imu |] eqn:Himu;
       [apply imu_features_returned in Himu as [Himu _] | discriminate Hf] |];
    cbn [mbind result_bind] in Hf;
    (destruct (decide ("attitude" ∈ sensors));
       [destruct (_extract_attitude_features cfg df) as [att |] eqn:Hatt;
          [apply attitude_features_typed in Hatt | discriminate Hf] |]);
    cbn [mbind result_bind] in Hf; injection Hf as <-;
    repeat case_decide;
    repeat first [assumption | apply typed_empty | apply typed_concat].
Qed.

(** When the accelerometer is detected, the G-force column is a key column of
    the rolling statistics. *)
Lemma imu_gives_key_column (cfg : FeatureConfig) (sensors : gset string)
    (df : TelemetryFrame) (f : DataFrame) :
  "imu" ∈ sensors -> sensor_features cfg sensors df = Ok f ->
  "g_force" ∈ key_cols f.
Proof.
  intros Himu Hf. pose proof (sensor_features_typed _ _ _ _ Hf) as Hty.
  unfold key_cols, numeric_cols. apply list_elem_of_filter.
  split; [reflexivity |]. apply list_elem_of_filter. split.
  - intros Hin. apply (proj1 (Forall_forall _ _) Hty) in Hin.
    unfold rate_columns in Hin.
    repeat (apply elem_of_cons in Hin as [Hin | Hin]; [discriminate Hin |]).
    inversion Hin.
  - unfold sensor_features in Hf. rewrite decide_True in Hf by exact Himu.
    destruct (_extract_imu_features cfg df) as [imu |] eqn:Hi;
      cbn [mbind result_bind] in Hf; [| discriminate].
    apply imu_features_returned in Hi as [_ Hi].
    destruct (decide ("attitude" ∈ sensors));
      [destruct (_extract_attitude_features cfg df) as [att |];
         [| discriminate Hf] |];
      cbn [mbind result_bind] in Hf; injection Hf as <-;
      repeat case_decide; rewrite !names_concat, !elem_of_app; tauto.
Qed.

(** A hovering flight with accelerometer readings is rejected when the rolling
    window is 0. *)
Lemma hover_batch_zero_window_raises :
  exists msg,
    (extract_features (new (Some (config_with_window 0)))
                      [hover_record 0; hover_record 0.1]).1
    = Raise (ValueError msg).
Proof.
  set (records := [hover_record 0; hover_record 0.1]).
  destruct (records_to_dataframe_ok records ltac:(discriminate))
    as (df & Hdf & Hlen & Hok).
  assert (Hdf' := Hdf). cbn in Hdf'. injection Hdf' as Hdf'.
  assert (Hs : "imu" ∈ _detect_available_sensors df).
  { apply imu_detected. subst df.
    apply bool_decide_eq_true_2. cbn [len length INR count_notna].
    change (count_notna _) with 2%nat. cbn [Nat.add INR]. lra. }
  assert (Hatt : "attitude" ∉ _detect_available_sensors df).
  { unfold _detect_available_sensors.
    assert (Hz : above_threshold (count_notna (df_roll df) + count_notna (df_pitch df)
                                  + count_notna (df_yaw df)) df = false).
    { subst df. apply above_threshold_zero. }
    rewrite Hz.
    repeat match goal with
           | |- context [above_threshold ?c ?d] => destruct (above_threshold c d)
           end;
      rewrite ?elem_of_union, ?elem_of_singleton, elem_of_empty;
      intros Hin; decompose [or] Hin; try discriminate; assumption. }
  pose proof (sensor_features_outcome (config_with_window 0)
                (_detect_available_sensors df) df Hok) as Ho.
  assert (Hfail : rates_fail (config_with_window 0) (_detect_available_sensors df) df
                  = false).
  { unfold rates_fail. rewrite (bool_decide_eq_false_2 _ Hatt).
    assert (Hx : rate_fails (df_accel_x df) = false) by (subst df; reflexivity).
    assert (Hy : rate_fails (df_accel_y df) = false) by (subst df; reflexivity).
    assert (Hz : rate_fails (df_accel_z df) = false) by (subst df; reflexivity).
    rewrite Hx, Hy, Hz. cbn [andb orb]. by rewrite !andb_false_r. }
  rewrite Hfail in Ho. destruct Ho as (f & Hf & _).
  pose proof (imu_gives_key_column _ _ _ _ Hs Hf) as Hkey.
  rewrite (extract_features_outcome (new (Some (config_with_window 0)))
             records df f Hdf Hf).
  cbn [new config from_option Datatypes.id config_with_window include_statistical
       default_config].
  rewrite statistical_features_invalid; [eexists; reflexivity | reflexivity |].
  intros Hnil. rewrite Hnil in Hkey. inversion Hkey.
Qed.

End FeaturesTheory.


(** * Further properties *)

(** ** Stress model: failures, bounds and sensitivities *)

Module StressExtras.
Import Stress DroneModel StressTheory.

Lemma INR_num_motors_zero (c : DroneConfig) :
  INR (num_motors c) = 0 <-> motors c = [].
Proof.
  unfold num_motors. split.
  - intros H. destruct (motors c) as [| m ms]; [reflexivity |].
    exfalso. pose proof (pos_INR (length ms)). rewrite length_cons, S_INR in H. lra.
  - intros ->. reflexivity.
Qed.


Lemma wind_stress_error (c : DroneConfig) (wind : R) (e : exn) :
  _calculate_wind_stress c wind = Raise e -> e = ZeroDivisionError.
Proof.
  unfold _calculate_wind_stress, truediv.
  case_decide; [discriminate |].
  case_decide; cbn [mbind result_bind]; [congruence |].
  repeat case_decide; discriminate.
Qed.




Lemma g_stress_bounds (g : R) : 0 <= _calculate_g_stress g <= 100.
Proof.
  unfold _calculate_g_stress. case_decide; [lra |].
  pose proof (exp_pos (- 3 * ((g - 1) / 4))) as Hpos.
  pose proof (exp_le (- 3 * ((g - 1) / 4)) 0 ltac:(lra)) as Hle.
  rewrite exp_0 in Hle.
  rewrite Rmin_right by lra. lra.
Qed.

Lemma clamp_bounds (x : R) : 0 <= Rmin 100 (Rmax 0 x) <= 100.
Proof.
  split; [| apply Rmin_l]. apply Rmin_glb; [lra | apply Rmax_l].
Qed.

Lemma temperature_stress_bounds (t : R) : 0 <= _calculate_temperature_stress t <= 100.
Proof.
  unfold _calculate_temperature_stress. case_decide; [lra | apply clamp_bounds].
Qed.

Lemma battery_stress_bounds (t : R) : 0 <= _calculate_battery_stress t <= 100.
Proof.
  unfold _calculate_battery_stress. case_decide; [lra | apply clamp_bounds].
Qed.

Lemma altitude_stress_bounds (alt : R) : 0 <= _calculate_altitude_stress alt <= 50.
Proof.
  unfold _calculate_altitude_stress. case_decide; [lra |].
  split; [| apply Rmin_l]. apply Rmin_glb; lra.
Qed.

Lemma motor_stress_upper (c : DroneConfig) (g t : R) :
  _calculate_motor_stress c g t <= 100.
Proof. unfold _calculate_motor_stress. apply Rmin_l. Qed.

Lemma arm_stress_bounds (c : DroneConfig) (g a : R) :
  _calculate_arm_stress c g = Ok a -> 0 <= a <= 100.
Proof.
  unfold _calculate_arm_stress. destruct (arms c) as [| arm _].
  - intros H. inversion H. lra.
  - unfold truediv.
    destruct (decide (INR (num_motors c) = 0)); cbn [mbind result_bind];
      [discriminate |].
    destruct (decide (cross_section_area_m2 arm * 1e6 = 0));
      cbn [mbind result_bind]; [discriminate |].
    destruct (decide (max_bending_stress_mpa arm = 0));
      cbn [mbind result_bind]; [discriminate |].
    intros H. inversion H. apply clamp_bounds.
Qed.

Lemma arm_stress_error (c : DroneConfig) (g : R) (e : exn) :
  _calculate_arm_stress c g = Raise e -> e = ZeroDivisionError.
Proof.
  unfold _calculate_arm_stress. destruct (arms c) as [| arm _]; [discriminate |].
  unfold truediv.
  destruct (decide (INR (num_motors c) = 0)); cbn [mbind result_bind];
    [congruence |].
  destruct (decide (cross_section_area_m2 arm * 1e6 = 0));
    cbn [mbind result_bind]; [congruence |].
  destruct (decide (max_bending_stress_mpa arm = 0));
    cbn [mbind result_bind]; [congruence |].
  discriminate.
Qed.

(** X2: every assessment that [calculate_flight_stress] returns has its
    overall, G-force, temperature, arm and battery scores in [0,100], its
    altitude score in [0,50] and its motor score at most 100; the only
    exception the computation raises is [ZeroDivisionError]. *)
Theorem stress_scores_bounded (c : DroneConfig) (g wind temp alt : R) :
  match calculate_flight_stress c g wind temp alt with
  | Ok a =>
      0 <= overall_stress a <= 100 /\
      0 <= g_stress a <= 100 /\
      0 <= temperature_stress a <= 100 /\
      0 <= altitude_stress a <= 50 /\
      0 <= arm_stress a <= 100 /\
      0 <= battery_stress a <= 100 /\
      motor_stress a <= 100
  | Raise e => e = ZeroDivisionError
  end.
Proof.
  unfold calculate_flight_stress.
  destruct (_calculate_wind_stress c wind) as [w | e] eqn:Hw;
    cbn [mbind result_bind]; [| by apply wind_stress_error in Hw].
  destruct (_calculate_arm_stress c g) as [a | e] eqn:Ha;
    cbn [mbind result_bind]; [| by apply arm_stress_error in Ha].
  cbn [overall_stress g_stress temperature_stress altitude_stress arm_stress
       battery_stress motor_stress].
  pose proof (arm_stress_bounds _ _ _ Ha).
  repeat split;
    first [ apply clamp_bounds | apply g_stress_bounds
          | apply temperature_stress_bounds | apply altitude_stress_bounds
          | apply battery_stress_bounds | apply motor_stress_upper | lra ].
Qed.

(** X3: the altitude only determines the altitude score: the overall stress
    and every other score are the same at any two altitudes, and so is the
    exception when the computation raises. *)
Theorem overall_stress_ignores_altitude (c : DroneConfig) (g wind temp alt1 alt2 : R) :
  match calculate_flight_stress c g wind temp alt1,
        calculate_flight_stress c g wind temp alt2 with
  | Ok a1, Ok a2 =>
      overall_stress a1 = overall_stress a2 /\
      g_stress a1 = g_stress a2 /\ wind_stress a1 = wind_stress a2 /\
      temperature_stress a1 = temperature_stress a2 /\
      motor_stress a1 = motor_stress a2 /\ arm_stress a1 = arm_stress a2 /\
      battery_stress a1 = battery_stress a2 /\ components a1 = components a2 /\
      altitude_stress a1 = _calculate_altitude_stress alt1 /\
      altitude_stress a2 = _calculate_altitude_stress alt2
  | Raise e1, Raise e2 => e1 = e2
  | _, _ => False
  end.
Proof.
  unfold calculate_flight_stress.
  destruct (_calculate_wind_stress c wind) as [w | e];
    cbn [mbind result_bind]; [| reflexivity].
  destruct (_calculate_arm_stress c g) as [a | e];
    cbn [mbind result_bind]; [| reflexivity].
  cbn. repeat split; reflexivity.
Qed.

#[local] Abbreviation wind_curve r :=
  (if decide (r < 0.5) then r * 40
   else if decide (r < 0.8) then 20 + (r - 0.5) * 100
   else 50 + (r - 0.8) * 250).

Lemma wind_stress_value (c : DroneConfig) (wind : R) :
  0 < max_wind_speed_ms c -> 0 < wind ->
  _calculate_wind_stress c wind = Ok (wind_curve (wind / max_wind_speed_ms c)).
Proof.
  intros Hm Hw. unfold _calculate_wind_stress, truediv.
  rewrite decide_False by lra. rewrite decide_False by lra.
  cbn [mbind result_bind]. repeat case_decide; reflexivity.
Qed.

Lemma wind_curve_mono (r1 r2 : R) :
  0 <= r1 -> r1 <= r2 -> 0 <= wind_curve r1 <= wind_curve r2.
Proof. intros H0 H12. repeat case_decide; lra. Qed.

Lemma wind_curve_above_rated (r : R) : 1 < r -> 100 < wind_curve r.
Proof. intros Hr. repeat case_decide; lra. Qed.

(** X4: for a specification with a positive rated wind speed, the wind score
    never raises, is not negative and does not decrease when the wind grows;
    it is 20 at half the rated speed, 50 at 80 % of it and 100 at the rated
    speed, and it is not capped: above the rated speed it exceeds 100. *)
Theorem wind_stress_profile (c : DroneConfig) (w1 w2 : R) :
  0 < max_wind_speed_ms c -> w1 <= w2 ->
  (exists s1 s2,
     _calculate_wind_stress c w1 = Ok s1 /\ _calculate_wind_stress c w2 = Ok s2 /\
     0 <= s1 <= s2 /\ (max_wind_speed_ms c < w2 -> 100 < s2)) /\
  _calculate_wind_stress c (0.5 * max_wind_speed_ms c) = Ok 20 /\
  _calculate_wind_stress c (0.8 * max_wind_speed_ms c) = Ok 50 /\
  _calculate_wind_stress c (max_wind_speed_ms c) = Ok 100.
Proof.
  intros Hm Hw. set (m := max_wind_speed_ms c) in *.
  assert (Hratio : forall w, 0 < w -> 0 < w / m).
  { intros w Hw0. apply Rdiv_lt_0_compat; lra. }
  assert (Hle : forall u v, u <= v -> u / m <= v / m).
  { intros u v Huv. apply Rmult_le_compat_r; [| exact Huv].
    left. apply Rinv_0_lt_compat. lra. }
  assert (Hone : forall w, m < w -> 1 < w / m).
  { intros w Hgt. apply (Rmult_lt_reg_r m); [lra |]. unfold Rdiv.
    rewrite Rmult_assoc, Rinv_l by lra. lra. }
  assert (Hval : forall k, k * m / m = k).
  { intros k. field. lra. }
  split; [| split; [| split]].
  - destruct (Rle_dec w2 0) as [H2 | H2].
    + exists 0, 0. unfold _calculate_wind_stress. rewrite !decide_True by lra.
      repeat split; try reflexivity; lra.
    + rewrite (wind_stress_value c w2) by (fold m; lra). fold m.
      destruct (Rle_dec w1 0) as [H1 | H1].
      * exists 0. unfold _calculate_wind_stress at 1. rewrite decide_True by lra.
        eexists. split; [reflexivity |]. split; [reflexivity |].
        pose proof (Hratio w2 ltac:(lra)).
        pose proof (wind_curve_mono (w2 / m) (w2 / m) ltac:(lra) ltac:(lra)).
        split; [lra |]. intros Hgt. apply wind_curve_above_rated, Hone, Hgt.
      * rewrite (wind_stress_value c w1) by (fold m; lra). fold m.
        do 2 eexists. split; [reflexivity |]. split; [reflexivity |].
        pose proof (Hratio w1 ltac:(lra)).
        split; [apply wind_curve_mono; [lra | apply Hle; lra] |].
        intros Hgt. apply wind_curve_above_rated, Hone, Hgt.
  - rewrite wind_stress_value by (fold m; lra). fold m. rewrite Hval.
    branch. f_equal. lra.
  - rewrite wind_stress_value by (fold m; lra). fold m. rewrite Hval.
    branch. f_equal. lra.
  - rewrite wind_stress_value by (fold m; lra). fold m.
    replace (m / m) with 1 by (field; lra). branch. f_equal. lra.
Qed.

Lemma wind_stress_profile_witness :
  (exists s1 s2,
     _calculate_wind_stress standard_quadcopter 2 = Ok s1 /\
     _calculate_wind_stress standard_quadcopter 10 = Ok s2 /\
     0 <= s1 <= s2 /\ (max_wind_speed_ms standard_quadcopter < 10 -> 100 < s2)) /\
  _calculate_wind_stress standard_quadcopter
    (0.5 * max_wind_speed_ms standard_quadcopter) = Ok 20 /\
  _calculate_wind_stress standard_quadcopter
    (0.8 * max_wind_speed_ms standard_quadcopter) = Ok 50 /\
  _calculate_wind_stress standard_quadcopter
    (max_wind_speed_ms standard_quadcopter) = Ok 100.
Proof. apply wind_stress_profile; cbn; lra. Defined.


Lemma throttle_nonneg (c : DroneConfig) (g : R) :
  physical c -> 0 <= g ->
  0 <= Rmin 100 (g * (hover_throttle_percent c / 100) * 100).
Proof.
  intros Hc Hg. pose proof (hover_throttle_nonneg c Hc).
  apply Rmin_glb; [lra | nra].
Qed.

(** X5: for a physical specification and a G-force that is not negative, an
    air temperature between 15 and 30 degrees gives the smallest overall
    stress: at any other temperature, all else equal, the overall stress is at
    least as large. *)
Theorem comfort_temperature_minimises_stress (c : DroneConfig)
    (g wind alt comfort temp : R) :
  physical c -> 0 <= g -> 15 <= comfort <= 30 ->
  match calculate_flight_stress c g wind comfort alt,
        calculate_flight_stress c g wind temp alt with
  | Ok a0, Ok a => overall_stress a0 <= overall_stress a
  | Raise e0, Raise e => e0 = e
  | _, _ => False
  end.
Proof.
  intros Hc Hg Hcomfort. unfold calculate_flight_stress.
  destruct (_calculate_wind_stress c wind) as [w | e];
    cbn [mbind result_bind]; [| reflexivity].
  destruct (_calculate_arm_stress c g) as [a | e];
    cbn [mbind result_bind overall_stress]; [| reflexivity].
  apply clamp_mono.
  assert (Ht0 : _calculate_temperature_stress comfort = 0).
  { unfold _calculate_temperature_stress. rewrite decide_True by lra. reflexivity. }
  pose proof (temperature_stress_bounds temp) as Ht.
  assert (Hm : _calculate_motor_stress c g comfort <= _calculate_motor_stress c g temp).
  { unfold _calculate_motor_stress.
    pose proof (throttle_nonneg c g Hc Hg) as Hthr.
    set (thr := Rmin 100 _) in *.
    rewrite (decide_False (P := comfort > 30)) by lra.
    rewrite (decide_False (P := comfort < 10)) by lra.
    apply Rmin_mono; [lra |]. repeat case_decide; nra. }
  lra.
Qed.

Lemma comfort_temperature_minimises_stress_witness :
  match calculate_flight_stress standard_quadcopter 2 4 20 100,
        calculate_flight_stress standard_quadcopter 2 4 45 100 with
  | Ok a0, Ok a => overall_stress a0 <= overall_stress a
  | Raise e0, Raise e => e0 = e
  | _, _ => False
  end.
Proof.
  apply comfort_temperature_minimises_stress; [| lra | lra].
  split; [cbn; lra |]. repeat constructor; cbn; lra.
Defined.

(** X6: for a drone with a positive weight and a total thrust that is not
    zero, the hover throttle percentage times the thrust-to-weight ratio is
    100; with at least one motor, the hover thrust per motor times the number
    of motors is the weight force. *)
Theorem hover_throttle_inverse_of_thrust_ratio (c : DroneConfig) :
  0 < total_weight_kg c -> total_max_thrust_n c <> 0 ->
  hover_throttle_percent c * thrust_to_weight_ratio c = 100 /\
  (motors c <> [] ->
   hover_thrust_per_motor_n c * INR (num_motors c) = total_weight_kg c * 9.81).
Proof.
  intros Hw Ht. split.
  - unfold hover_throttle_percent, thrust_to_weight_ratio.
    rewrite decide_False by exact Ht. rewrite decide_True by lra.
    field. split; lra.
  - intros Hm. unfold hover_thrust_per_motor_n.
    assert (Hn : INR (num_motors c) <> 0) by (rewrite INR_num_motors_zero; exact Hm).
    rewrite decide_False.
    + field. exact Hn.
    + intros E. apply Hn. rewrite E. reflexivity.
Qed.

Lemma quadcopter_total_thrust : total_max_thrust_n standard_quadcopter = 80.
Proof. unfold total_max_thrust_n. fields. lra. Qed.

Lemma hover_throttle_inverse_of_thrust_ratio_witness :
  hover_throttle_percent standard_quadcopter
  * thrust_to_weight_ratio standard_quadcopter = 100 /\
  (motors standard_quadcopter <> [] ->
   hover_thrust_per_motor_n standard_quadcopter
   * INR (num_motors standard_quadcopter)
   = total_weight_kg standard_quadcopter * 9.81).
Proof.
  apply hover_throttle_inverse_of_thrust_ratio.
  - cbn. lra.
  - rewrite quadcopter_total_thrust. lra.
Defined.

(** X7: for a drone with positive weight and positive total thrust, the motor
    score stops growing once the G-force reaches the thrust-to-weight ratio
    (the throttle is saturated); between 10 and 30 degrees it is then 80. *)
Theorem motor_stress_saturates (c : DroneConfig) (g1 g2 temp : R) :
  0 < total_weight_kg c -> 0 < total_max_thrust_n c ->
  thrust_to_weight_ratio c <= g1 -> thrust_to_weight_ratio c <= g2 ->
  _calculate_motor_stress c g1 temp = _calculate_motor_stress c g2 temp /\
  (10 <= temp <= 30 -> _calculate_motor_stress c g1 temp = 80).
Proof.
  intros Hw Ht H1 H2.
  assert (Hsat : forall g, thrust_to_weight_ratio c <= g ->
            Rmin 100 (g * (hover_throttle_percent c / 100) * 100) = 100).
  { intros g Hg. apply Rmin_left.
    unfold thrust_to_weight_ratio in Hg. rewrite decide_True in Hg by lra.
    unfold hover_throttle_percent. rewrite decide_False by lra.
    set (T := total_max_thrust_n c) in *. set (W := total_weight_kg c * 9.81) in *.
    assert (HW : 0 < W) by (unfold W; lra).
    replace (g * (W / T * 100 / 100) * 100) with (100 * (g * W / T))
      by (field; lra).
    assert (1 <= g * W / T); [| lra].
    apply (Rmult_le_reg_r T); [lra |].
    replace (g * W / T * T) with (g * W) by (field; lra).
    apply (Rmult_le_compat_r W) in Hg; [| lra].
    replace (T / W * W) with T in Hg by (field; lra). lra. }
  unfold _calculate_motor_stress. rewrite (Hsat g1 H1), (Hsat g2 H2).
  split; [reflexivity |].
  intros Htemp. rewrite decide_False by lra. rewrite decide_False by lra.
  rewrite Rmin_right by lra. lra.
Qed.

Lemma motor_stress_saturates_witness :
  _calculate_motor_stress standard_quadcopter 6 25
  = _calculate_motor_stress standard_quadcopter 7 25 /\
  (10 <= 25 <= 30 -> _calculate_motor_stress standard_quadcopter 6 25 = 80).
Proof.
  assert (Hr : thrust_to_weight_ratio standard_quadcopter <= 6).
  { unfold thrust_to_weight_ratio. rewrite quadcopter_total_thrust. fields.
    rewrite decide_True by lra.
    apply (Rmult_le_reg_r (1.5 * 9.81)); [lra |].
    replace (80 / (1.5 * 9.81) * (1.5 * 9.81)) with 80 by (field; lra). lra. }
  apply motor_stress_saturates.
  - cbn. lra.
  - rewrite quadcopter_total_thrust. lra.
  - exact Hr.
  - lra.
Defined.

End StressExtras.


(** ** Sums, means and evenly spaced samples *)

Module NumpyTheory.
Import Numpy.

Lemma sum_from_bounds (a b : R) (l : list R) (acc : R) :
  Forall (fun x => a <= x <= b) l ->
  acc + a * INR (length l) <= fold_left Rplus l acc <= acc + b * INR (length l).
Proof.
  intros Hl. revert acc. induction Hl as [| x l Hx _ IH]; intros acc.
  - cbn. lra.
  - cbn [fold_left]. rewrite length_cons, S_INR. specialize (IH (acc + x)). lra.
Qed.

Lemma mean_within (a b : R) (l : list R) :
  l <> [] -> Forall (fun x => a <= x <= b) l -> a <= Numpy.mean l <= b.
Proof.
  intros Hne Hl. unfold Numpy.mean, Numpy.sum.
  pose proof (sum_from_bounds a b l 0 Hl) as Hs.
  assert (Hn : 0 < INR (length l)).
  { destruct l; [contradiction |]. rewrite length_cons. apply lt_0_INR. lia. }
  split.
  - apply (Rmult_le_reg_r (INR (length l))); [exact Hn |].
    unfold Rdiv. rewrite Rmult_assoc, Rinv_l by lra. lra.
  - apply (Rmult_le_reg_r (INR (length l))); [exact Hn |].
    unfold Rdiv. rewrite Rmult_assoc, Rinv_l by lra. lra.
Qed.

Lemma sum_from_mono (l1 l2 : list R) (acc1 acc2 : R) :
  Forall2 Rle l1 l2 -> acc1 <= acc2 ->
  fold_left Rplus l1 acc1 <= fold_left Rplus l2 acc2.
Proof.
  intros Hl. revert acc1 acc2.
  induction Hl as [| x y l1 l2 Hxy _ IH]; intros acc1 acc2 Hacc; cbn [fold_left].
  - exact Hacc.
  - apply IH. lra.
Qed.


Lemma sum_from (l : list R) (acc : R) : fold_left Rplus l acc = acc + sum l.
Proof.
  unfold sum. revert acc. induction l as [| x l IH]; intros acc; cbn [fold_left].
  - lra.
  - rewrite IH, (IH (0 + x)). lra.
Qed.

Lemma sum_cons (x : R) (l : list R) : sum (x :: l) = x + sum l.
Proof. unfold sum at 1. cbn [fold_left]. rewrite sum_from. lra. Qed.

Lemma sum_nil : sum [] = 0.
Proof. reflexivity. Qed.

Lemma sum_nonneg (l : list R) : Forall (Rle 0) l -> 0 <= sum l.
Proof.
  induction 1 as [| x l Hx _ IH]; [rewrite sum_nil; lra |].
  rewrite sum_cons. lra.
Qed.

Lemma sum_mono (l1 l2 : list R) : Forall2 Rle l1 l2 -> sum l1 <= sum l2.
Proof. intros Hl. unfold sum. apply sum_from_mono; [exact Hl | lra]. Qed.

Lemma sum_replicate (n : nat) (x : R) : sum (replicate n x) = INR n * x.
Proof.
  induction n as [| n IH]; [cbn; lra |].
  cbn [replicate]. rewrite sum_cons, IH, S_INR. lra.
Qed.

Lemma mean_replicate (n : nat) (x : R) : (0 < n)%nat -> mean (replicate n x) = x.
Proof.
  intros Hn. unfold mean. rewrite sum_replicate, length_replicate.
  field. apply not_0_INR. lia.
Qed.

Lemma var_nonneg (l : list R) : 0 <= var l.
Proof.
  unfold var, mean at 1. rewrite length_map.
  apply Rmult_le_pos.
  - apply sum_nonneg. apply Forall_map, Forall_forall. intros x _. unfold compose. apply Rle_0_sqr.
  - destruct l as [| x l]; [cbn; rewrite Rinv_0; lra |].
    left. apply Rinv_0_lt_compat. rewrite length_cons. apply lt_0_INR. lia.
Qed.

Lemma map_replicate {A B} (f : A -> B) (n : nat) (x : A) :
  map f (replicate n x) = replicate n (f x).
Proof. induction n as [| n IH]; [reflexivity |]. cbn. by rewrite IH. Qed.

Lemma var_replicate (n : nat) (x : R) : var (replicate n x) = 0.
Proof.
  unfold var. destruct n as [| n];
    [unfold mean, sum; cbn [replicate map fold_left length]; unfold Rdiv; lra |].
  rewrite (mean_replicate (S n) x) by lia.
  replace (map (fun y => (y - x) * (y - x)) (replicate (S n) x))
    with (replicate (S n) 0).
  - apply mean_replicate. lia.
  - rewrite map_replicate. f_equal. lra.
Qed.

Lemma norm_nonneg (v : point) : 0 <= norm v.
Proof. apply sqrt_pos. Qed.

Lemma norm_scale (k : R) (v : point) :
  0 <= k -> norm (k * px v, k * py v, k * pz v) = k * norm v.
Proof.
  intros Hk. unfold norm, px, py, pz. cbn [fst snd].
  replace (k * v.1.1 * (k * v.1.1) + k * v.1.2 * (k * v.1.2) + k * v.2 * (k * v.2))
    with (k * k * (v.1.1 * v.1.1 + v.1.2 * v.1.2 + v.2 * v.2)) by lra.
  rewrite sqrt_mult_alt by nra.
  rewrite sqrt_square by exact Hk. reflexivity.
Qed.

Lemma altitude_le_norm (v : point) : Rabs (pz v) <= norm v.
Proof.
  unfold norm. rewrite <- sqrt_Rsqr_abs. apply sqrt_le_1_alt.
  unfold Rsqr. nra.
Qed.

(** The samples of [linspace] are evenly spaced, the last one included. *)
Lemma linspace_lookup (start stop : R) (num i : nat) :
  (1 < num)%nat -> (i < num)%nat ->
  linspace start stop num !! i
  = Some (start + INR i * ((stop - start) / INR (num - 1))).
Proof.
  intros Hn Hi. unfold linspace. rewrite decide_True by exact Hn.
  assert (Hd : INR (num - 1) <> 0) by (apply not_0_INR; lia).
  destruct (decide (i = (num - 1)%nat)) as [-> | Hne].
  - rewrite list_lookup_insert_eq by (rewrite length_map, length_seq; lia).
    f_equal. field. exact Hd.
  - rewrite list_lookup_insert_ne by congruence.
    rewrite list_lookup_fmap, lookup_seq_lt by exact Hi. cbn. f_equal. lra.
Qed.

End NumpyTheory.


(** ** Component health *)

Module HealthExtras.
Import Stress Health StressTheory NumpyTheory.





(** The frame wear when the square of the stress fraction fits a float. *)
#[local] Abbreviation frame_value hours avg :=
  (hours * 60 / 100000 * (avg / 100 * (avg / 100))).






















End HealthExtras.


(** ** Parsing the enumerations of a specification *)

Module DroneModelExtras.
Import Stress DroneModel.

(** X12: the parsers read back what [to_dict] writes: the value of every
    frame type parses to that frame type and the value of every material
    parses to that material, so the two enumerations survive a round trip
    through the dictionary form. *)
Theorem enum_values_parse_back :
  (forall f : FrameType, _parse_frame_type (frame_value f) = f) /\
  (forall m : MaterialType, _parse_material (material_value m) = m).
Proof. split; intros []; vm_compute; reflexivity. Qed.

End DroneModelExtras.


(** ** The anomaly detector *)

Module AnomalyExtras.
Import Anomaly AnomalyTheory.

Lemma predict_untrained (self : AnomalyDetector) (sample : list R) :
  is_trained self = false ->
  predict self sample = Raise (RuntimeError "Model must be trained before prediction").
Proof. intros H. unfold predict. rewrite H. reflexivity. Qed.

Lemma detect_failure_risk_error (self : AnomalyDetector) (sample : list R) (e : exn) :
  predict self sample = Raise e -> detect_failure_risk self sample = Raise e.
Proof. intros H. unfold detect_failure_risk. rewrite H. reflexivity. Qed.

Lemma train_ok (fit : ndarray2 -> result Fitted) (self self' : AnomalyDetector)
    (data : ndarray2) :
  train fit self data = Ok self' ->
  shape1 data = length (feature_names self) /\
  exists f, fit data = Ok f /\
            self' = {| fitted := Some f; is_trained := true;
                       feature_names := feature_names self |}.
Proof.
  unfold train. case_decide as Hs; [discriminate |].
  destruct (fit data) as [f | e]; cbn [mbind result_bind]; [| discriminate].
  intros [= <-]. split; [| by exists f].
  destruct (decide (shape1 data = length (feature_names self))); [done | contradiction].
Qed.

Lemma sigmoid_lower (a : R) : 0 <= a -> 1 / 2 <= 1 / (1 + exp (- a)).
Proof.
  intros Ha.
  assert (He : exp (- a) <= 1).
  { rewrite <- exp_0. destruct (Req_dec a 0) as [-> | Hn].
    - rewrite Ropp_0. lra.
    - left. apply exp_increasing. lra. }
  pose proof (exp_pos (- a)) as Hp.
  apply (Rmult_le_reg_r (1 + exp (- a))); [lra |].
  unfold Rdiv at 2. rewrite Rmult_1_l, Rinv_l by lra. lra.
Qed.

Lemma exp_minus_one : / 3 <= exp (Ropp 1).
Proof.
  rewrite exp_Ropp. apply Rinv_le_contravar; [apply exp_pos | apply exp_le_3].
Qed.

Lemma sigmoid_upper (a : R) : a <= 1 -> 1 / (1 + exp (- a)) <= 3 / 4.
Proof.
  intros Ha.
  assert (He : exp (Ropp 1) <= exp (- a)).
  { destruct (Req_dec a 1) as [-> | Hn]; [lra |].
    left. apply exp_increasing. lra. }
  pose proof exp_minus_one as H3.
  apply (Rmult_le_reg_r (1 + exp (- a))); [lra |].
  unfold Rdiv at 1. rewrite Rmult_1_l, Rinv_l by lra. lra.
Qed.

(** X13: a detector that has not been trained answers nothing: [predict] and
    [detect_failure_risk] raise [RuntimeError] for every sample, and a call of
    [train] with a column count other than the number of feature names raises
    [ValueError] whatever the fitting would do. *)
Theorem untrained_detector_refuses (self : AnomalyDetector) (sample : list R)
    (fit : ndarray2 -> result Fitted) (data : ndarray2) :
  is_trained self = false ->
  predict self sample
  = Raise (RuntimeError "Model must be trained before prediction") /\
  detect_failure_risk self sample
  = Raise (RuntimeError "Model must be trained before prediction") /\
  (shape1 data <> length (feature_names self) ->
   train fit self data = Raise (ValueError "Expected features")).
Proof.
  intros H. pose proof (predict_untrained self sample H) as Hp.
  split; [exact Hp |]. split.
  - by apply detect_failure_risk_error.
  - intros Hs. unfold train. rewrite decide_True by exact Hs. reflexivity.
Qed.

Lemma untrained_detector_refuses_witness :
  predict new [90; 25; 1; 50; 10; 5]
  = Raise (RuntimeError "Model must be trained before prediction") /\
  detect_failure_risk new [90; 25; 1; 50; 10; 5]
  = Raise (RuntimeError "Model must be trained before prediction") /\
  (shape1 {| shape1 := 5; rows := [[90; 25; 1; 50; 10]] |}
   <> length (feature_names new) ->
   train fit_constant new {| shape1 := 5; rows := [[90; 25; 1; 50; 10]] |}
   = Raise (ValueError "Expected features")).
Proof.
  apply (untrained_detector_refuses new [90; 25; 1; 50; 10; 5] fit_constant
           {| shape1 := 5; rows := [[90; 25; 1; 50; 10]] |}).
  reflexivity.
Defined.

(** X14: training followed by prediction.  When [train] returns, the data had
    one column per feature name and the detector is trained; from then on
    [predict] fails only if the fitted scaler rejects the sample, and in every
    other case it returns the forest's prediction with a score strictly
    between 0 and 1. *)
Theorem trained_detector_serves (fit : ndarray2 -> result Fitted)
    (self self' : AnomalyDetector) (data : ndarray2) (sample : list R) :
  train fit self data = Ok self' ->
  shape1 data = length (feature_names self) /\
  is_trained self' = true /\
  feature_names self' = feature_names self /\
  exists f, fit data = Ok f /\
    match scaler_transform f sample with
    | Ok scaled =>
        exists s, predict self' sample = Ok (forest_predict f scaled, s)
                  /\ 0 < s < 1
    | Raise e => predict self' sample = Raise e
    end.
Proof.
  intros Ht. apply train_ok in Ht as (Hs & f & Hf & ->).
  split; [exact Hs |]. split; [reflexivity |]. split; [reflexivity |].
  exists f. split; [exact Hf |].
  destruct (scaler_transform f sample) as [scaled | e] eqn:Hsc.
  - eexists. split.
    + unfold predict. cbn [is_trained negb fitted]. rewrite Hsc. reflexivity.
    + eapply (predict_score_range
                {| fitted := Some f; is_trained := true;
                   feature_names := feature_names self |} sample).
      unfold predict. cbn [is_trained negb fitted]. rewrite Hsc. reflexivity.
  - unfold predict. cbn [is_trained negb fitted]. rewrite Hsc. reflexivity.
Qed.

Lemma trained_detector_serves_witness :
  shape1 {| shape1 := 6; rows := [[90; 25; 1; 50; 10; 5]] |}
  = length (feature_names new) /\
  is_trained trained_detector = true /\
  feature_names trained_detector = feature_names new /\
  exists f, fit_constant {| shape1 := 6; rows := [[90; 25; 1; 50; 10; 5]] |} = Ok f /\
    match scaler_transform f [80; 30; 2; 40; 12; 6] with
    | Ok scaled =>
        exists s, predict trained_detector [80; 30; 2; 40; 12; 6]
                  = Ok (forest_predict f scaled, s)
                  /\ 0 < s < 1
    | Raise e => predict trained_detector [80; 30; 2; 40; 12; 6] = Raise e
    end.
Proof.
  apply (trained_detector_serves fit_constant new trained_detector
           {| shape1 := 6; rows := [[90; 25; 1; 50; 10; 5]] |}
           [80; 30; 2; 40; 12; 6]).
  reflexivity.
Defined.

(** X15: a higher anomaly score never gives a lower risk tier: if the lower
    score is already CRITICAL so is the higher one, a HIGH score stays at
    least HIGH, a MEDIUM score never drops to LOW, and a LOW tier for the
    higher score forces LOW for the lower one. *)
Theorem risk_tier_monotone (s1 s2 : R) :
  s1 <= s2 ->
  (risk_level_of s1 = "CRITICAL" -> risk_level_of s2 = "CRITICAL") /\
  (risk_level_of s1 = "HIGH" ->
   risk_level_of s2 = "HIGH" \/ risk_level_of s2 = "CRITICAL") /\
  (risk_level_of s1 = "MEDIUM" -> risk_level_of s2 <> "LOW") /\
  (risk_level_of s2 = "LOW" -> risk_level_of s1 = "LOW").
Proof.
  intros Hs. unfold risk_level_of.
  repeat (case_decide; try lra);
    repeat split; intros ?; try discriminate; try reflexivity; auto.
Qed.

Lemma risk_tier_monotone_witness :
  (risk_level_of 0.65 = "CRITICAL" -> risk_level_of 0.85 = "CRITICAL") /\
  (risk_level_of 0.65 = "HIGH" ->
   risk_level_of 0.85 = "HIGH" \/ risk_level_of 0.85 = "CRITICAL") /\
  (risk_level_of 0.65 = "MEDIUM" -> risk_level_of 0.85 <> "LOW") /\
  (risk_level_of 0.85 = "LOW" -> risk_level_of 0.65 = "LOW").
Proof. apply (risk_tier_monotone 0.65 0.85). lra. Defined.

(** X16: every assessment that [detect_failure_risk] returns has exactly the
    four keys is_anomaly, anomaly_score, risk_level and recommendation; the
    anomaly flag is set exactly when the forest predicts -1, the tier is one
    of the four tier names, and the recommendation is the immediate-landing
    message exactly when the score is at least 0.8 and the
    continue-normal-operations message exactly when it is below 0.3. *)
Theorem assessment_contents (self : AnomalyDetector) (sample : list R)
    (ra : gmap string pyval) :
  detect_failure_risk self sample = Ok ra ->
  dom ra = ({["is_anomaly"; "anomaly_score"; "risk_level"; "recommendation"]}
            : gset string) /\
  exists prediction s,
    predict self sample = Ok (prediction, s) /\
    ra !! "is_anomaly" = Some (PyBool (bool_decide (prediction = (-1)%Z))) /\
    ra !! "anomaly_score" = Some (PyFloat s) /\
    ra !! "risk_level" = Some (PyStr (risk_level_of s)) /\
    risk_level_of s ∈ ["LOW"; "MEDIUM"; "HIGH"; "CRITICAL"]%string /\
    (ra !! "recommendation"
     = Some (PyStr "IMMEDIATE ACTION: Land drone immediately and perform maintenance")
     <-> 0.8 <= s) /\
    (ra !! "recommendation" = Some (PyStr "Continue normal operations")
     <-> s < 0.3).
Proof.
  unfold detect_failure_risk.
  destruct (predict self sample) as [[prediction s] | e];
    cbn [mbind result_bind]; [| discriminate].
  intros [= <-]. split.
  - rewrite !dom_insert_L, dom_empty_L. set_solver.
  - exists prediction, s. split; [reflexivity |].
    split; [by simplify_map_eq |]. split; [by simplify_map_eq |].
    split; [by simplify_map_eq |].
    match goal with
    | |- context [?m !! "recommendation"] =>
        replace (m !! "recommendation")
          with (Some (PyStr (_get_recommendation (risk_level_of s) sample)))
          by (by simplify_map_eq)
    end.
    unfold risk_level_of, _get_recommendation.
    repeat case_decide; try congruence; cbn;
      repeat split; try reflexivity; try (intros ?; lra);
      try (intros ?; discriminate); try lra;
      rewrite ?elem_of_cons; auto 6.
Qed.

Lemma assessment_contents_witness :
  exists ra,
    detect_failure_risk trained_detector [90; 25; 1; 50; 10; 5] = Ok ra /\
    dom ra = ({["is_anomaly"; "anomaly_score"; "risk_level"; "recommendation"]}
              : gset string) /\
    exists prediction s,
      predict trained_detector [90; 25; 1; 50; 10; 5] = Ok (prediction, s) /\
      ra !! "is_anomaly" = Some (PyBool (bool_decide (prediction = (-1)%Z))) /\
      ra !! "anomaly_score" = Some (PyFloat s) /\
      ra !! "risk_level" = Some (PyStr (risk_level_of s)) /\
      risk_level_of s ∈ ["LOW"; "MEDIUM"; "HIGH"; "CRITICAL"]%string /\
      (ra !! "recommendation"
       = Some (PyStr "IMMEDIATE ACTION: Land drone immediately and perform maintenance")
       <-> 0.8 <= s) /\
      (ra !! "recommendation" = Some (PyStr "Continue normal operations")
       <-> s < 0.3).
Proof.
  eexists. split; [reflexivity |].
  apply (assessment_contents trained_detector [90; 25; 1; 50; 10; 5]).
  reflexivity.
Defined.

(** X17: for a fitted forest whose sample score lies between -1 and 0, the
    normalised score lies between 0.5 and 0.75, so the tier that
    [detect_failure_risk] reports is MEDIUM or HIGH: with such a forest the
    tiers LOW and CRITICAL are never reported. *)
Theorem bounded_forest_score_tiers (self : AnomalyDetector) (f : Fitted)
    (sample scaled : list R) :
  is_trained self = true -> fitted self = Some f ->
  scaler_transform f sample = Ok scaled ->
  -1 <= forest_score_samples f scaled <= 0 ->
  exists ra s,
    detect_failure_risk self sample = Ok ra /\
    ra !! "anomaly_score" = Some (PyFloat s) /\
    0.5 <= s <= 0.75 /\
    (ra !! "risk_level" = Some (PyStr "MEDIUM")
     \/ ra !! "risk_level" = Some (PyStr "HIGH")).
Proof.
  intros Ht Hf Hsc Hrange.
  assert (Hp : predict self sample
               = Ok (forest_predict f scaled,
                     1 / (1 + exp (- - forest_score_samples f scaled)))).
  { unfold predict. rewrite Ht, Hf. cbn [negb]. rewrite Hsc. reflexivity. }
  destruct (detect_failure_risk_level self sample _ _ Hp) as (ra & Hra & Hl & Hs).
  exists ra, (1 / (1 + exp (- - forest_score_samples f scaled))).
  split; [exact Hra |]. split; [exact Hs |].
  pose proof (sigmoid_lower (- forest_score_samples f scaled)) as Hlo.
  pose proof (sigmoid_upper (- forest_score_samples f scaled)) as Hhi.
  assert (Hb : 0.5 <= 1 / (1 + exp (- - forest_score_samples f scaled)) <= 0.75)
    by (split; [etransitivity; [| apply Hlo; lra] | etransitivity; [apply Hhi; lra |]]; lra).
  split; [exact Hb |].
  rewrite Hl. unfold risk_level_of.
  repeat case_decide; try lra; auto.
Qed.

Lemma bounded_forest_score_tiers_witness :
  exists ra s,
    detect_failure_risk trained_detector [90; 25; 1; 50; 10; 5] = Ok ra /\
    ra !! "anomaly_score" = Some (PyFloat s) /\
    0.5 <= s <= 0.75 /\
    (ra !! "risk_level" = Some (PyStr "MEDIUM")
     \/ ra !! "risk_level" = Some (PyStr "HIGH")).
Proof.
  apply (bounded_forest_score_tiers trained_detector constant_model
           [90; 25; 1; 50; 10; 5] [90; 25; 1; 50; 10; 5]).
  - reflexivity.
  - reflexivity.
  - reflexivity.
  - cbn. lra.
Defined.

End AnomalyExtras.


(** ** Paths and their metrics *)

Module PlannerExtras.
Import Numpy Planner NumpyTheory PlannerTheory.

Lemma diff_map_pz (path : list point) :
  diff (map pz path) = map pz (diff_rows path).
Proof.
  induction path as [| a [| b l] IH]; [reflexivity | reflexivity |].
  change (diff (map pz (a :: b :: l)))
    with ((pz b - pz a) :: diff (map pz (b :: l))).
  change (diff_rows (a :: b :: l))
    with ((px b - px a, py b - py a, pz b - pz a) :: diff_rows (b :: l)).
  rewrite IH. reflexivity.
Qed.

Lemma altitude_steps_le_distances (vectors : list point) :
  Forall2 Rle (map Rabs (map pz vectors)) (map norm vectors).
Proof.
  induction vectors as [| v l IH]; cbn [map]; constructor;
    [apply altitude_le_norm | exact IH].
Qed.

Lemma length_diff_rows (path : list point) :
  length (diff_rows path) = (length path - 1)%nat.
Proof.
  induction path as [| a [| b l] IH]; [reflexivity | reflexivity |].
  change (diff_rows (a :: b :: l))
    with ((px b - px a, py b - py a, pz b - pz a) :: diff_rows (b :: l)).
  rewrite length_cons, IH. cbn [length]. lia.
Qed.

(** The straight line from (x, y, z) to (x', y', z') in [n] waypoints. *)
#[local] Abbreviation line x y z x' y' z' n :=
  (column_stack (linspace x x' n) (linspace y y' n) (linspace z z' n)).

Lemma line_lookup (x y z x' y' z' : R) (n i : nat) :
  (1 < n)%nat -> (i < n)%nat ->
  line x y z x' y' z' n !! i
  = Some (x + INR i * ((x' - x) / INR (n - 1)),
          y + INR i * ((y' - y) / INR (n - 1)),
          z + INR i * ((z' - z) / INR (n - 1))).
Proof.
  intros Hn Hi. unfold column_stack.
  rewrite lookup_zip_with, lookup_zip_with.
  rewrite !linspace_lookup by assumption. reflexivity.
Qed.

Lemma line_length (x y z x' y' z' : R) (n : nat) :
  length (line x y z x' y' z' n) = n.
Proof. apply column_stack_length; apply linspace_length. Qed.

Lemma line_as_map (x y z x' y' z' : R) (n : nat) :
  (1 < n)%nat ->
  line x y z x' y' z' n
  = map (fun i => (x + INR i * ((x' - x) / INR (n - 1)),
                   y + INR i * ((y' - y) / INR (n - 1)),
                   z + INR i * ((z' - z) / INR (n - 1)))) (seq 0 n).
Proof.
  intros Hn. apply list_eq. intros i.
  destruct (decide (i < n)%nat) as [Hi | Hi].
  - rewrite line_lookup by assumption.
    change (map ?f ?l) with (f <$> l).
    rewrite list_lookup_fmap, lookup_seq_lt by exact Hi. reflexivity.
  - rewrite !lookup_ge_None_2; [reflexivity | |].
    + rewrite length_map, length_seq. lia.
    + rewrite line_length. lia.
Qed.

Lemma diff_rows_affine (x y z dx dy dz : R) (k n : nat) :
  diff_rows (map (fun i => (x + INR i * dx, y + INR i * dy, z + INR i * dz))
               (seq k (S n)))
  = replicate n (dx, dy, dz).
Proof.
  revert k. induction n as [| n IH]; intros k; [reflexivity |].
  change (seq k (S (S n))) with (k :: S k :: seq (S (S k)) n).
  cbn [map].
  match goal with
  | |- diff_rows (?a :: ?b :: ?l) = _ =>
      change (diff_rows (a :: b :: l))
        with ((px b - px a, py b - py a, pz b - pz a) :: diff_rows (b :: l))
  end.
  cbn [replicate]. f_equal.
  - unfold px, py, pz. cbn [fst snd]. rewrite S_INR.
    f_equal; [f_equal |]; lra.
  - exact (IH (S k)).
Qed.

Lemma turn_angles_replicate (v : point) (n : nat) :
  turn_angles (replicate (S n) v)
  = replicate n (acos (clip (dot v v / (norm v * norm v + 1e-10)) (-1) 1)).
Proof.
  induction n as [| n IH]; [reflexivity |].
  change (replicate (S (S n)) v) with (v :: replicate (S n) v).
  change (replicate (S n) v) with (v :: replicate n v) at 1.
  cbn [turn_angles]. cbn [replicate]. f_equal. exact IH.
Qed.

(** Metrics of a straight line of at least two waypoints. *)
Lemma line_metrics (x y z x' y' z' : R) (n : nat) :
  (1 < n)%nat ->
  let m := calculate_path_metrics (line x y z x' y' z' n) in
  total_distance m = norm (x' - x, y' - y, z' - z) /\
  total_altitude_change m = Rabs (z' - z) /\
  smoothness m = 1 /\
  num_waypoints m = n.
Proof.
  intros Hn m. unfold m, calculate_path_metrics.
  cbn [total_distance total_altitude_change smoothness num_waypoints].
  rewrite diff_map_pz, line_length.
  rewrite (line_as_map x y z x' y' z' n Hn).
  destruct n as [| n]; [lia |].
  rewrite diff_rows_affine.
  assert (Hk : 0 < INR (S n - 1)) by (apply lt_0_INR; lia).
  replace (S n - 1)%nat with n in * by lia.
  rewrite !map_replicate, !sum_replicate.
  assert (Hstep : ((x' - x) / INR n, (y' - y) / INR n, (z' - z) / INR n)
                  = (/ INR n * px (x' - x, y' - y, z' - z),
                     / INR n * py (x' - x, y' - y, z' - z),
                     / INR n * pz (x' - x, y' - y, z' - z))).
  { unfold px, py, pz. cbn [fst snd]. f_equal; [f_equal |]; unfold Rdiv; lra. }
  split; [| split; [| split]].
  - rewrite Hstep, norm_scale by (left; apply Rinv_0_lt_compat; exact Hk).
    field. lra.
  - unfold pz at 1. cbn [snd]. unfold Rdiv. rewrite Rabs_mult.
    rewrite (Rabs_right (/ INR n)) by (left; apply Rinv_0_lt_compat; exact Hk).
    field. lra.
  - case_decide; [| reflexivity].
    destruct n as [| n]; [lia |].
    rewrite turn_angles_replicate, var_replicate. lra.
  - reflexivity.
Qed.

(** X18: for every path, the total distance is not negative, the total
    altitude change lies between 0 and the total distance, the smoothness
    lies in (0,1], and the number of waypoints is the length of the path;
    a path of fewer than three waypoints has smoothness 1. *)
Theorem path_metrics_bounds (path : list point) :
  let m := calculate_path_metrics path in
  0 <= total_altitude_change m <= total_distance m /\
  0 < smoothness m <= 1 /\
  num_waypoints m = length path /\
  ((length path < 3)%nat -> smoothness m = 1).
Proof.
  intros m. unfold m, calculate_path_metrics.
  cbn [total_distance total_altitude_change smoothness num_waypoints].
  split; [split |].
  - apply sum_nonneg. apply Forall_map, Forall_forall. intros r _.
    unfold compose. apply Rabs_pos.
  - rewrite diff_map_pz. apply sum_mono, altitude_steps_le_distances.
  - split; [| split].
    + case_decide; [| lra].
      pose proof (var_nonneg (turn_angles (diff_rows path))) as Hv.
      split.
      * apply Rdiv_lt_0_compat; lra.
      * apply (Rmult_le_reg_r (1 + var (turn_angles (diff_rows path)))); [lra |].
        unfold Rdiv. rewrite Rmult_1_l, Rinv_l by lra. lra.
    + reflexivity.
    + intros Hl. rewrite decide_False by lia. reflexivity.
Qed.

(** X19: the paths that are straight lines have the metrics of a straight
    flight.  The direct path of the LOW tier and the denser path of the MEDIUM
    tier both have a total distance equal to the Euclidean distance from the
    current position to the destination, a total altitude change equal to the
    altitude difference, and smoothness 1; they differ only in the number of
    waypoints, 20 and 30.  The emergency landing of the CRITICAL tier descends
    exactly the current altitude over a distance of sqrt(50 + z^2) in 10
    waypoints, with smoothness 1. *)
Theorem straight_path_metrics (x y z xd yd zd : R) :
  let direct := calculate_path_metrics (_optimal_path (x, y, z) (xd, yd, zd)) in
  let dense := calculate_path_metrics (_cautious_path (x, y, z) (xd, yd, zd)) in
  let landing := calculate_path_metrics (_emergency_landing_path (x, y, z)) in
  total_distance direct = norm (xd - x, yd - y, zd - z) /\
  total_distance dense = total_distance direct /\
  total_altitude_change direct = Rabs (zd - z) /\
  total_altitude_change dense = Rabs (zd - z) /\
  smoothness direct = 1 /\ smoothness dense = 1 /\
  num_waypoints direct = 20%nat /\ num_waypoints dense = 30%nat /\
  total_altitude_change landing = Rabs z /\
  total_distance landing = sqrt (50 + z * z) /\
  smoothness landing = 1 /\
  num_waypoints landing = 10%nat.
Proof.
  intros direct dense landing.
  unfold direct, dense, landing, _optimal_path, _cautious_path,
    _emergency_landing_path.
  cbn [px py pz fst snd].
  destruct (line_metrics x y z xd yd zd 20) as (Hd1 & Ha1 & Hs1 & Hn1); [lia |].
  destruct (line_metrics x y z xd yd zd 30) as (Hd2 & Ha2 & Hs2 & Hn2); [lia |].
  destruct (line_metrics x y z (x + 5) (y + 5) 0 10) as (Hd & Ha & Hs & Hn); [lia |].
  unfold px, py, pz. cbn [fst snd].
  rewrite Hd1, Hd2, Ha1, Ha2, Hs1, Hs2, Hn1, Hn2, Hd, Ha, Hs, Hn.
  split; [reflexivity |]. split; [reflexivity |]. split; [reflexivity |].
  split; [reflexivity |]. split; [reflexivity |]. split; [reflexivity |].
  split; [reflexivity |]. split; [reflexivity |].
  split; [replace (0 - z) with (- z) by lra; apply Rabs_Ropp |].
  split; [| split; reflexivity].
  unfold norm, px, py, pz. cbn [fst snd]. f_equal. lra.
Qed.

(** X20: for a MEDIUM assessment the optimized trajectory is the cautious
    path: 30 waypoints evenly spaced on the straight line from the current
    position to the destination, both included. *)
Theorem medium_tier_cautious_path (x y z xd yd zd : R) (ra : gmap string pyval) :
  ra !! "risk_level" = Some (PyStr "MEDIUM") ->
  let path := optimize_trajectory (x, y, z) ra (xd, yd, zd) in
  path = _cautious_path (x, y, z) (xd, yd, zd) /\
  length path = 30%nat /\
  path !! 0%nat = Some (x, y, z) /\
  path !! 29%nat = Some (xd, yd, zd) /\
  (forall i, (i < 30)%nat ->
     path !! i = Some (x + INR i * ((xd - x) / 29),
                       y + INR i * ((yd - y) / 29),
                       z + INR i * ((zd - z) / 29))).
Proof.
  intros Hl path.
  assert (Hp : path = _cautious_path (x, y, z) (xd, yd, zd)).
  { unfold path, optimize_trajectory, get. rewrite Hl. reflexivity. }
  rewrite Hp. unfold _cautious_path. cbn [px py pz fst snd].
  unfold px, py, pz. cbn [fst snd].
  split; [reflexivity |]. split; [apply line_length |].
  assert (Hi : forall i, (i < 30)%nat ->
            line x y z xd yd zd 30 !! i
            = Some (x + INR i * ((xd - x) / 29),
                    y + INR i * ((yd - y) / 29),
                    z + INR i * ((zd - z) / 29))).
  { intros i Hi. rewrite line_lookup by lia.
    replace (INR (30 - 1)) with 29
      by (rewrite INR_IZR_INZ; cbv [Nat.sub Z.of_nat Pos.of_succ_nat Pos.succ]; reflexivity).
    reflexivity. }
  split; [| split; [| exact Hi]].
  - rewrite Hi by lia. cbn [INR]. apply waypoint_eq; lra.
  - rewrite Hi by lia.
    replace (INR 29) with 29
      by (rewrite INR_IZR_INZ; cbv [Z.of_nat Pos.of_succ_nat Pos.succ]; reflexivity).
    apply waypoint_eq; field.
Qed.

Lemma medium_tier_cautious_path_witness :
  let ra : gmap string pyval := {[ "risk_level" := PyStr "MEDIUM" ]} in
  let path := optimize_trajectory (0, 0, 50) ra (100, 80, 50) in
  path = _cautious_path (0, 0, 50) (100, 80, 50) /\
  length path = 30%nat /\
  path !! 0%nat = Some (0, 0, 50) /\
  path !! 29%nat = Some (100, 80, 50) /\
  (forall i, (i < 30)%nat ->
     path !! i = Some (0 + INR i * ((100 - 0) / 29),
                       0 + INR i * ((80 - 0) / 29),
                       50 + INR i * ((50 - 50) / 29))).
Proof.
  intros ra.
  apply (medium_tier_cautious_path 0 0 50 100 80 50 ra). reflexivity.
Defined.


Lemma dispatch_medium (pos dest : point) (ra : gmap string pyval) :
  ra !! "risk_level" = Some (PyStr "MEDIUM") ->
  optimize_trajectory pos ra dest = _cautious_path pos dest.
Proof.
  intros Hl. unfold optimize_trajectory, get. rewrite Hl. reflexivity.
Qed.

Lemma critical_or_not (ra : gmap string pyval) :
  ra !! "risk_level" = Some (PyStr "CRITICAL")
  \/ ra !! "risk_level" <> Some (PyStr "CRITICAL").
Proof.
  destruct (ra !! "risk_level") as [[| b | n | r | t] |];
    try (right; discriminate).
  destruct (decide (t = "CRITICAL")) as [-> | Hne]; [by left | right; congruence].
Qed.

(** Apart from the emergency landing, a replanned path is one of three. *)
Lemma dispatch_not_critical (pos dest : point) (ra : gmap string pyval) :
  ra !! "risk_level" <> Some (PyStr "CRITICAL") ->
  optimize_trajectory pos ra dest = _conservative_path pos dest
  \/ optimize_trajectory pos ra dest = _cautious_path pos dest
  \/ optimize_trajectory pos ra dest = _optimal_path pos dest.
Proof.
  intros Hc. unfold optimize_trajectory, get.
  destruct (ra !! "risk_level") as [v |]; cbn [from_option Datatypes.id];
    [| right; right; reflexivity].
  rewrite (eq_str_false v "CRITICAL") by (intros ->; by apply Hc).
  destruct (eq_str v "HIGH"); [by left |].
  destruct (eq_str v "MEDIUM"); [right; by left | right; by right].
Qed.

Lemma line_first (x y z x' y' z' : R) (n : nat) :
  (1 < n)%nat -> line x y z x' y' z' n !! 0%nat = Some (x, y, z).
Proof.
  intros Hn. rewrite line_lookup by lia. cbn [INR]. apply waypoint_eq; lra.
Qed.

Lemma line_last (x y z x' y' z' : R) (n : nat) :
  (1 < n)%nat -> last (line x y z x' y' z' n) = Some (x', y', z').
Proof.
  intros Hn. rewrite last_lookup, line_length.
  replace (Init.Nat.pred n) with (n - 1)%nat by lia.
  rewrite line_lookup by lia.
  assert (INR (n - 1) <> 0) by (apply not_0_INR; lia).
  apply waypoint_eq; field; assumption.
Qed.

(** X21: whatever the assessment, the replanned trajectory starts at the
    current position and has between 10 and 30 waypoints; it ends at the
    destination unless the tier is CRITICAL, in which case it ends on the
    ground at (x+5, y+5, 0). *)
Theorem optimized_path_endpoints (x y z xd yd zd : R) (ra : gmap string pyval) :
  let path := optimize_trajectory (x, y, z) ra (xd, yd, zd) in
  path !! 0%nat = Some (x, y, z) /\
  (10 <= length path <= 30)%nat /\
  (ra !! "risk_level" = Some (PyStr "CRITICAL") ->
   last path = Some (x + 5, y + 5, 0)) /\
  (ra !! "risk_level" <> Some (PyStr "CRITICAL") ->
   last path = Some (xd, yd, zd)).
Proof.
  intros path. unfold path.
  assert (Hother : ra !! "risk_level" <> Some (PyStr "CRITICAL") ->
            optimize_trajectory (x, y, z) ra (xd, yd, zd) !! 0%nat = Some (x, y, z)
            /\ (10 <= length (optimize_trajectory (x, y, z) ra (xd, yd, zd)) <= 30)%nat
            /\ last (optimize_trajectory (x, y, z) ra (xd, yd, zd))
               = Some (xd, yd, zd)).
  { intros Hc.
    destruct (dispatch_not_critical (x, y, z) (xd, yd, zd) ra Hc) as [-> | [-> | ->]].
    - split; [waypoints; coordinates |].
      split; [waypoints; cbn [length]; lia |].
      waypoints. cbn [last]. apply waypoint_eq; lra.
    - unfold _cautious_path. cbn [px py pz fst snd]. unfold px, py, pz. cbn [fst snd].
      split; [apply line_first; lia |].
      split; [rewrite line_length; lia | apply line_last; lia].
    - unfold _optimal_path. cbn [px py pz fst snd]. unfold px, py, pz. cbn [fst snd].
      split; [apply line_first; lia |].
      split; [rewrite line_length; lia | apply line_last; lia]. }
  assert (Hcrit : ra !! "risk_level" = Some (PyStr "CRITICAL") ->
            optimize_trajectory (x, y, z) ra (xd, yd, zd) !! 0%nat = Some (x, y, z)
            /\ (10 <= length (optimize_trajectory (x, y, z) ra (xd, yd, zd)) <= 30)%nat
            /\ last (optimize_trajectory (x, y, z) ra (xd, yd, zd))
               = Some (x + 5, y + 5, 0)).
  { intros Hc. rewrite dispatch_critical by exact Hc. unfold _emergency_landing_path.
    split; [apply line_first; lia |].
    split; [rewrite line_length; lia | apply line_last; lia]. }
  destruct (critical_or_not ra) as [Hc | Hc].
  - destruct (Hcrit Hc) as (H0 & Hn & He).
    split; [exact H0 |]. split; [exact Hn |].
    split; [intros _; exact He | intros Hne; contradiction].
  - destruct (Hother Hc) as (H0 & Hn & He).
    split; [exact H0 |]. split; [exact Hn |].
    split; [intros Heq; contradiction | intros _; exact He].
Qed.

(** The direct path, as [plan_initial_path] and [_optimal_path] build it. *)
Lemma plan_initial_path_direct (self : AdaptivePathPlanner) (start stop : point) :
  (plan_initial_path self start stop).2 = _optimal_path start stop.
Proof. reflexivity. Qed.

Lemma optimal_path_facts (x y z xd yd zd : R) :
  let path := _optimal_path (x, y, z) (xd, yd, zd) in
  length path = 20%nat /\
  path !! 0%nat = Some (x, y, z) /\
  last path = Some (xd, yd, zd) /\
  total_distance (calculate_path_metrics path) = norm (xd - x, yd - y, zd - z) /\
  num_waypoints (calculate_path_metrics path) = 20%nat.
Proof.
  intros path. unfold path, _optimal_path.
  cbn [px py pz fst snd]. unfold px, py, pz. cbn [fst snd].
  destruct (line_metrics x y z xd yd zd 20) as (Hd & _ & _ & Hn); [lia |].
  split; [apply line_length |].
  split; [apply line_first; lia |]. split; [apply line_last; lia |].
  split; assumption.
Qed.

(** X22: [plan_initial_path] stores the path it returns, as current path and
    as waypoints, and keeps the safety margin; the path is the direct path
    that a replanning without risk level gives from the same start: 20
    waypoints from start to end whose total distance is the Euclidean
    distance between the two. *)
Theorem initial_plan_is_direct_path (self : AdaptivePathPlanner)
    (x y z xd yd zd : R) :
  let planned := plan_initial_path self (x, y, z) (xd, yd, zd) in
  let path := planned.2 in
  current_path planned.1 = Some path /\
  waypoints planned.1 = path /\
  safety_margin planned.1 = safety_margin self /\
  path = optimize_trajectory (x, y, z) ∅ (xd, yd, zd) /\
  length path = 20%nat /\
  path !! 0%nat = Some (x, y, z) /\
  last path = Some (xd, yd, zd) /\
  total_distance (calculate_path_metrics path) = norm (xd - x, yd - y, zd - z).
Proof.
  intros planned path. unfold path, planned, plan_initial_path.
  cbn [fst snd current_path waypoints safety_margin].
  rewrite missing_risk_level_takes_direct_path. unfold _optimal_path.
  cbn [px py pz fst snd]. unfold px, py, pz. cbn [fst snd].
  split; [reflexivity |]. split; [reflexivity |]. split; [reflexivity |].
  split; [reflexivity |]. split; [apply line_length |].
  split; [apply line_first; lia |]. split; [apply line_last; lia |].
  by destruct (line_metrics x y z xd yd zd 20) as (Hd & _); [lia |].
Qed.

(** X23: the detour of the HIGH tier costs altitude: flying at an altitude
    that is not negative, the conservative path descends from the current
    altitude to the safe altitude and climbs from it to the destination
    altitude, so its total altitude change is the sum of the two, which is at
    least the altitude difference that the direct path covers. *)
Theorem conservative_path_altitude_change (x y z xd yd zd : R) :
  0 <= z ->
  let safe_altitude := Rmin (z * 0.7) zd in
  let m := calculate_path_metrics (_conservative_path (x, y, z) (xd, yd, zd)) in
  total_altitude_change m = (z - safe_altitude) + (zd - safe_altitude) /\
  Rabs (zd - z) <= total_altitude_change m /\
  num_waypoints m = 25%nat.
Proof.
  intros Hz safe m.
  assert (Hs1 : safe <= z) by (unfold safe; pose proof (Rmin_l (z * 0.7) zd); lra).
  assert (Hs2 : safe <= zd) by apply Rmin_r.
  assert (Hm : total_altitude_change m = (z - safe) + (zd - safe)).
  { unfold m, calculate_path_metrics. cbn [total_altitude_change].
    waypoints. fold safe. clearbody safe.
    cbn [map diff pz snd]. unfold pz. cbn [snd].
    rewrite ?INR_IZR_INZ; cbv [Z.of_nat Pos.of_succ_nat Pos.succ].
    repeat match goal with
           | |- context [Rabs ?e] =>
               first [ rewrite (Rabs_right e) by lra
                     | rewrite (Rabs_left1 e) by lra ]
           end.
    unfold sum. cbn [fold_left]. lra. }
  split; [exact Hm |]. split.
  - rewrite Hm. unfold Rabs. destruct (Rcase_abs (zd - z)); lra.
  - unfold m, calculate_path_metrics. cbn [num_waypoints]. waypoints. reflexivity.
Qed.

Lemma conservative_path_altitude_change_witness :
  let safe_altitude := Rmin (50 * 0.7) 50 in
  let m := calculate_path_metrics (_conservative_path (0, 0, 50) (100, 80, 50)) in
  total_altitude_change m = (50 - safe_altitude) + (50 - safe_altitude) /\
  Rabs (50 - 50) <= total_altitude_change m /\
  num_waypoints m = 25%nat.
Proof. apply (conservative_path_altitude_change 0 0 50 100 80 50). lra. Defined.

End PlannerExtras.


(** ** The engine and its history *)

Module EngineExtras.
Import Numpy Engine Mission NumpyTheory AnomalyTheory PlannerTheory PlannerExtras
  EngineTheory.

Lemma detect_failure_risk_assessed (d : Anomaly.AnomalyDetector) (sample : list R)
    (ra : gmap string pyval) :
  Anomaly.detect_failure_risk d sample = Ok ra -> assessed ra.
Proof.
  intros Hra.
  destruct (Anomaly.predict d sample) as [[p s] | e] eqn:Hp.
  - destruct (detect_failure_risk_level d sample p s Hp) as (ra' & Hra' & Hl & Hs).
    assert (ra' = ra) as -> by congruence.
    exists s. split; [exact (predict_score_range d sample p s Hp) |]. by split.
  - unfold Anomaly.detect_failure_risk in Hra. rewrite Hp in Hra. discriminate.
Qed.

Lemma assessed_truthy (ra : gmap string pyval) : assessed ra -> truthy (Some ra) = true.
Proof.
  intros (s & _ & Hs & _). cbn [truthy]. apply negb_true_iff, bool_decide_eq_false.
  intros Hd. apply dom_empty_inv_L in Hd. subst ra. rewrite lookup_empty in Hs.
  discriminate.
Qed.

Lemma reachable_recorded (sklearn_fit : Anomaly.ndarray2 -> result Anomaly.Fitted)
    (sklearn_left : option Anomaly.Fitted -> Anomaly.ndarray2 -> option Anomaly.Fitted)
    (self : DigitalTwinEngine) :
  reachable sklearn_fit sklearn_left self -> recorded self.
Proof.
  induction 1 as [margin | self data _ IH | self s e _ IH | self sample pos now _ IH
                 | self pos dest _ IH | self _ IH].
  - split; [apply Forall_nil_2 | reflexivity].
  - unfold initialize.
    destruct (Anomaly.train sklearn_fit _ data); cbn [snd]; exact IH.
  - unfold start_mission.
    destruct (is_initialized self); cbn [negb snd]; exact IH.
  - unfold update_telemetry.
    destruct (is_initialized self); cbn [negb snd]; [| exact IH].
    destruct (Anomaly.detect_failure_risk _ _) as [ra | err] eqn:Hra;
      cbn [snd]; [| exact IH].
    destruct (detect_failure_risk_has_level _ _ _ Hra) as [s ->].
    destruct IH as [Hall Hlast]. split; cbn.
    + apply Forall_app. split; [exact Hall |].
      apply Forall_cons_2; [| apply Forall_nil_2].
      by eapply detect_failure_risk_assessed.
    + by rewrite last_snoc.
  - unfold replan_trajectory.
    destruct (truthy _); cbn [negb snd]; [| exact IH].
    destruct (risk_assessment (current_state self)) as [ra |] eqn:Hra; cbn [snd];
      [| exact IH].
    destruct IH as [Hall Hlast]. rewrite Hra in Hlast.
    destruct (getitem ra "risk_level"); split; cbn; assumption.
  - destruct IH as [Hall Hlast].
    destruct (stop_mission_state self) as (_ & _ & _ & Hh & Hc).
    unfold recorded. rewrite Hh, Hc. by split.
Qed.

(** The two lists that [get_system_status] reads off the history. *)
Lemma status_lists (assessments : list (gmap string pyval)) :
  Forall assessed assessments ->
  exists scores,
    Forall (fun s => 0 < s < 1) scores /\
    length scores = length assessments /\
    mapM (fun r => getitem r "risk_level") assessments
    = Ok (map (fun s => PyStr (Anomaly.risk_level_of s)) scores) /\
    mapM (fun r => getitem r "anomaly_score" ≫= as_float) assessments = Ok scores.
Proof.
  induction 1 as [| ra l (s & Hs & Hscore & Hlevel) _ (scores & Hall & Hlen & Hl & Hsc)].
  - exists []. split; [apply Forall_nil_2 |]. repeat split; reflexivity.
  - exists (s :: scores). split; [by apply Forall_cons_2 |].
    split; [cbn; by rewrite Hlen |].
    cbn [mapM]. rewrite Hl, Hsc. unfold getitem. rewrite Hscore, Hlevel.
    split; reflexivity.
Qed.

Lemma count_levels (scores : list R) :
  let levels := map (fun s => PyStr (Anomaly.risk_level_of s)) scores in
  (count_level levels "LOW" + count_level levels "MEDIUM"
   + count_level levels "HIGH" + count_level levels "CRITICAL")%nat
  = length scores.
Proof.
  cbv zeta. induction scores as [| s l IH]; [reflexivity |].
  cbn [map length]. unfold count_level in *. rewrite !filter_cons.
  set (levels := map _ l) in *. clearbody levels.
  unfold Anomaly.risk_level_of.
  repeat case_decide;
    repeat match goal with
           | H : eq_str (PyStr _) _ = true |- _ =>
               cbn [eq_str] in H; apply bool_decide_eq_true in H
           | H : eq_str (PyStr _) _ <> true |- _ =>
               cbn [eq_str] in H; rewrite bool_decide_eq_true in H
           end;
    try congruence; cbn [length]; lia.
Qed.

Lemma fold_max_ge (l : list R) (acc : R) :
  acc <= fold_left Rmax l acc /\ Forall (fun x => x <= fold_left Rmax l acc) l.
Proof.
  revert acc. induction l as [| x l IH]; intros acc; cbn [fold_left].
  - split; [lra | apply Forall_nil_2].
  - destruct (IH (Rmax acc x)) as [Hacc Hall].
    pose proof (Rmax_l acc x). pose proof (Rmax_r acc x).
    split; [lra |]. apply Forall_cons_2; [lra | exact Hall].
Qed.

Lemma fold_max_in (l : list R) (acc : R) :
  fold_left Rmax l acc = acc \/ fold_left Rmax l acc ∈ l.
Proof.
  revert acc. induction l as [| x l IH]; intros acc; cbn [fold_left]; [by left |].
  destruct (IH (Rmax acc x)) as [-> | Hin].
  - unfold Rmax. destruct (Rle_dec acc x); [right; apply elem_of_cons; by left | by left].
  - right. apply elem_of_cons. by right.
Qed.

Lemma maximum_bounds (l : list R) :
  l <> [] -> Forall (fun s => 0 < s < 1) l ->
  0 < maximum l < 1 /\ Forall (fun x => x <= maximum l) l.
Proof.
  intros Hne Hall. destruct l as [| x l]; [contradiction |].
  cbn [maximum]. split.
  - destruct (fold_max_in l x) as [-> | Hin].
    + by apply Forall_cons in Hall as [Hx _].
    + apply Forall_cons in Hall as [_ Hl].
      rewrite Forall_forall in Hl. by apply Hl.
  - destruct (fold_max_ge l x) as [Hx Hl]. by apply Forall_cons_2.
Qed.

Lemma positive_floor (l : list R) :
  Forall (fun s => 0 < s < 1) l -> exists a, 0 < a /\ Forall (fun x => a <= x) l.
Proof.
  induction 1 as [| x l Hx _ (a & Ha & Hall)].
  - exists 1. split; [lra | apply Forall_nil_2].
  - exists (Rmin a x). split; [apply Rmin_glb_lt; lra |].
    apply Forall_cons_2; [apply Rmin_r |].
    eapply Forall_impl; [exact Hall |]. cbn. intros y Hy.
    pose proof (Rmin_l a x). lra.
Qed.

Lemma mean_of_scores (l : list R) :
  l <> [] -> Forall (fun s => 0 < s < 1) l -> 0 < mean l <= maximum l.
Proof.
  intros Hne Hall.
  destruct (maximum_bounds l Hne Hall) as [_ Hmax].
  destruct (positive_floor l Hall) as (a & Ha & Hfloor).
  assert (a <= mean l <= maximum l); [| lra].
  apply mean_within; [exact Hne |].
  rewrite Forall_forall in *. intros x Hx. split; [by apply Hfloor | by apply Hmax].
Qed.

(** The status of an engine whose history was written by the risk scorer. *)
Lemma status_of_recorded (self : DigitalTwinEngine) :
  Forall assessed (h_risk_assessments (history self)) ->
  exists st,
    get_system_status self = Ok st /\
    st_total_updates st = length (h_timestamps (history self)) /\
    st_initialized st = is_initialized self /\
    st_mission_active st = mission_active self /\
    match h_risk_assessments (history self) with
    | [] => st_risk_summary st = None
    | _ :: _ =>
        exists rs,
          st_risk_summary st = Some rs /\
          (low_count rs + medium_count rs + high_count rs + critical_count rs)%nat
          = length (h_risk_assessments (history self)) /\
          0 < avg_anomaly_score rs <= max_anomaly_score rs /\
          max_anomaly_score rs < 1
    end.
Proof.
  intros Hall. unfold get_system_status.
  destruct (h_risk_assessments (history self)) as [| ra l] eqn:Hh.
  - rewrite decide_False by (cbn; lia). cbn [mbind result_bind].
    eexists. split; [reflexivity |]. cbn. auto.
  - rewrite decide_True by (cbn; lia).
    destruct (status_lists _ Hall) as (scores & Hs & Hlen & -> & ->).
    cbn [mbind result_bind].
    eexists. split; [reflexivity |]. cbn [st_total_updates st_initialized
      st_mission_active st_risk_summary]. repeat split.
    eexists. split; [reflexivity |].
    cbn [low_count medium_count high_count critical_count avg_anomaly_score
         max_anomaly_score].
    assert (Hne : scores <> []) by (destruct scores; [discriminate | discriminate]).
    split; [rewrite <- Hlen; apply count_levels |].
    split; [by apply mean_of_scores | by apply maximum_bounds].
Qed.


Lemma status_summary_of_history (self self' : DigitalTwinEngine) (st st' : Status) :
  history self' = history self ->
  get_system_status self = Ok st -> get_system_status self' = Ok st' ->
  st_risk_summary st' = st_risk_summary st.
Proof.
  unfold get_system_status. intros ->.
  match goal with
  | |- context [mbind _ ?c] => destruct c as [rs | e]
  end; cbn [mbind result_bind]; [| discriminate].
  intros [= <-] [= <-]. reflexivity.
Qed.

(** X24: on every engine that the public operations produce, the status
    query and [stop_mission] never raise.  The number of updates is the length
    of each history list; without an update there is no risk summary; with
    updates the four tier counts add up to the number of updates and the
    average score is positive, at most the maximum score, which is below 1.
    [stop_mission] reports the same count and the same summary and clears the
    mission flag. *)
Theorem status_of_reachable_engine
    (sklearn_fit : Anomaly.ndarray2 -> result Anomaly.Fitted)
    (sklearn_left : option Anomaly.Fitted -> Anomaly.ndarray2 -> option Anomaly.Fitted)
    (self : DigitalTwinEngine) :
  reachable sklearn_fit sklearn_left self ->
  exists st sm,
    get_system_status self = Ok st /\
    (stop_mission self).1 = Ok sm /\
    mission_active (stop_mission self).2 = false /\
    st_total_updates st = length (h_risk_assessments (history self)) /\
    st_total_updates st = length (h_telemetry (history self)) /\
    st_total_updates st = length (h_positions (history self)) /\
    total_telemetry_updates sm = st_total_updates st /\
    sm_risk_summary sm = st_risk_summary st /\
    final_risk sm = last (h_risk_assessments (history self)) /\
    match st_total_updates st with
    | O => st_risk_summary st = None
    | S _ =>
        exists rs,
          st_risk_summary st = Some rs /\
          (low_count rs + medium_count rs + high_count rs + critical_count rs)%nat
          = st_total_updates st /\
          0 < avg_anomaly_score rs <= max_anomaly_score rs /\
          max_anomaly_score rs < 1
    end.
Proof.
  intros Hr.
  destruct (reachable_consistent _ _ _ Hr) as (_ & _ & Ht & Ha & Hp).
  destruct (reachable_recorded _ _ _ Hr) as [Hall Hlast].
  destruct (status_of_recorded self Hall) as (st & Hst & Hn & _ & _ & Hsum).
  assert (Hstop : exists sm,
             (stop_mission self).1 = Ok sm /\
             total_telemetry_updates sm = length (h_timestamps (history self)) /\
             sm_risk_summary sm = st_risk_summary st /\
             final_risk sm = risk_assessment (current_state self)).
  { unfold stop_mission. cbn [history h_risk_assessments h_timestamps current_state].
    case_decide as Hlen.
    - match goal with
      | |- context [get_system_status ?e] =>
          destruct (status_of_recorded e Hall) as (st' & Hst' & _ & _ & _ & Hsum')
      end.
      rewrite Hst'. cbn [fst]. eexists. split; [reflexivity |].
      cbn [total_telemetry_updates sm_risk_summary final_risk history
           h_timestamps current_state].
      repeat split.
      eapply (status_summary_of_history self _ st st'); [| exact Hst | exact Hst'].
      reflexivity.
    - cbn [fst]. eexists. split; [reflexivity |].
      cbn [total_telemetry_updates sm_risk_summary final_risk history
           h_timestamps current_state].
      repeat split.
      destruct (h_risk_assessments (history self)); [by rewrite Hsum |].
      cbn in Hlen. lia. }
  destruct Hstop as (sm & Hsm & Hsn & Hss & Hsf).
  destruct (stop_mission_state self) as (Hactive & _).
  exists st, sm.
  split; [exact Hst |]. split; [exact Hsm |]. split; [exact Hactive |].
  split; [lia |]. split; [lia |]. split; [lia |]. split; [lia |].
  split; [exact Hss |]. split; [by rewrite Hsf |].
  rewrite Hn, <- Ha.
  destruct (h_risk_assessments (history self)) as [| ra l]; [exact Hsum |].
  cbn [length]. destruct Hsum as (rs & Hrs & Hc & Hm). exists rs.
  split; [exact Hrs |]. split; [| exact Hm]. rewrite Hc. reflexivity.
Qed.

Lemma status_of_reachable_engine_witness :
  let self := (update_telemetry initialized_engine normal_sample (10, 10, 50) 0).2 in
  exists st sm,
    get_system_status self = Ok st /\
    (stop_mission self).1 = Ok sm /\
    mission_active (stop_mission self).2 = false /\
    st_total_updates st = length (h_risk_assessments (history self)) /\
    st_total_updates st = length (h_telemetry (history self)) /\
    st_total_updates st = length (h_positions (history self)) /\
    total_telemetry_updates sm = st_total_updates st /\
    sm_risk_summary sm = st_risk_summary st /\
    final_risk sm = last (h_risk_assessments (history self)) /\
    match st_total_updates st with
    | O => st_risk_summary st = None
    | S _ =>
        exists rs,
          st_risk_summary st = Some rs /\
          (low_count rs + medium_count rs + high_count rs + critical_count rs)%nat
          = st_total_updates st /\
          0 < avg_anomaly_score rs <= max_anomaly_score rs /\
          max_anomaly_score rs < 1
    end.
Proof.
  intros self.
  apply (status_of_reachable_engine Anomaly.fit_constant Anomaly.left_unfitted self).
  apply reach_update_telemetry, reach_initialize, reach_new.
Defined.

(** X25: [start_mission] on an engine that is not initialised raises
    [RuntimeError] and changes nothing.  On an initialised engine it reports
    the status ACTIVE with an initial path of 20 waypoints from the start to
    the end position whose length is the Euclidean distance between the two;
    it sets the mission flag, moves the current position to the start, stores
    the path in the current state and in the planner, and keeps the history,
    so a restart does not forget earlier telemetry. *)
Theorem mission_start_outcome (self : DigitalTwinEngine) (x y z xd yd zd : R) :
  let out := start_mission self (x, y, z) (xd, yd, zd) in
  if is_initialized self then
    exists info,
      out.1 = Ok info /\
      mi_status info = "ACTIVE" /\
      mi_start_position info = (x, y, z) /\
      mi_end_position info = (xd, yd, zd) /\
      length (mi_initial_path info) = 20%nat /\
      mi_initial_path info !! 0%nat = Some (x, y, z) /\
      last (mi_initial_path info) = Some (xd, yd, zd) /\
      Planner.total_distance (mi_path_metrics info) = norm (xd - x, yd - y, zd - z) /\
      mission_active out.2 = true /\
      is_initialized out.2 = true /\
      position (current_state out.2) = (x, y, z) /\
      current_path (current_state out.2) = Some (mi_initial_path info) /\
      Planner.current_path (path_planner out.2) = Some (mi_initial_path info) /\
      risk_assessment (current_state out.2) = risk_assessment (current_state self) /\
      history out.2 = history self
  else
    out = (Raise (RuntimeError "Engine must be initialized before starting mission"),
           self).
Proof.
  intros out. unfold out, start_mission.
  destruct (is_initialized self) eqn:Hi; cbn [negb]; [| reflexivity].
  destruct (optimal_path_facts x y z xd yd zd) as (Hlen & H0 & Hlast & Hd & _).
  set (path := Planner._optimal_path (x, y, z) (xd, yd, zd)) in *.
  assert (Hplan : Planner.plan_initial_path (path_planner self) (x, y, z) (xd, yd, zd)
                  = ({| Planner.safety_margin := Planner.safety_margin (path_planner self);
                        Planner.current_path := Some path;
                        Planner.waypoints := path |}, path)) by reflexivity.
  rewrite Hplan. clearbody path.
  eexists. split; [reflexivity |].
  cbn [fst snd mi_status mi_start_position mi_end_position mi_initial_path
       mi_path_metrics mission_active is_initialized current_state position
       current_path path_planner Planner.current_path risk_assessment history].
  split; [reflexivity |]. split; [reflexivity |]. split; [reflexivity |].
  split; [exact Hlen |]. split; [exact H0 |]. split; [exact Hlast |].
  split; [exact Hd |]. repeat split; assumption.
Qed.

(** X26: a successful telemetry update asks for a new path exactly when the
    score of the sample is at least 0.3, that is when the tier is not LOW; it
    never carries a new path itself, and it reports the position and the time
    of the call with the assessment it stored. *)
Theorem update_flags_replanning (self : DigitalTwinEngine) (sample : list R)
    (pos : point) (now : R) :
  is_ok (update_telemetry self sample pos now).1 ->
  exists r prediction s,
    (update_telemetry self sample pos now).1 = Ok r /\
    Anomaly.predict (anomaly_detector self) sample = Ok (prediction, s) /\
    r_risk_assessment r !! "anomaly_score" = Some (PyFloat s) /\
    r_risk_assessment r !! "risk_level" = Some (PyStr (Anomaly.risk_level_of s)) /\
    (path_update_required r = true <-> 0.3 <= s) /\
    (path_update_required r = false <-> Anomaly.risk_level_of s = "LOW") /\
    new_path r = None /\
    r_position r = pos /\
    r_timestamp r = now.
Proof.
  intros [r Hr]. exists r. revert Hr. unfold update_telemetry.
  destruct (is_initialized self); cbn [negb fst]; [| discriminate].
  destruct (Anomaly.detect_failure_risk _ _) as [ra | e] eqn:Hra;
    cbn [fst]; [| discriminate].
  destruct (Anomaly.predict (anomaly_detector self) sample) as [[p s] | e] eqn:Hp.
  - destruct (detect_failure_risk_level _ sample p s Hp) as (ra' & Hra' & Hl & Hs).
    assert (ra' = ra) as -> by congruence.
    unfold getitem. rewrite Hl. cbn [fst]. intros [= <-].
    exists p, s. split; [reflexivity |]. split; [reflexivity |].
    cbn [r_risk_assessment path_update_required new_path r_position r_timestamp].
    split; [exact Hs |]. split; [exact Hl |].
    unfold Anomaly.risk_level_of, eq_str.
    repeat case_decide; try congruence; cbn; repeat split; intros;
      try discriminate; try lra; try reflexivity.
  - unfold Anomaly.detect_failure_risk in Hra. rewrite Hp in Hra. discriminate.
Qed.

Lemma update_flags_replanning_witness :
  exists r prediction s,
    (update_telemetry initialized_engine normal_sample (10, 10, 50) 0).1 = Ok r /\
    Anomaly.predict (anomaly_detector initialized_engine) normal_sample
    = Ok (prediction, s) /\
    r_risk_assessment r !! "anomaly_score" = Some (PyFloat s) /\
    r_risk_assessment r !! "risk_level" = Some (PyStr (Anomaly.risk_level_of s)) /\
    (path_update_required r = true <-> 0.3 <= s) /\
    (path_update_required r = false <-> Anomaly.risk_level_of s = "LOW") /\
    new_path r = None /\
    r_position r = (10, 10, 50) /\
    r_timestamp r = 0.
Proof.
  apply (update_flags_replanning initialized_engine normal_sample (10, 10, 50) 0).
  eexists. reflexivity.
Defined.

(** X27: on every engine that the public operations produce,
    [replan_trajectory] works from the latest assessment of the history:
    before the first telemetry update it raises [RuntimeError] and changes
    nothing; afterwards it returns the trajectory optimized for that
    assessment with its metrics and risk level, stores the trajectory as the
    current path, and leaves the history and the flags as they are. *)
Theorem replan_uses_latest_assessment
    (sklearn_fit : Anomaly.ndarray2 -> result Anomaly.Fitted)
    (sklearn_left : option Anomaly.Fitted -> Anomaly.ndarray2 -> option Anomaly.Fitted)
    (self : DigitalTwinEngine) (pos dest : point) :
  reachable sklearn_fit sklearn_left self ->
  match last (h_risk_assessments (history self)) with
  | None =>
      replan_trajectory self pos dest
      = (Raise (RuntimeError "No risk assessment available"), self)
  | Some ra =>
      exists rp self',
        replan_trajectory self pos dest = (Ok rp, self') /\
        rp_new_path rp = Planner.optimize_trajectory pos ra dest /\
        rp_path_metrics rp = Planner.calculate_path_metrics (rp_new_path rp) /\
        Some (rp_risk_level rp) = ra !! "risk_level" /\
        current_path (current_state self') = Some (rp_new_path rp) /\
        risk_assessment (current_state self') = Some ra /\
        history self' = history self /\
        is_initialized self' = is_initialized self /\
        mission_active self' = mission_active self
  end.
Proof.
  intros Hr. destruct (reachable_recorded _ _ _ Hr) as [Hall Hlast].
  unfold replan_trajectory. rewrite Hlast.
  destruct (last (h_risk_assessments (history self))) as [ra |] eqn:Hl;
    [| reflexivity].
  assert (Hra : assessed ra).
  { rewrite Forall_forall in Hall. apply Hall.
    apply last_Some in Hl as [l' ->]. apply elem_of_app. right.
    apply elem_of_cons. by left. }
  rewrite (assessed_truthy ra Hra). cbn [negb].
  destruct Hra as (s & _ & _ & Hlevel).
  unfold getitem. rewrite Hlevel.
  do 2 eexists. split; [reflexivity |].
  cbn [rp_new_path rp_path_metrics rp_risk_level current_state current_path
       risk_assessment history is_initialized mission_active].
  repeat split; first [reflexivity | congruence].
Qed.

Lemma replan_uses_latest_assessment_witness :
  let self := (update_telemetry initialized_engine normal_sample (10, 10, 50) 0).2 in
  match last (h_risk_assessments (history self)) with
  | None =>
      replan_trajectory self (10, 10, 50) (100, 80, 50)
      = (Raise (RuntimeError "No risk assessment available"), self)
  | Some ra =>
      exists rp self',
        replan_trajectory self (10, 10, 50) (100, 80, 50) = (Ok rp, self') /\
        rp_new_path rp = Planner.optimize_trajectory (10, 10, 50) ra (100, 80, 50) /\
        rp_path_metrics rp = Planner.calculate_path_metrics (rp_new_path rp) /\
        Some (rp_risk_level rp) = ra !! "risk_level" /\
        current_path (current_state self') = Some (rp_new_path rp) /\
        risk_assessment (current_state self') = Some ra /\
        history self' = history self /\
        is_initialized self' = is_initialized self /\
        mission_active self' = mission_active self
  end.
Proof.
  intros self.
  apply (replan_uses_latest_assessment Anomaly.fit_constant Anomaly.left_unfitted self
           (10, 10, 50) (100, 80, 50)).
  apply reach_update_telemetry, reach_initialize, reach_new.
Defined.



End EngineExtras.

(** ** The feature table *)

Module FeaturesExtras.
Import Pandas Features FeaturesTheory.

Lemma fill_then_replace_finite (s : Series) :
  Forall (fun c => exists r, c = Num r) (replace_inf (fillna 0 s)).
Proof.
  unfold replace_inf, fillna. rewrite map_map. apply Forall_map, Forall_forall.
  intros c _. unfold compose. destruct c as [r | | p]; cbn; eauto.
Qed.

Lemma handle_missing_values_finite (cfg : FeatureConfig) (features : DataFrame) :
  Forall (fun kv : string * Series => Forall (fun c => exists r, c = Num r) kv.2)
    (columns (_handle_missing_values cfg features)).
Proof.
  unfold _handle_missing_values, map_columns, infer_objects. cbn [columns].
  rewrite map_map. apply Forall_map, Forall_forall. intros kv _.
  unfold compose. cbn [snd]. apply fill_then_replace_finite.
Qed.

Lemma detected_sensors_known (df : TelemetryFrame) :
  _detect_available_sensors df
  ⊆ ({["imu"; "gps"; "attitude"; "battery"; "altitude"]} : gset string).
Proof.
  unfold _detect_available_sensors.
  repeat match goal with
         | |- context [above_threshold ?c ?d] => destruct (above_threshold c d)
         end;
    intros name; rewrite ?elem_of_union, ?elem_of_singleton, ?elem_of_empty;
    tauto.
Qed.

(** The steps behind a table that is returned. *)
Lemma extraction_returned (self self' : UniversalFeatureExtractor)
    (records : list TelemetryRecord) (features : DataFrame) :
  extract_features self records = (Ok features, self') ->
  exists df unfilled,
    _records_to_dataframe records = Ok df /\
    features = _handle_missing_values (config self) unfilled /\
    self' = {| config := config self;
               available_sensors := _detect_available_sensors df;
               feature_names := (columns features).*1 |}.
Proof.
  unfold extract_features.
  destruct (_records_to_dataframe records) as [df |]; [| discriminate].
  cbn [config available_sensors]. intros Hret. exists df.
  destruct (sensor_features (config self) (_detect_available_sensors df) df)
    as [f |]; cbn [mbind result_bind] in Hret; [| discriminate Hret].
  destruct (include_statistical (config self)).
  - destruct (_extract_statistical_features (config self) f) as [stat |];
      cbn [mbind result_bind] in Hret; [| discriminate Hret].
    injection Hret as <- <-. eexists. split; [reflexivity |]. split; reflexivity.
  - cbn [mbind result_bind] in Hret.
    injection Hret as <- <-. eexists. split; [reflexivity |]. split; reflexivity.
Qed.

(** Two records of an accelerometer that reports its vertical axis only: the
    jerk along the x axis is taken over a column that no record fills. *)
Lemma vertical_only_batch_raises :
  (extract_features (new None) [vertical_record 0 9.81; vertical_record 1 9.81]).1
  = Raise (TypeError "unsupported operand type(s) for -: 'NoneType' and 'NoneType'").
Proof.
  set (records := [vertical_record 0 9.81; vertical_record 1 9.81]).
  destruct (records_to_dataframe_ok records ltac:(discriminate))
    as (df & Hdf & Hlen & Hok).
  assert (Hdf' := Hdf). cbn in Hdf'. injection Hdf' as Hdf'.
  assert (Hs : "imu" ∈ _detect_available_sensors df).
  { apply imu_detected. subst df.
    apply bool_decide_eq_true_2. cbn [len length INR df_accel_x df_accel_y df_accel_z].
    change (count_notna _ + count_notna _ + count_notna _)%nat with 2%nat.
    cbn [INR]. lra. }
  pose proof (sensor_features_outcome (config (new None))
                (_detect_available_sensors df) df Hok) as Ho.
  assert (Hfail : rates_fail (config (new None)) (_detect_available_sensors df) df
                  = true).
  { unfold rates_fail. rewrite (bool_decide_eq_true_2 _ Hs).
    assert (Hx : rate_fails (df_accel_x df) = true) by (subst df; reflexivity).
    rewrite Hx. reflexivity. }
  rewrite Hfail in Ho.
  exact (extract_features_untyped (new None) records df _ Hdf Ho).
Qed.

(** X29: every cell of a feature table that the extraction returns is a
    finite number: no missing value and no infinity is left, whatever the
    fill method and the rolling window.  The extractor then lists exactly the
    columns of the table as its feature names, keeps its configuration, and
    has detected sensors among imu, gps, attitude, battery and altitude
    only.  For a non-empty batch such a table is returned whenever the
    rolling window is at least 1 and no rate of change is taken over a field
    without any reading. *)
Theorem returned_table_is_finite (self : UniversalFeatureExtractor)
    (records : list TelemetryRecord) :
  records <> [] ->
  (forall features self',
     extract_features self records = (Ok features, self') ->
     Forall (fun kv : string * Series => Forall (fun c => exists r, c = Num r) kv.2)
       (columns features) /\
     feature_names self' = (columns features).*1 /\
     config self' = config self /\
     available_sensors self'
     ⊆ ({["imu"; "gps"; "attitude"; "battery"; "altitude"]} : gset string)) /\
  ((1 <= rolling_window_size (config self))%Z ->
   untyped_rates (config self) records = false ->
   is_ok (extract_features self records).1).
Proof.
  intros Hne. split.
  - intros features self' Hret.
    destruct (extraction_returned self self' records features Hret)
      as (df & unfilled & Hdf & -> & ->).
    cbn [feature_names config available_sensors].
    split; [apply handle_missing_values_finite |].
    split; [reflexivity |]. split; [reflexivity |].
    apply detected_sensors_known.
  - intros Hw Hty.
    destruct (extraction_returns self records Hne Hw Hty) as (df & u & _ & _ & ->).
    eexists. reflexivity.
Qed.

Lemma returned_table_is_finite_witness :
  (forall features self',
     extract_features (new None) [hover_record 0; hover_record 0.1; hover_record 0.2]
     = (Ok features, self') ->
     Forall (fun kv : string * Series => Forall (fun c => exists r, c = Num r) kv.2)
       (columns features) /\
     feature_names self' = (columns features).*1 /\
     config self' = config (new None) /\
     available_sensors self'
     ⊆ ({["imu"; "gps"; "attitude"; "battery"; "altitude"]} : gset string)) /\
  ((1 <= rolling_window_size (config (new None)))%Z ->
   untyped_rates (config (new None))
     [hover_record 0; hover_record 0.1; hover_record 0.2] = false ->
   is_ok (extract_features (new None)
            [hover_record 0; hover_record 0.1; hover_record 0.2]).1).
Proof.
  apply (returned_table_is_finite (new None)
           [hover_record 0; hover_record 0.1; hover_record 0.2]).
  discriminate.
Defined.

(** X30: a failed extraction never touches the feature names or the
    configuration of the extractor.  An empty batch raises [KeyError] for the
    timestamp column and leaves the extractor as it was.  A non-empty batch
    that fails has already stored the sensors detected in it; it fails with
    [TypeError] when a rate of change is taken over a field without any
    reading, and otherwise with the [ValueError] of a rolling window smaller
    than 1, rolling statistics being enabled. *)
Theorem failed_extraction_state (self : UniversalFeatureExtractor)
    (records : list TelemetryRecord) (e : exn) :
  (extract_features self records).1 = Raise e ->
  let self' := (extract_features self records).2 in
  feature_names self' = feature_names self /\
  config self' = config self /\
  match records with
  | [] => e = KeyError "timestamp" /\ self' = self
  | _ :: _ =>
      (exists df, _records_to_dataframe records = Ok df /\
                  available_sensors self' = _detect_available_sensors df) /\
      if untyped_rates (config self) records
      then exists msg, e = TypeError msg
      else (exists msg, e = ValueError msg) /\
           (rolling_window_size (config self) < 1)%Z /\
           include_statistical (config self) = true
  end.
Proof.
  intros He self'. unfold self'. clear self'.
  destruct records as [| r records].
  - cbn in He. injection He as <-. cbn. auto.
  - destruct (records_to_dataframe_ok (r :: records) ltac:(discriminate))
      as (df & Hdf & Hlen & Hok).
    rewrite (untyped_rates_frame _ _ df Hdf).
    pose proof (sensor_features_outcome (config self) (_detect_available_sensors df)
                  df Hok) as Ho.
    destruct (rates_fail (config self) (_detect_available_sensors df) df) eqn:Hty.
    + revert He. unfold extract_features. rewrite Hdf.
      cbn [config available_sensors]. rewrite Ho.
      cbn [mbind result_bind fst snd feature_names config available_sensors].
      intros [= <-]. split; [reflexivity |]. split; [reflexivity |].
      split; [exists df; split; reflexivity | eexists; reflexivity].
    + destruct (decide (1 <= rolling_window_size (config self))%Z) as [Hw | Hw].
      { destruct (extraction_returns self (r :: records) ltac:(discriminate) Hw)
          as (df' & unfilled & _ & _ & Heq).
        { by rewrite (untyped_rates_frame _ _ df Hdf). }
        rewrite Heq in He. discriminate. }
      destruct Ho as (f & Hf & Hrows).
      revert He. unfold extract_features. rewrite Hdf.
      cbn [config available_sensors].
      rewrite Hf. cbn [mbind result_bind].
      destruct (include_statistical (config self)) eqn:Hstat;
        cbn [mbind result_bind fst snd]; [| discriminate].
      destruct (key_cols f) as [| k ks] eqn:Hk.
      * rewrite (statistical_features_no_keys _ f Hk). cbn [mbind result_bind fst].
        discriminate.
      * rewrite (statistical_features_invalid (config self) f)
          by (try lia; rewrite Hk; discriminate).
        cbn [mbind result_bind fst snd feature_names config available_sensors].
        intros [= <-]. split; [reflexivity |]. split; [reflexivity |].
        split; [exists df; split; reflexivity |].
        split; [eexists; reflexivity |]. split; [lia | reflexivity].
Qed.

Lemma failed_extraction_state_witness :
  let records := [vertical_record 0 9.81; vertical_record 1 9.81] in
  let self' := (extract_features (new None) records).2 in
  feature_names self' = feature_names (new None) /\
  config self' = config (new None) /\
  (exists df, _records_to_dataframe records = Ok df /\
              available_sensors self' = _detect_available_sensors df) /\
  if untyped_rates (config (new None)) records
  then exists msg,
         TypeError "unsupported operand type(s) for -: 'NoneType' and 'NoneType'"
         = TypeError msg
  else (exists msg,
          TypeError "unsupported operand type(s) for -: 'NoneType' and 'NoneType'"
          = ValueError msg) /\
       (rolling_window_size (config (new None)) < 1)%Z /\
       include_statistical (config (new None)) = true.
Proof.
  apply (failed_extraction_state (new None)
           [vertical_record 0 9.81; vertical_record 1 9.81]
           (TypeError "unsupported operand type(s) for -: 'NoneType' and 'NoneType'")).
  apply vertical_only_batch_raises.
Defined.

End FeaturesExtras.
